(** * Transaction summary dashboard: date windows, row filter, aggregation

    A shallow embedding of the three functions of [sales.py] that carry
    logic, [get_date_range], [filter_data_by_date] and
    [load_and_process_data], with the parts of CPython's [datetime] and of
    pandas they call.

    - Python integers are [Z]; a Python exception is the [Raise] branch of
      [result].
    - A [datetime] is the record of its seven fields (naive, no time zone);
      the ordinal algorithms are those of CPython ([_ymd2ord], [_ord2ymd]),
      with the bounds of the type, years 1 to 9999.
    - A pandas [Timestamp] is its count of nanoseconds since 1970-01-01, an
      integer without bounds.
    - A data frame is its list of column labels and its list of rows; the
      two columns the aggregation reads are typed fields of a row, every
      other column, the date column among them, is an entry of the row's
      map from label to cell.
    - The date parser of [pd.to_datetime] is a parameter.
    - Amounts are float64: binary64 numbers as the Standard Library
      specifies them ([SpecFloat], round to nearest even), NaN for a
      missing value. [round(2)] is numpy's: multiply by 100, [rint], divide
      by 100.
    - [sales.py] leaves three things to pandas and numpy, which differ
      with their versions and the machine: the order of the additions of
      a float64 sum ([groupby(...).sum] and [Series.sum]) and the order
      that the default sort, which is not stable, gives to rows of equal
      key. They are the fields of the parameter [Numerics]; every theorem
      holds for all of them.
    - Of the script of the page, the expressions that decide what is shown
      are embedded: the options of the select box, the test on the summary
      and [head(10)]. *)

From Stdlib Require Import ZArith Lia List Ascii Sorted Permutation SpecFloat.
From stdpp Require Import gmap strings list.

Local Open Scope Z_scope.

(** ** Python exceptions and results *)

Module Py.

Inductive exn : Type :=
| ValueError
| OverflowError
| KeyError (label : string).

Inductive result (A : Type) : Type :=
| Ok (a : A)
| Raise (e : exn).

Arguments Ok {A} a.
Arguments Raise {A} e.

Definition bind {A B : Type} (r : result A) (k : A -> result B) : result B :=
  match r with
  | Ok a => k a
  | Raise e => Raise e
  end.

End Py.

Import Py.

Notation "'let*' x ':=' c1 'in' c2" := (Py.bind c1 (fun x => c2))
  (at level 10, x pattern, c1 at level 200, c2 at level 200).

(** ** CPython's datetime: the proleptic Gregorian calendar *)

Module Datetime.

Definition MINYEAR : Z := 1.
Definition MAXYEAR : Z := 9999.
Definition _MAXORDINAL : Z := 3652059.

(** [_is_leap]: year -> 1 if leap year, else 0. *)
Definition _is_leap (year : Z) : bool :=
  (year mod 4 =? 0) && (negb (year mod 100 =? 0) || (year mod 400 =? 0)).

(** [_days_before_year]: number of days before January 1st of year. *)
Definition _days_before_year (year : Z) : Z :=
  let y := year - 1 in
  y * 365 + y / 4 - y / 100 + y / 400.

(** The table [_DAYS_IN_MONTH]; index 0 holds the placeholder -1. *)
Definition _DAYS_IN_MONTH (month : Z) : Z :=
  match month with
  | 1 => 31 | 2 => 28 | 3 => 31 | 4 => 30 | 5 => 31 | 6 => 30
  | 7 => 31 | 8 => 31 | 9 => 30 | 10 => 31 | 11 => 30 | 12 => 31
  | _ => -1
  end.

(** The table [_DAYS_BEFORE_MONTH], the running sums of [_DAYS_IN_MONTH]. *)
Definition _DAYS_BEFORE_MONTH (month : Z) : Z :=
  match month with
  | 1 => 0 | 2 => 31 | 3 => 59 | 4 => 90 | 5 => 120 | 6 => 151
  | 7 => 181 | 8 => 212 | 9 => 243 | 10 => 273 | 11 => 304 | 12 => 334
  | _ => -1
  end.

Definition _days_in_month (year month : Z) : Z :=
  if (month =? 2) && _is_leap year then 29 else _DAYS_IN_MONTH month.

Definition _days_before_month (year month : Z) : Z :=
  _DAYS_BEFORE_MONTH month + (if (2 <? month) && _is_leap year then 1 else 0).

Definition _ymd2ord (year month day : Z) : Z :=
  _days_before_year year + _days_before_month year month + day.

Definition _DI400Y : Z := 146097.
Definition _DI100Y : Z := 36524.
Definition _DI4Y : Z := 1461.

(** [_ord2ymd]: ordinal -> (year, month, day), considering 01-Jan-0001 as
    day 1. *)
Definition _ord2ymd (n0 : Z) : Z * Z * Z :=
  let n := n0 - 1 in
  let n400 := n / _DI400Y in
  let n := n mod _DI400Y in
  let year := n400 * 400 + 1 in
  let n100 := n / _DI100Y in
  let n := n mod _DI100Y in
  let n4 := n / _DI4Y in
  let n := n mod _DI4Y in
  let n1 := n / 365 in
  let n := n mod 365 in
  let year := year + (n100 * 100 + n4 * 4 + n1) in
  if (n1 =? 4) || (n100 =? 4) then (year - 1, 12, 31)
  else
    let leapyear := (n1 =? 3) && (negb (n4 =? 24) || (n100 =? 3)) in
    let month := Z.shiftr (n + 50) 5 in
    let preceding :=
      _DAYS_BEFORE_MONTH month + (if (2 <? month) && leapyear then 1 else 0) in
    if n <? preceding then
      let month := month - 1 in
      let preceding :=
        preceding
        - (_DAYS_IN_MONTH month + (if (month =? 2) && leapyear then 1 else 0)) in
      (year, month, n - preceding + 1)
    else (year, month, n - preceding + 1).

(** A [datetime] object (naive: no tzinfo). *)
Record datetime : Type := mkdatetime {
  year : Z;
  month : Z;
  day : Z;
  hour : Z;
  minute : Z;
  second : Z;
  microsecond : Z
}.

(** [_check_date_fields] and [_check_time_fields] of the constructor. *)
Definition _check_date_fields (y m d : Z) : bool :=
  (MINYEAR <=? y) && (y <=? MAXYEAR) &&
  (1 <=? m) && (m <=? 12) &&
  (1 <=? d) && (d <=? _days_in_month y m).

Definition _check_time_fields (h mi s us : Z) : bool :=
  (0 <=? h) && (h <=? 23) && (0 <=? mi) && (mi <=? 59) &&
  (0 <=? s) && (s <=? 59) && (0 <=? us) && (us <=? 999999).

(** The values of the type: what the constructor accepts. *)
Definition valid (d : datetime) : bool :=
  _check_date_fields (year d) (month d) (day d) &&
  _check_time_fields (hour d) (minute d) (second d) (microsecond d).

(** [datetime(y, m, d, h, mi, s, us)]: ValueError on a field out of range. *)
Definition new (y m d h mi s us : Z) : result datetime :=
  if _check_date_fields y m d && _check_time_fields h mi s us
  then Ok (mkdatetime y m d h mi s us)
  else Raise ValueError.

(** [self.replace(year=..., month=..., ...)]: an absent keyword keeps the
    field; the new object goes through the constructor's checks. *)
Definition replace (self : datetime)
    (y m d h mi s us : option Z) : result datetime :=
  new (default (year self) y) (default (month self) m) (default (day self) d)
      (default (hour self) h) (default (minute self) mi)
      (default (second self) s) (default (microsecond self) us).

Definition toordinal (self : datetime) : Z :=
  _ymd2ord (year self) (month self) (day self).

(** [self - timedelta(days=n)], that is [self + timedelta(days=-n)]: the day
    count moves, the time of day stays; OverflowError outside
    0 < days <= _MAXORDINAL. *)
Definition sub_days (self : datetime) (n : Z) : result datetime :=
  let days := toordinal self - n in
  if (0 <? days) && (days <=? _MAXORDINAL) then
    let '(y, m, d) := _ord2ymd days in
    Ok (mkdatetime y m d (hour self) (minute self) (second self)
          (microsecond self))
  else Raise OverflowError.

(** [_cmp] on the tuples of fields, as [datetime._cmp] does. *)
Fixpoint cmp_fields (a b : list Z) : comparison :=
  match a, b with
  | x :: a', y :: b' =>
      match x ?= y with
      | Eq => cmp_fields a' b'
      | c => c
      end
  | [], [] => Eq
  | [], _ :: _ => Lt
  | _ :: _, [] => Gt
  end.

Definition fields (d : datetime) : list Z :=
  [year d; month d; day d; hour d; minute d; second d; microsecond d].

Definition _cmp (a b : datetime) : comparison :=
  cmp_fields (fields a) (fields b).

(** [a <= b] *)
Definition le (a b : datetime) : bool :=
  match _cmp a b with
  | Gt => false
  | _ => true
  end.

End Datetime.

(** ** The parts of pandas the program calls *)

Module Pandas.
Import Datetime.

(** *** Timestamps: nanoseconds since 1970-01-01T00:00 *)

Definition NS_PER_SECOND : Z := 1000000000.
Definition NS_PER_DAY : Z := 86400 * NS_PER_SECOND.

(** [datetime(1970, 1, 1).toordinal()] *)
Definition EPOCH_ORDINAL : Z := 719163.

(** [pd.Timestamp(d)] for a naive [datetime]. *)
Definition Timestamp (d : datetime) : Z :=
  ((toordinal d - EPOCH_ORDINAL) * 86400
   + hour d * 3600 + minute d * 60 + second d) * NS_PER_SECOND
  + microsecond d * 1000.

(** [t.normalize()]: the midnight of the timestamp's day. *)
Definition normalize (t : Z) : Z := t - t mod NS_PER_DAY.

Definition Timedelta_days (n : Z) : Z := n * NS_PER_DAY.
Definition Timedelta_seconds (n : Z) : Z := n * NS_PER_SECOND.

(** *** float64 *)

(** A float64 that is a number: a signed zero, a signed infinity, or
    [(-1)^s * m * 2^e]. *)
Inductive number : Type :=
| Zero (negative : bool)
| Infinity (negative : bool)
| Finite (negative : bool) (mantissa : positive) (exponent : Z).

#[export] Instance number_eq_dec : EqDecision number.
Proof. solve_decision. Defined.

(** A float64: a number or NaN, which is [None]; NaN is also what a float
    column holds for a missing value. *)
Definition float : Type := option number.

Definition to_spec (x : float) : spec_float :=
  match x with
  | None => S754_nan
  | Some (Zero s) => S754_zero s
  | Some (Infinity s) => S754_infinity s
  | Some (Finite s m e) => S754_finite s m e
  end.

Definition of_spec (x : spec_float) : float :=
  match x with
  | S754_nan => None
  | S754_zero s => Some (Zero s)
  | S754_infinity s => Some (Infinity s)
  | S754_finite s m e => Some (Finite s m e)
  end.

(** binary64 *)
Definition prec : Z := 53.
Definition emax : Z := 1024.

Definition fadd (x y : float) : float :=
  of_spec (SFadd prec emax (to_spec x) (to_spec y)).

Definition fmul (x y : float) : float :=
  of_spec (SFmul prec emax (to_spec x) (to_spec y)).

Definition fdiv (x y : float) : float :=
  of_spec (SFdiv prec emax (to_spec x) (to_spec y)).

(** [x < y] and [x == y]: false when one of the two is NaN. *)
Definition flt (x y : float) : bool := SFltb (to_spec x) (to_spec y).
Definition feqb (x y : float) : bool := SFeqb (to_spec x) (to_spec y).

(** [float(n)] *)
Definition of_Z (n : Z) : float :=
  of_spec (binary_normalize prec emax n 0 false).

(** [numpy.rint]: to the nearest integer, halves to the even one; the sign
    stays, of a zero too. *)
Definition rint (x : float) : float :=
  match x with
  | Some (Finite s m e) =>
      if 0 <=? e then x
      else
        let d := 2 ^ (- e) in
        let q := Z.pos m / d in
        let r2 := 2 * (Z.pos m mod d) in
        let n := if r2 <? d then q
                 else if d <? r2 then q + 1
                 else if Z.even q then q else q + 1 in
        of_spec (binary_normalize prec emax (cond_Zopp s n) 0 s)
  | _ => x
  end.

(** [x.round(2)], as numpy rounds a float64 to decimals:
    [rint(x * 100) / 100]. *)
Definition round2 (x : float) : float :=
  fdiv (rint (fmul x (of_Z 100))) (of_Z 100).

(** *** Cells, rows and frames *)

(** A cell of an untyped column: missing (NaN, None or NaT), text as read
    from the file, or a timestamp. *)
Inductive cell : Type :=
| NaN
| Str (s : string)
| Time (t : Z).

#[export] Instance cell_eq_dec : EqDecision cell.
Proof. solve_decision. Defined.

Definition isna (c : cell) : bool :=
  match c with
  | NaN => true
  | _ => false
  end.

(** A row of a frame that has the two columns the aggregation reads:
    'Transaction Category', text, and 'Amount Paid', float64 (a missing
    value is [None]), and the cells of the other columns by label. A frame
    without one of the two columns, on which [groupby] raises KeyError,
    or with values of another type in them, is outside this embedding. *)
Record row : Type := mkrow {
  Transaction_Category : option string;
  Amount_Paid : float;
  cells : gmap string cell
}.

(** A frame: the labels of its columns other than these two, in order, and
    its rows. The date column of a call is one of these columns: a call
    that names 'Transaction Category' or 'Amount Paid' as its date column,
    and so turns that column into timestamps, is outside this embedding. *)
Record DataFrame : Type := mkframe {
  columns : list string;
  rows : list row
}.

(** [label in df.columns], for a label other than the two columns of the
    aggregation. *)
Definition has_column (label : string) (df : DataFrame) : bool :=
  bool_decide (label ∈ columns df).

(** [r[label]]: a row that holds nothing under the label reads as missing. *)
Definition get (label : string) (r : row) : cell :=
  default NaN (cells r !! label).

Definition set (label : string) (c : cell) (r : row) : row :=
  mkrow (Transaction_Category r) (Amount_Paid r) (<[label := c]> (cells r)).

(** [df.empty] *)
Definition empty (df : DataFrame) : bool :=
  match rows df with
  | [] => true
  | _ :: _ => false
  end.

(** [df[label]]: the cells of a column, row by row. *)
Definition column (label : string) (df : DataFrame) : list cell :=
  map (get label) (rows df).

(** [df[label] = f(df[src])], a column computed from the column [src] and
    stored under [label]; [f] sees the whole column and the cell of the
    row. KeyError when [src] is no column; a new label is appended to the
    columns. *)
Definition assign (label src : string) (f : list cell -> cell -> cell)
    (df : DataFrame) : result DataFrame :=
  if has_column src df then
    Ok (mkframe
          (if has_column label df then columns df else columns df ++ [label])
          (map (fun r => set label (f (column src df) (get src r)) r)
             (rows df)))
  else Raise (KeyError src).

(** [df.dropna(subset=[label])] *)
Definition dropna (label : string) (df : DataFrame) : result DataFrame :=
  if has_column label df then
    Ok (mkframe (columns df)
          (List.filter (fun r => negb (isna (get label r))) (rows df)))
  else Raise (KeyError label).

(** [df[mask]] for a mask computed row by row. *)
Definition select (mask : row -> bool) (df : DataFrame) : DataFrame :=
  mkframe (columns df) (List.filter mask (rows df)).

(** [df.drop(columns=[label])] *)
Definition drop (label : string) (df : DataFrame) : result DataFrame :=
  if has_column label df then
    Ok (mkframe
          (List.filter (fun c => negb (String.eqb c label)) (columns df))
          (map (fun r => mkrow (Transaction_Category r) (Amount_Paid r)
                           (delete label (cells r))) (rows df)))
  else Raise (KeyError label).

Section Parsing.

(** The date parser behind [pd.to_datetime]: the timestamp a text denotes,
    if any. The parser sees the whole column, since pandas may settle the
    format of the dates from the values of the column. *)
Variable parse_datetime : list cell -> string -> option Z.

(** [pd.to_datetime(values, errors='coerce')] at one cell of the column: a
    text that does not parse becomes NaT; a timestamp stays. *)
Definition to_datetime (values : list cell) (c : cell) : cell :=
  match c with
  | NaN => NaN
  | Str s =>
      match parse_datetime values s with
      | Some t => Time t
      | None => NaN
      end
  | Time t => Time t
  end.

End Parsing.

(** [c.dt.normalize()] on one cell of a datetime column. *)
Definition dt_normalize (c : cell) : cell :=
  match c with
  | Time t => Time (normalize t)
  | _ => NaN
  end.

(** [c >= t] and [c <= t] against a timestamp: false on NaT. *)
Definition ge (c : cell) (t : Z) : bool :=
  match c with
  | Time u => t <=? u
  | _ => false
  end.

Definition le (c : cell) (t : Z) : bool :=
  match c with
  | Time u => u <=? t
  | _ => false
  end.

(** *** Grouping and aggregation *)

(** A row of the summary table. *)
Record summary_row : Type := mksummary {
  category : string;
  transactions : Z;
  total : float
}.

(** What [sales.py] leaves to pandas and numpy. The float64 sum of a group
    ([groupby(...).sum], over the values that are not missing, in the order
    of the frame) and of a column ([Series.sum]) add in an order, and with
    a compensation, that is the library's. The default kind of
    [sort_values], numpy's quicksort, is not stable: which of two rows of
    equal key comes first is the sort's choice, [ties x y] when [x] meets
    [y]. *)
Record Numerics : Type := mknumerics {
  group_sum : list number -> float;
  series_sum : list float -> float;
  ties : summary_row -> summary_row -> bool
}.

Section Library.

Variable lib : Numerics.

(** The float64 sum of the numbers of a group: 0.0 when there is none,
    else the library's sum. *)
Definition sum_numbers (l : list number) : float :=
  match l with
  | [] => of_Z 0
  | _ :: _ => group_sum lib l
  end.

(** ['sum'] of a column of a group: missing values are skipped. *)
Definition sum (l : list float) : float :=
  sum_numbers (omap id l).

(** [Series.sum]: 0.0 for a column without rows, else the library's
    sum. *)
Definition Series_sum (l : list float) : float :=
  match l with
  | [] => of_Z 0
  | _ :: _ => series_sum lib l
  end.

(** ['count'] of a column: the number of values that are not missing. *)
Definition count (l : list float) : Z :=
  Z.of_nat (length (omap id l)).

(** [sort_values(by, ascending=False)], as pandas runs it: the rows whose
    key is NaN are set aside, the others are reversed, sorted in ascending
    order and reversed again; the rows with NaN come last, in their order.
    The ascending sort inserts each row before the first row it comes
    before: a row of smaller key, or one of equal key that [ties] puts
    after it. With [ties] constantly true this is the insertion sort that
    numpy runs on a short array, which keeps the order of equal keys. *)
Definition before (x y : summary_row) : bool :=
  flt (total x) (total y) || (feqb (total x) (total y) && ties lib x y).

Fixpoint insert_sorted (x : summary_row) (l : list summary_row)
  : list summary_row :=
  match l with
  | [] => [x]
  | y :: l' =>
      if before x y then x :: l
      else y :: insert_sorted x l'
  end.

Definition sort_ascending (l : list summary_row) : list summary_row :=
  fold_right insert_sorted [] l.

Definition isna_total (x : summary_row) : bool :=
  bool_decide (total x = None).

Definition sort_values_descending (l : list summary_row) : list summary_row :=
  rev (sort_ascending (rev (List.filter (fun x => negb (isna_total x)) l)))
  ++ List.filter isna_total l.

End Library.

(** The keys of [groupby] (sort=True, dropna=True): the distinct labels
    that occur, in ascending order. *)
Fixpoint insert_key (k : string) (keys : list string) : list string :=
  match keys with
  | [] => [k]
  | k' :: rest =>
      match String.compare k k' with
      | Lt => k :: keys
      | Eq => keys
      | Gt => k' :: insert_key k rest
      end
  end.

Definition group_keys (rs : list row) : list string :=
  fold_right insert_key [] (omap Transaction_Category rs).

Definition in_group (k : string) (r : row) : bool :=
  bool_decide (Transaction_Category r = Some k).

(** [groupby('Transaction Category')]: each key with its rows, in the order
    of the frame. Rows without a category are in no group. *)
Definition groupby (rs : list row) : list (string * list row) :=
  map (fun k => (k, List.filter (in_group k) rs)) (group_keys rs).

End Pandas.

(** ** sales.py *)

Module Sales.
Import Datetime Pandas.

(** *** get_date_range *)

Section Clock.

(** [datetime.now()] *)
Variable now : datetime.

Definition get_date_range (filter_option : string)
    (reference_date : option datetime)
  : result (option datetime * option datetime) :=
  let reference_date := default now reference_date in
  let* today :=
    replace reference_date None None None (Some 0) (Some 0) (Some 0) (Some 0) in
  if String.eqb filter_option "Today" then
    Ok (Some today, Some today)
  else if String.eqb filter_option "Yesterday" then
    let* yesterday := sub_days today 1 in
    Ok (Some yesterday, Some yesterday)
  else if String.eqb filter_option "Last 7 Days" then
    let* start_date := sub_days today 6 in
    Ok (Some start_date, Some today)
  else if String.eqb filter_option "Last 30 Days" then
    let* start_date := sub_days today 29 in
    Ok (Some start_date, Some today)
  else if String.eqb filter_option "Last 90 Days" then
    let* start_date := sub_days today 89 in
    Ok (Some start_date, Some today)
  else if String.eqb filter_option "Last 180 Days" then
    let* start_date := sub_days today 179 in
    Ok (Some start_date, Some today)
  else if String.eqb filter_option "Last 365 Days" then
    let* start_date := sub_days today 364 in
    Ok (Some start_date, Some today)
  else if String.eqb filter_option "This Month" then
    let* start_date := replace today None None (Some 1) None None None None in
    Ok (Some start_date, Some today)
  else if String.eqb filter_option "Previous Month" then
    let* first_day_this_month :=
      replace today None None (Some 1) None None None None in
    let* last_day_prev_month := sub_days first_day_this_month 1 in
    let* start_date :=
      replace last_day_prev_month None None (Some 1) None None None None in
    Ok (Some start_date, Some last_day_prev_month)
  else if String.eqb filter_option "This Year" then
    let* start_date :=
      replace today None (Some 1) (Some 1) None None None None in
    Ok (Some start_date, Some today)
  else if String.eqb filter_option "Previous Year" then
    let* start_date :=
      replace today (Some (year today - 1)) (Some 1) (Some 1)
        None None None None in
    let* end_date :=
      replace today (Some (year today - 1)) (Some 12) (Some 31)
        None None None None in
    Ok (Some start_date, Some end_date)
  else (* "All Time" *)
    Ok (None, None).

End Clock.

(** *** filter_data_by_date *)

Section Filter.

Variable parse_datetime : list cell -> string -> option Z.

Definition filter_data_by_date (df : DataFrame)
    (start_date end_date : option datetime) (date_column : string)
  : result DataFrame :=
  match start_date, end_date with
  | Some start_date, Some end_date =>
      let df_filtered := df in
      let* df_filtered :=
        assign date_column date_column (to_datetime parse_datetime)
          df_filtered in
      let* df_filtered := dropna date_column df_filtered in
      (* Normalize dates to midnight for comparison *)
      let* df_filtered :=
        assign "date_only" date_column (fun _ => dt_normalize) df_filtered in
      let start_date_normalized := normalize (Timestamp start_date) in
      let end_date_normalized :=
        normalize (Timestamp end_date)
        + Timedelta_days 1 - Timedelta_seconds 1 in
      let mask (r : row) :=
        Pandas.ge (get "date_only" r) start_date_normalized
        && Pandas.le (get "date_only" r) end_date_normalized in
      drop "date_only" (select mask df_filtered)
  | _, _ => Ok df
  end.

(** *** load_and_process_data *)

(** What the function returns: the six-fold None after a file that could
    not be read, or the original frame, the summary (None when no row is
    left), the two grand totals and the window. *)
Inductive bundle : Type :=
| LoadFailed
| Bundle (original_df : DataFrame)
         (transaction_summary : option (list summary_row))
         (grand_total_amount : float) (grand_total_count : Z)
         (start_date end_date : option datetime).

Variable lib : Numerics.

(** Lines 192 to 197: group, count and sum per group, round the sums. *)
Definition summarize (df : DataFrame) : list summary_row :=
  map (fun g : string * list row =>
         let amounts := map Amount_Paid (snd g) in
         mksummary (fst g) (count amounts) (round2 (Pandas.sum lib amounts)))
      (groupby (rows df)).

(** Lines 189 to 203, from the test [df.empty] to the return: the summary
    and the grand totals of a frame. *)
Definition aggregate (df : DataFrame)
  : option (list summary_row) * float * Z :=
  if empty df then (None, of_Z 0, 0)
  else
    let transaction_summary :=
      sort_values_descending lib (summarize df) in
    let grand_total_amount :=
      Series_sum lib (map total transaction_summary) in
    let grand_total_count :=
      fold_left Z.add (map transactions transaction_summary) 0 in
    (Some transaction_summary, grand_total_amount, grand_total_count).

Variable now : datetime.

(** [file] is what [pd.read_csv] or [pd.read_excel] made of the upload,
    None when it raised. *)
Definition load_and_process_data (file : option DataFrame)
    (filter_option : string) (date_column : string) : result bundle :=
  match file with
  | None => Ok LoadFailed
  | Some df =>
      let original_df := df in
      let* df :=
        (if has_column date_column df then
           let* df := assign date_column date_column
                       (to_datetime parse_datetime) df in
           dropna date_column df
         else Ok df) in
      let* (start_date, end_date) := get_date_range now filter_option None in
      let* df :=
        (if bool_decide (start_date <> None) && has_column date_column df
         then filter_data_by_date df start_date end_date date_column
         else Ok df) in
      let '(transaction_summary, grand_total_amount, grand_total_count) :=
        aggregate df in
      Ok (Bundle original_df transaction_summary grand_total_amount
            grand_total_count start_date end_date)
  end.

End Filter.

End Sales.

(** ** The page around the three functions *)

Module Dashboard.
Import Pandas Sales.

(** Lines 230 to 243: the options of the select box; the first one is the
    default. *)
Definition filter_options : list string :=
  ["All Time"; "Today"; "Yesterday"; "Last 7 Days"; "Last 30 Days";
   "Last 90 Days"; "Last 180 Days"; "Last 365 Days"; "This Month";
   "Previous Month"; "This Year"; "Previous Year"]%string.

(** Lines 283 and 427: what the page shows below the filter, the dashboard
    when the summary is there and has rows, the warning when it is None,
    and nothing for a summary without rows. *)
Inductive view : Type :=
| Metrics
| NoDataWarning
| Nothing.

Definition page (summary_df : option (list summary_row)) : view :=
  match summary_df with
  | Some (_ :: _) => Metrics
  | Some [] => Nothing
  | None => NoDataWarning
  end.

(** [summary_df.head(10)], the rows of the charts. *)
Definition head (table : list summary_row) : list summary_row :=
  firstn 10 table.

End Dashboard.

(** * Proofs *)

(** ** The calendar *)

Module DatetimeFacts.
Import Datetime.

Ltac bools :=
  repeat match goal with
  | H : _ && _ = true |- _ => apply andb_prop in H; destruct H
  | H : (_ <=? _) = true |- _ => apply Z.leb_le in H
  | H : (_ <? _) = true |- _ => apply Z.ltb_lt in H
  | H : (_ =? _) = true |- _ => apply Z.eqb_eq in H
  | H : (_ <=? _) = false |- _ => apply Z.leb_gt in H
  | H : (_ <? _) = false |- _ => apply Z.ltb_ge in H
  | H : (_ =? _) = false |- _ => apply Z.eqb_neq in H
  end.

Lemma is_leap_spec (y : Z) :
  _is_leap y = true <->
  y mod 4 = 0 /\ (y mod 100 <> 0 \/ y mod 400 = 0).
Proof.
  unfold _is_leap.
  destruct (Z.eqb_spec (y mod 4) 0), (Z.eqb_spec (y mod 100) 0),
    (Z.eqb_spec (y mod 400) 0); simpl; intuition (try discriminate; lia).
Qed.

Definition days_in_year (y : Z) : Z := if _is_leap y then 366 else 365.

Lemma days_before_year_succ (y : Z) :
  _days_before_year (y + 1) = _days_before_year y + days_in_year y.
Proof.
  unfold _days_before_year, days_in_year.
  destruct (_is_leap y) eqn:E.
  - apply is_leap_spec in E. Z.div_mod_to_equations. lia.
  - assert (~ (y mod 4 = 0 /\ (y mod 100 <> 0 \/ y mod 400 = 0))) as N
      by (rewrite <- is_leap_spec; congruence).
    Z.div_mod_to_equations. lia.
Qed.

Lemma days_before_year_mono (y1 y2 : Z) :
  y1 <= y2 -> _days_before_year y1 <= _days_before_year y2.
Proof.
  unfold _days_before_year. intros H. Z.div_mod_to_equations. lia.
Qed.

(** The month and day that [_ord2ymd] derives from the day of the year. *)
Definition month_day (leapyear : bool) (n : Z) : Z * Z :=
  let month := Z.shiftr (n + 50) 5 in
  let preceding :=
    _DAYS_BEFORE_MONTH month + (if (2 <? month) && leapyear then 1 else 0) in
  if n <? preceding then
    (month - 1,
     n - (preceding - (_DAYS_IN_MONTH (month - 1)
                        + (if (month - 1 =? 2) && leapyear then 1 else 0))) + 1)
  else (month, n - preceding + 1).

Definition month_day_check (leapyear : bool) (n : Z) : bool :=
  let '(m, d) := month_day leapyear n in
  (1 <=? m) && (m <=? 12) && (1 <=? d) &&
  (d <=? _DAYS_IN_MONTH m + (if (m =? 2) && leapyear then 1 else 0)) &&
  (_DAYS_BEFORE_MONTH m + (if (2 <? m) && leapyear then 1 else 0) + d =? n + 1).

Lemma month_day_check_all :
  forallb (fun k => month_day_check true (Z.of_nat k)) (seq 0 366) &&
  forallb (fun k => month_day_check false (Z.of_nat k)) (seq 0 365) = true.
Proof. vm_compute. reflexivity. Qed.

Lemma month_day_ok (leapyear : bool) (n : Z) :
  0 <= n < (if leapyear then 366 else 365) ->
  month_day_check leapyear n = true.
Proof.
  intros Hn. pose proof month_day_check_all as H.
  apply andb_prop in H. destruct H as [Ht Hf].
  rewrite forallb_forall in Ht, Hf.
  rewrite <- (Z2Nat.id n) by lia.
  destruct leapyear; [apply Ht | apply Hf]; apply in_seq; lia.
Qed.

Lemma ord2ymd_unfold (n0 : Z) :
  _ord2ymd n0 =
  let n := n0 - 1 in
  let n400 := n / 146097 in
  let r1 := n mod 146097 in
  let n100 := r1 / 36524 in
  let r2 := r1 mod 36524 in
  let n4 := r2 / 1461 in
  let r3 := r2 mod 1461 in
  let n1 := r3 / 365 in
  let r := r3 mod 365 in
  let y := n400 * 400 + 1 + (n100 * 100 + n4 * 4 + n1) in
  if (n1 =? 4) || (n100 =? 4) then (y - 1, 12, 31)
  else
    let '(m, d) :=
      month_day ((n1 =? 3) && (negb (n4 =? 24) || (n100 =? 3))) r in
    (y, m, d).
Proof.
  unfold _ord2ymd, month_day, _DI400Y, _DI100Y, _DI4Y. cbv zeta.
  destruct ((_ =? 4) || (_ =? 4)); [reflexivity |].
  destruct (_ <? _); reflexivity.
Qed.

Lemma ord2ymd_correct (n : Z) :
  1 <= n ->
  let '(y, m, d) := _ord2ymd n in
  1 <= y /\ 1 <= m <= 12 /\ 1 <= d <= _days_in_month y m /\
  _ymd2ord y m d = n.
Proof.
  intros Hn. rewrite ord2ymd_unfold. cbv zeta.
  set (n400 := (n - 1) / 146097).
  set (r1 := (n - 1) mod 146097).
  set (n100 := r1 / 36524).
  set (r2 := r1 mod 36524).
  set (n4 := r2 / 1461).
  set (r3 := r2 mod 1461).
  set (n1 := r3 / 365).
  set (r := r3 mod 365).
  assert (H400 : n - 1 = 146097 * n400 + r1 /\ 0 <= r1 < 146097 /\ 0 <= n400)
    by (subst n400 r1; Z.div_mod_to_equations; lia).
  assert (H100 : r1 = 36524 * n100 + r2 /\ 0 <= r2 < 36524 /\ 0 <= n100 <= 4)
    by (subst n100 r2; Z.div_mod_to_equations; lia).
  assert (H4 : r2 = 1461 * n4 + r3 /\ 0 <= r3 < 1461 /\ 0 <= n4 <= 24)
    by (subst n4 r3; Z.div_mod_to_equations; lia).
  assert (H1 : r3 = 365 * n1 + r /\ 0 <= r < 365 /\ 0 <= n1 <= 4)
    by (subst n1 r; Z.div_mod_to_equations; lia).
  clearbody n400 r1 n100 r2 n4 r3 n1 r.
  destruct ((n1 =? 4) || (n100 =? 4)) eqn:Elast.
  - (* the last day of a four-year or of a 400-year cycle: 31 December *)
    set (Y := n400 * 400 + 1 + (n100 * 100 + n4 * 4 + n1) - 1).
    assert (HY : Y = 400 * n400 + 100 * n100 + 4 * n4 + n1) by (subst Y; lia).
    assert (Hcase : n1 = 4 \/ n100 = 4).
    { apply orb_prop in Elast. destruct Elast; bools; auto. }
    assert (Hleap : _is_leap Y = true).
    { apply is_leap_spec. clearbody Y. Z.div_mod_to_equations. lia. }
    clearbody Y.
    unfold _ymd2ord, _days_in_month, _days_before_month, _days_before_year.
    rewrite Hleap. simpl.
    repeat split; try lia.
    Z.div_mod_to_equations. lia.
  - apply orb_false_elim in Elast. destruct Elast as [En1 En100]. bools.
    set (leap := (n1 =? 3) && (negb (n4 =? 24) || (n100 =? 3))).
    set (Y := n400 * 400 + 1 + (n100 * 100 + n4 * 4 + n1)).
    assert (HY : Y - 1 = 400 * n400 + 100 * n100 + 4 * n4 + n1)
      by (subst Y; lia).
    assert (Hleap : _is_leap Y = leap).
    { subst leap. clearbody Y.
      destruct (Z.eqb_spec n1 3), (Z.eqb_spec n4 24), (Z.eqb_spec n100 3);
        simpl.
      all: first
        [ apply is_leap_spec; Z.div_mod_to_equations; lia
        | apply not_true_is_false; rewrite is_leap_spec;
          Z.div_mod_to_equations; lia ]. }
    assert (Hdby : _days_before_year Y + r = n - 1).
    { unfold _days_before_year. clearbody Y. Z.div_mod_to_equations. lia. }
    clearbody Y.
    pose proof (month_day_ok leap r) as Hmd.
    unfold month_day_check in Hmd.
    destruct (month_day leap r) as [m d].
    assert (Hr : 0 <= r < (if leap then 366 else 365))
      by (destruct leap; lia).
    specialize (Hmd Hr). bools.
    unfold _ymd2ord, _days_in_month, _days_before_month. rewrite Hleap.
    assert (Hdim : (if (m =? 2) && leap then 29 else _DAYS_IN_MONTH m) =
                   _DAYS_IN_MONTH m + (if (m =? 2) && leap then 1 else 0)).
    { destruct (Z.eqb_spec m 2) as [-> |]; destruct leap; simpl; lia. }
    rewrite Hdim. repeat split; lia.
Qed.

(** Dates in calendar order. *)
Definition date_ok (y m d : Z) : Prop :=
  1 <= m <= 12 /\ 1 <= d <= _days_in_month y m.

Definition date_lt (a b : Z * Z * Z) : Prop :=
  let '(y1, m1, d1) := a in
  let '(y2, m2, d2) := b in
  y1 < y2 \/ (y1 = y2 /\ (m1 < m2 \/ (m1 = m2 /\ d1 < d2))).

Ltac month_cases m :=
  let H := fresh in
  assert (H : m = 1 \/ m = 2 \/ m = 3 \/ m = 4 \/ m = 5 \/ m = 6 \/
              m = 7 \/ m = 8 \/ m = 9 \/ m = 10 \/ m = 11 \/ m = 12)
    by lia;
  repeat (destruct H as [H | H]); subst m.

Lemma day_of_year_bounds (y m d : Z) :
  date_ok y m d ->
  _days_before_month y m + 1 <= _days_before_month y m + d
    <= _days_before_month y m + _days_in_month y m /\
  0 <= _days_before_month y m /\
  _days_before_month y m + _days_in_month y m <= days_in_year y.
Proof.
  intros [Hm Hd]. unfold _days_before_month, _days_in_month, days_in_year in *.
  month_cases m; destruct (_is_leap y); simpl in *; lia.
Qed.

Lemma days_before_month_next (y m1 m2 : Z) :
  1 <= m1 -> m1 < m2 -> m2 <= 12 ->
  _days_before_month y m1 + _days_in_month y m1 <= _days_before_month y m2.
Proof.
  intros H1 H12 H2. unfold _days_before_month, _days_in_month.
  month_cases m1; month_cases m2; try lia; destruct (_is_leap y); simpl; lia.
Qed.

Lemma ymd2ord_lt (y1 m1 d1 y2 m2 d2 : Z) :
  date_ok y1 m1 d1 -> date_ok y2 m2 d2 ->
  date_lt (y1, m1, d1) (y2, m2, d2) ->
  _ymd2ord y1 m1 d1 < _ymd2ord y2 m2 d2.
Proof.
  intros Ha Hb Hlt. unfold _ymd2ord.
  pose proof (day_of_year_bounds _ _ _ Ha) as Ba.
  pose proof (day_of_year_bounds _ _ _ Hb) as Bb.
  destruct Hlt as [Hy | [-> [Hm | [-> Hd]]]].
  - pose proof (days_before_year_succ y1).
    pose proof (days_before_year_mono (y1 + 1) y2 ltac:(lia)). lia.
  - destruct Ha as [Ha1 _], Hb as [Hb1 _].
    pose proof (days_before_month_next y2 m1 m2 ltac:(lia) Hm ltac:(lia)). lia.
  - lia.
Qed.

Lemma date_trichotomy (a b : Z * Z * Z) :
  date_lt a b \/ a = b \/ date_lt b a.
Proof.
  destruct a as [[y1 m1] d1], b as [[y2 m2] d2]. unfold date_lt.
  destruct (Z.lt_trichotomy y1 y2) as [? | [-> | ?]]; [lia | | lia].
  destruct (Z.lt_trichotomy m1 m2) as [? | [-> | ?]]; [lia | | lia].
  destruct (Z.lt_trichotomy d1 d2) as [? | [-> | ?]]; [lia | | lia].
  right. left. reflexivity.
Qed.

Lemma ymd2ord_inj (y1 m1 d1 y2 m2 d2 : Z) :
  date_ok y1 m1 d1 -> date_ok y2 m2 d2 ->
  _ymd2ord y1 m1 d1 = _ymd2ord y2 m2 d2 ->
  (y1, m1, d1) = (y2, m2, d2).
Proof.
  intros Ha Hb He.
  destruct (date_trichotomy (y1, m1, d1) (y2, m2, d2)) as [H | [H | H]].
  - pose proof (ymd2ord_lt _ _ _ _ _ _ Ha Hb H). lia.
  - exact H.
  - pose proof (ymd2ord_lt _ _ _ _ _ _ Hb Ha H). lia.
Qed.

Lemma ymd2ord_le_inv (y1 m1 d1 y2 m2 d2 : Z) :
  date_ok y1 m1 d1 -> date_ok y2 m2 d2 ->
  _ymd2ord y1 m1 d1 <= _ymd2ord y2 m2 d2 ->
  ~ date_lt (y2, m2, d2) (y1, m1, d1).
Proof.
  intros Ha Hb Hle H. pose proof (ymd2ord_lt _ _ _ _ _ _ Hb Ha H). lia.
Qed.

Lemma ymd2ord_pos (y m d : Z) :
  1 <= y -> date_ok y m d -> 1 <= _ymd2ord y m d.
Proof.
  intros Hy Hd. pose proof (day_of_year_bounds _ _ _ Hd).
  pose proof (days_before_year_mono 1 y Hy).
  unfold _ymd2ord. change (_days_before_year 1) with 0 in *. lia.
Qed.

Lemma ymd2ord_max (y m d : Z) :
  y <= MAXYEAR -> date_ok y m d -> _ymd2ord y m d <= _MAXORDINAL.
Proof.
  intros Hy Hd. pose proof (day_of_year_bounds _ _ _ Hd).
  pose proof (days_before_year_succ y).
  pose proof (days_before_year_mono (y + 1) 10000 ltac:(unfold MAXYEAR in *; lia)).
  unfold _ymd2ord, _MAXORDINAL.
  change (_days_before_year 10000) with 3652059 in *. lia.
Qed.

(** [_ord2ymd] inverts [_ymd2ord] on the dates of the calendar. *)
Lemma ord2ymd_ymd2ord (y m d : Z) :
  1 <= y -> date_ok y m d -> _ord2ymd (_ymd2ord y m d) = (y, m, d).
Proof.
  intros Hy Hd. pose proof (ymd2ord_pos _ _ _ Hy Hd) as Hpos.
  pose proof (ord2ymd_correct _ Hpos) as H.
  destruct (_ord2ymd (_ymd2ord y m d)) as [[y' m'] d'].
  destruct H as (_ & Hm & Hd' & He).
  apply ymd2ord_inj; [split; assumption | assumption | exact He].
Qed.

(** On the ordinals of the type, [_ord2ymd] yields a date the constructor
    accepts. *)
Lemma ord2ymd_in_range (n : Z) :
  1 <= n <= _MAXORDINAL ->
  let '(y, m, d) := _ord2ymd n in
  _check_date_fields y m d = true /\ _ymd2ord y m d = n.
Proof.
  intros [Hlo Hhi]. pose proof (ord2ymd_correct _ Hlo) as H.
  destruct (_ord2ymd n) as [[y m] d]. destruct H as (Hy & Hm & Hd & He).
  split; [| exact He].
  assert (y <= MAXYEAR).
  { destruct (Z_le_gt_dec y MAXYEAR) as [? | Hgt]; [assumption |].
    pose proof (day_of_year_bounds y m d (conj Hm Hd)).
    pose proof (days_before_year_mono 10000 y ltac:(unfold MAXYEAR in *; lia)).
    unfold _ymd2ord, _MAXORDINAL in *.
    change (_days_before_year 10000) with 3652059 in *. lia. }
  unfold _check_date_fields, MINYEAR.
  repeat (apply andb_true_intro; split); apply Z.leb_le; lia.
Qed.

(** *** Operations on [datetime] objects *)

Definition ymd (d : datetime) : Z * Z * Z := (year d, month d, day d).

(** [d.replace(hour=0, minute=0, second=0, microsecond=0)] *)
Definition midnight (d : datetime) : datetime :=
  mkdatetime (year d) (month d) (day d) 0 0 0 0.

Lemma valid_date_ok (d : datetime) :
  valid d = true ->
  1 <= year d <= MAXYEAR /\ date_ok (year d) (month d) (day d).
Proof.
  unfold valid, _check_date_fields, MINYEAR, date_ok. intros H. bools. lia.
Qed.

Lemma check_date_fields_iff (y m d : Z) :
  _check_date_fields y m d = true <->
  1 <= y <= MAXYEAR /\ date_ok y m d.
Proof.
  unfold _check_date_fields, MINYEAR, date_ok. split.
  - intros H. bools. lia.
  - intros [[? ?] [[? ?] [? ?]]].
    repeat (apply andb_true_intro; split); apply Z.leb_le; lia.
Qed.

Lemma valid_midnight (d : datetime) : valid d = true -> valid (midnight d) = true.
Proof.
  unfold valid. simpl. intros H. apply andb_prop in H. destruct H as [H _].
  rewrite H. reflexivity.
Qed.

Lemma replace_midnight (d : datetime) :
  valid d = true ->
  replace d None None None (Some 0) (Some 0) (Some 0) (Some 0)
  = Ok (midnight d).
Proof.
  intros H. unfold replace, new. simpl.
  unfold valid in H. apply andb_prop in H. destruct H as [H _].
  rewrite H. reflexivity.
Qed.

Lemma replace_date (d : datetime) (y m dd : Z) :
  valid d = true -> _check_date_fields y m dd = true ->
  replace d (Some y) (Some m) (Some dd) None None None None
  = Ok (mkdatetime y m dd (hour d) (minute d) (second d) (microsecond d)).
Proof.
  intros H Hc. unfold replace, new. simpl.
  unfold valid in H. apply andb_prop in H. destruct H as [_ H].
  rewrite H, Hc. reflexivity.
Qed.

Lemma replace_day (d : datetime) (dd : Z) :
  valid d = true -> 1 <= dd <= _days_in_month (year d) (month d) ->
  replace d None None (Some dd) None None None None
  = Ok (mkdatetime (year d) (month d) dd
          (hour d) (minute d) (second d) (microsecond d)).
Proof.
  intros H Hd. pose proof (valid_date_ok _ H) as [Hy [Hm _]].
  unfold replace. simpl. unfold new.
  unfold valid in H. apply andb_prop in H. destruct H as [_ H]. rewrite H.
  replace (_check_date_fields (year d) (month d) dd) with true; [reflexivity |].
  symmetry. apply check_date_fields_iff. unfold date_ok. lia.
Qed.

(** [d - timedelta(days=n)] inside the range of the type. *)
Lemma sub_days_ok (d : datetime) (n : Z) :
  valid d = true -> 0 < toordinal d - n <= _MAXORDINAL ->
  exists d',
    sub_days d n = Ok d' /\ valid d' = true /\
    toordinal d' = toordinal d - n /\
    hour d' = hour d /\ minute d' = minute d /\ second d' = second d /\
    microsecond d' = microsecond d.
Proof.
  intros Hv Hr. unfold sub_days.
  replace ((0 <? toordinal d - n) && (toordinal d - n <=? _MAXORDINAL))
    with true
    by (symmetry; apply andb_true_intro; split;
        [apply Z.ltb_lt | apply Z.leb_le]; lia).
  pose proof (ord2ymd_in_range (toordinal d - n) ltac:(lia)) as H.
  destruct (_ord2ymd (toordinal d - n)) as [[y m] dd]. destruct H as [Hc He].
  eexists. split; [reflexivity |]. simpl.
  repeat split; try reflexivity; [| exact He].
  unfold valid in *. simpl. rewrite Hc. simpl.
  apply andb_prop in Hv. destruct Hv as [_ Hv]. exact Hv.
Qed.

(** Outside the range it raises OverflowError. *)
Lemma sub_days_overflow (d : datetime) (n : Z) :
  toordinal d - n <= 0 -> sub_days d n = Raise OverflowError.
Proof.
  intros H. unfold sub_days.
  replace (0 <? toordinal d - n) with false
    by (symmetry; apply Z.ltb_ge; lia).
  reflexivity.
Qed.

Lemma toordinal_range (d : datetime) :
  valid d = true -> 1 <= toordinal d <= _MAXORDINAL.
Proof.
  intros H. pose proof (valid_date_ok _ H) as [[? ?] ?]. unfold toordinal.
  split; [apply ymd2ord_pos | apply ymd2ord_max]; assumption.
Qed.

(** *** The order on [datetime] objects *)

Lemma cmp_fields_refl (l : list Z) : cmp_fields l l = Eq.
Proof. induction l as [| x l IH]; simpl; [| rewrite Z.compare_refl]; auto. Qed.

Lemma le_refl (a : datetime) : le a a = true.
Proof. unfold le, _cmp. rewrite cmp_fields_refl. reflexivity. Qed.

Lemma le_same_time (a b : datetime) :
  hour a = hour b -> minute a = minute b -> second a = second b ->
  microsecond a = microsecond b ->
  ~ date_lt (ymd b) (ymd a) -> le a b = true.
Proof.
  intros Hh Hm Hs Hu Hn. unfold le, _cmp, fields, ymd, date_lt in *.
  rewrite Hh, Hm, Hs, Hu. simpl.
  destruct (Z.compare_spec (year a) (year b)); [| reflexivity | lia].
  destruct (Z.compare_spec (month a) (month b)); [| reflexivity | lia].
  destruct (Z.compare_spec (day a) (day b)); [| reflexivity | lia].
  rewrite !Z.compare_refl. reflexivity.
Qed.

Lemma le_of_ordinal (a b : datetime) :
  valid a = true -> valid b = true ->
  hour a = hour b -> minute a = minute b -> second a = second b ->
  microsecond a = microsecond b ->
  toordinal a <= toordinal b -> le a b = true.
Proof.
  intros Ha Hb Hh Hm Hs Hu Ho. apply le_same_time; try assumption.
  apply ymd2ord_le_inv; [apply valid_date_ok, Ha | apply valid_date_ok, Hb |].
  exact Ho.
Qed.

Lemma sub_days_inv (d d' : datetime) (n : Z) :
  valid d = true -> 0 <= n -> sub_days d n = Ok d' ->
  valid d' = true /\ toordinal d' = toordinal d - n /\
  hour d' = hour d /\ minute d' = minute d /\ second d' = second d /\
  microsecond d' = microsecond d.
Proof.
  intros Hv Hn He. pose proof (toordinal_range _ Hv) as Hr.
  destruct (Z_lt_le_dec 0 (toordinal d - n)) as [Hpos | Hneg].
  - destruct (sub_days_ok d n Hv ltac:(lia)) as (d2 & E & H).
    rewrite E in He. injection He as <-. exact H.
  - rewrite sub_days_overflow in He by assumption. discriminate.
Qed.

Lemma sub_days_eq (d : datetime) (n y m dd : Z) :
  valid d = true -> 1 <= y <= MAXYEAR -> date_ok y m dd ->
  toordinal d - n = _ymd2ord y m dd ->
  sub_days d n
  = Ok (mkdatetime y m dd (hour d) (minute d) (second d) (microsecond d)).
Proof.
  intros Hv [Hy1 Hy2] Hd He. unfold sub_days. rewrite He.
  pose proof (ymd2ord_pos _ _ _ Hy1 Hd). pose proof (ymd2ord_max _ _ _ Hy2 Hd).
  replace ((0 <? _ymd2ord y m dd) && (_ymd2ord y m dd <=? _MAXORDINAL))
    with true
    by (symmetry; apply andb_true_intro; split;
        [apply Z.ltb_lt | apply Z.leb_le]; lia).
  rewrite ord2ymd_ymd2ord by assumption. reflexivity.
Qed.

(** The month before a month, with its year. *)
Definition previous_month (y m : Z) : Z * Z :=
  if m =? 1 then (y - 1, 12) else (y, m - 1).

Lemma day_before_first (y m : Z) :
  1 <= m <= 12 ->
  let '(py, pm) := previous_month y m in
  _ymd2ord y m 1 - 1 = _ymd2ord py pm (_days_in_month py pm) /\
  1 <= pm <= 12 /\ 1 <= _days_in_month py pm.
Proof.
  intros Hm. unfold previous_month.
  destruct (Z.eqb_spec m 1) as [-> | Hne].
  - unfold _ymd2ord, _days_before_month, _days_in_month. simpl.
    pose proof (days_before_year_succ (y - 1)) as H.
    replace (y - 1 + 1) with y in H by lia. unfold days_in_year in H.
    destruct (_is_leap (y - 1)); lia.
  - unfold _ymd2ord, _days_before_month, _days_in_month.
    month_cases m; try lia; destruct (_is_leap y); simpl; lia.
Qed.

End DatetimeFacts.

(** ** get_date_range *)

Module DateRangeFacts.
Import Datetime DatetimeFacts Sales.

(** The period tokens, and the window of each from the midnight of the
    reference: the branches of [get_date_range] one by one. *)
Inductive Period : Type :=
| AllTime | Today | Yesterday | LastDays (back : Z)
| ThisMonth | PreviousMonth | ThisYear | PreviousYear.

Definition period_of (filter_option : string) : Period :=
  if String.eqb filter_option "Today" then Today
  else if String.eqb filter_option "Yesterday" then Yesterday
  else if String.eqb filter_option "Last 7 Days" then LastDays 6
  else if String.eqb filter_option "Last 30 Days" then LastDays 29
  else if String.eqb filter_option "Last 90 Days" then LastDays 89
  else if String.eqb filter_option "Last 180 Days" then LastDays 179
  else if String.eqb filter_option "Last 365 Days" then LastDays 364
  else if String.eqb filter_option "This Month" then ThisMonth
  else if String.eqb filter_option "Previous Month" then PreviousMonth
  else if String.eqb filter_option "This Year" then ThisYear
  else if String.eqb filter_option "Previous Year" then PreviousYear
  else AllTime.

Definition resolve (p : Period) (today : datetime)
  : result (option datetime * option datetime) :=
  match p with
  | AllTime => Ok (None, None)
  | Today => Ok (Some today, Some today)
  | Yesterday =>
      let* yesterday := sub_days today 1 in
      Ok (Some yesterday, Some yesterday)
  | LastDays back =>
      let* start_date := sub_days today back in
      Ok (Some start_date, Some today)
  | ThisMonth =>
      let* start_date := replace today None None (Some 1) None None None None in
      Ok (Some start_date, Some today)
  | PreviousMonth =>
      let* first_day_this_month :=
        replace today None None (Some 1) None None None None in
      let* last_day_prev_month := sub_days first_day_this_month 1 in
      let* start_date :=
        replace last_day_prev_month None None (Some 1) None None None None in
      Ok (Some start_date, Some last_day_prev_month)
  | ThisYear =>
      let* start_date :=
        replace today None (Some 1) (Some 1) None None None None in
      Ok (Some start_date, Some today)
  | PreviousYear =>
      let* start_date :=
        replace today (Some (year today - 1)) (Some 1) (Some 1)
          None None None None in
      let* end_date :=
        replace today (Some (year today - 1)) (Some 12) (Some 31)
          None None None None in
      Ok (Some start_date, Some end_date)
  end.

Lemma get_date_range_resolve (now : datetime) (filter_option : string)
    (reference_date : option datetime) :
  valid (default now reference_date) = true ->
  get_date_range now filter_option reference_date
  = resolve (period_of filter_option) (midnight (default now reference_date)).
Proof.
  intros Hv. unfold get_date_range, period_of.
  rewrite (replace_midnight _ Hv). cbn [Py.bind].
  repeat (destruct (String.eqb filter_option _); [reflexivity |]).
  reflexivity.
Qed.

(** The invariant of a window: both ends absent, or start <= end. *)
Definition window_ok (w : option datetime * option datetime) : Prop :=
  match w with
  | (None, None) => True
  | (Some start_date, Some end_date) => le start_date end_date = true
  | _ => False
  end.

Lemma replace_day_first (d : datetime) :
  valid d = true ->
  replace d None None (Some 1) None None None None
  = Ok (mkdatetime (year d) (month d) 1
          (hour d) (minute d) (second d) (microsecond d)).
Proof.
  intros H. apply replace_day; [exact H |].
  destruct (valid_date_ok _ H) as [_ [_ ?]]. lia.
Qed.

Lemma valid_with_day (d : datetime) (dd : Z) :
  valid d = true -> 1 <= dd <= _days_in_month (year d) (month d) ->
  valid (mkdatetime (year d) (month d) dd
           (hour d) (minute d) (second d) (microsecond d)) = true.
Proof.
  intros H Hd. pose proof (valid_date_ok _ H) as [Hy [Hm _]].
  unfold valid in *. simpl. apply andb_prop in H. destruct H as [_ H].
  rewrite H, andb_true_r. apply check_date_fields_iff. unfold date_ok. lia.
Qed.

Lemma first_le_self (d : datetime) :
  valid d = true ->
  le (mkdatetime (year d) (month d) 1
        (hour d) (minute d) (second d) (microsecond d)) d = true.
Proof.
  intros H. destruct (valid_date_ok _ H) as [_ [_ ?]].
  apply le_same_time; try reflexivity. unfold ymd, date_lt. simpl. lia.
Qed.

Lemma resolve_window_ok (p : Period) (today : datetime)
    (w : option datetime * option datetime) :
  valid today = true ->
  match p with LastDays back => 0 <= back | _ => True end ->
  resolve p today = Ok w -> window_ok w.
Proof.
  intros Hv Hback He. destruct p; simpl in He.
  - injection He as <-. exact I.
  - injection He as <-. apply le_refl.
  - destruct (sub_days today 1) as [y |] eqn:E; [| discriminate].
    injection He as <-. apply le_refl.
  - destruct (sub_days today back) as [s |] eqn:E; [| discriminate].
    injection He as <-.
    destruct (sub_days_inv _ _ _ Hv Hback E) as (Hs & Ho & Hh & Hm & Hsec & Hu).
    apply le_of_ordinal; try assumption. lia.
  - rewrite (replace_day_first _ Hv) in He. injection He as <-.
    apply first_le_self, Hv.
  - rewrite (replace_day_first _ Hv) in He. cbn [Py.bind] in He.
    destruct (sub_days _ 1) as [l |] eqn:E; [| discriminate].
    cbn [Py.bind] in He.
    assert (Hf : valid (mkdatetime (year today) (month today) 1 (hour today)
                          (minute today) (second today) (microsecond today))
                 = true).
    { apply valid_with_day; [exact Hv |].
      destruct (valid_date_ok _ Hv) as [_ [_ ?]]. lia. }
    destruct (sub_days_inv _ _ 1 Hf ltac:(lia) E) as (Hl & _).
    rewrite (replace_day_first _ Hl) in He. injection He as <-.
    apply first_le_self, Hl.
  - destruct (valid_date_ok _ Hv) as [Hy [Hm Hd]].
    change (replace today None (Some 1) (Some 1) None None None None)
      with (replace today (Some (year today)) (Some 1) (Some 1)
              None None None None) in He.
    rewrite replace_date in He; [| exact Hv |].
    2:{ apply check_date_fields_iff. unfold date_ok, _days_in_month. simpl. lia. }
    injection He as <-.
    apply le_same_time; try reflexivity. unfold ymd, date_lt. simpl. lia.
  - destruct (replace today (Some (year today - 1)) (Some 1) (Some 1)
                None None None None) as [s |] eqn:Es; [| discriminate].
    destruct (replace today (Some (year today - 1)) (Some 12) (Some 31)
                None None None None) as [e |] eqn:Ee; [| discriminate].
    injection He as <-.
    unfold replace, new in Es, Ee. simpl in Es, Ee.
    destruct (_ && _) in Es; [| discriminate].
    destruct (_ && _) in Ee; [| discriminate].
    injection Es as <-. injection Ee as <-.
    apply le_same_time; try reflexivity. unfold ymd, date_lt. simpl. lia.
Qed.

(** Both ends of a window are midnights. *)
Definition at_midnight (d : datetime) : Prop :=
  hour d = 0 /\ minute d = 0 /\ second d = 0 /\ microsecond d = 0.

Lemma resolve_midnight (p : Period) (today start_date end_date : datetime) :
  valid today = true -> at_midnight today ->
  match p with LastDays back => 0 <= back | _ => True end ->
  resolve p today = Ok (Some start_date, Some end_date) ->
  at_midnight start_date /\ at_midnight end_date.
Proof.
  intros Hv Hmid Hback He. unfold at_midnight in *.
  destruct Hmid as (Hh & Hm & Hs & Hu). destruct p; simpl in He.
  - discriminate.
  - injection He as <- <-. auto.
  - destruct (sub_days today 1) as [y |] eqn:E; [| discriminate].
    injection He as <- <-.
    destruct (sub_days_inv _ _ 1 Hv ltac:(lia) E) as (_ & _ & -> & -> & -> & ->).
    auto.
  - destruct (sub_days today back) as [s |] eqn:E; [| discriminate].
    injection He as <- <-.
    destruct (sub_days_inv _ _ _ Hv Hback E) as (_ & _ & -> & -> & -> & ->).
    auto.
  - rewrite (replace_day_first _ Hv) in He. injection He as <- <-.
    simpl. auto.
  - rewrite (replace_day_first _ Hv) in He. cbn [Py.bind] in He.
    destruct (sub_days _ 1) as [l |] eqn:E; [| discriminate].
    cbn [Py.bind] in He.
    assert (Hf : valid (mkdatetime (year today) (month today) 1 (hour today)
                          (minute today) (second today) (microsecond today))
                 = true).
    { apply valid_with_day; [exact Hv |].
      destruct (valid_date_ok _ Hv) as [_ [_ ?]]. lia. }
    destruct (sub_days_inv _ _ 1 Hf ltac:(lia) E)
      as (Hl & _ & Hlh & Hlm & Hls & Hlu). simpl in Hlh, Hlm, Hls, Hlu.
    rewrite (replace_day_first _ Hl) in He. injection He as <- <-.
    simpl. rewrite Hlh, Hlm, Hls, Hlu. auto.
  - unfold replace, new in He. simpl in He.
    destruct (_ && _) in He; [| discriminate].
    injection He as <- <-. simpl. auto.
  - unfold replace, new in He. simpl in He.
    destruct (_ && _) in He; [| discriminate]. cbn [Py.bind] in He.
    injection He as <- <-. simpl. auto.
Qed.

Lemma period_of_back (filter_option : string) :
  match period_of filter_option with
  | LastDays back => 0 <= back <= 364
  | _ => True
  end.
Proof.
  unfold period_of.
  repeat (destruct (String.eqb filter_option _); [exact I || lia |]).
  exact I.
Qed.

Lemma toordinal_from_year_2 (d : datetime) :
  valid d = true -> 2 <= year d -> 366 <= toordinal d.
Proof.
  intros Hv Hy. destruct (valid_date_ok _ Hv) as [_ Hd].
  pose proof (day_of_year_bounds _ _ _ Hd).
  pose proof (days_before_year_mono 2 (year d) Hy).
  unfold toordinal, _ymd2ord. change (_days_before_year 2) with 365 in *. lia.
Qed.

Lemma resolve_total (p : Period) (today : datetime) :
  valid today = true -> 2 <= year today ->
  match p with LastDays back => 0 <= back <= 364 | _ => True end ->
  exists w, resolve p today = Ok w.
Proof.
  intros Hv Hy Hback. pose proof (toordinal_from_year_2 _ Hv Hy) as Ho.
  pose proof (toordinal_range _ Hv) as Hr.
  destruct p; simpl.
  - eauto.
  - eauto.
  - destruct (sub_days_ok today 1 Hv ltac:(lia)) as (d & -> & _). simpl. eauto.
  - destruct (sub_days_ok today back Hv ltac:(lia)) as (d & -> & _).
    simpl. eauto.
  - rewrite (replace_day_first _ Hv). simpl. eauto.
  - rewrite (replace_day_first _ Hv). cbn [Py.bind].
    set (first := mkdatetime _ _ 1 _ _ _ _).
    assert (Hf : valid first = true).
    { apply valid_with_day; [exact Hv |].
      destruct (valid_date_ok _ Hv) as [_ [_ ?]]. lia. }
    pose proof (toordinal_from_year_2 first Hf Hy).
    pose proof (toordinal_range _ Hf).
    destruct (sub_days_ok first 1 Hf ltac:(lia)) as (l & -> & Hl & _).
    cbn [Py.bind]. rewrite (replace_day_first _ Hl). simpl. eauto.
  - destruct (valid_date_ok _ Hv) as [Hy' _].
    change (replace today None (Some 1) (Some 1) None None None None)
      with (replace today (Some (year today)) (Some 1) (Some 1)
              None None None None).
    rewrite replace_date; [simpl; eauto | exact Hv |].
    apply check_date_fields_iff. unfold date_ok, _days_in_month. simpl. lia.
  - destruct (valid_date_ok _ Hv) as [Hy' _].
    rewrite !replace_date; [simpl; eauto | exact Hv | | exact Hv |].
    all: apply check_date_fields_iff; unfold date_ok, _days_in_month; simpl;
      unfold MAXYEAR in *; lia.
Qed.

(** C3. For every period token and every reference instant, the window that
    [get_date_range] returns is unbounded (both ends None) or has
    start <= end; 'All Time' always gives the unbounded window; and from
    year 2 on every token does return a window. *)
Theorem window_start_le_end (now : datetime) (filter_option : string)
    (reference_date : option datetime) :
  valid (default now reference_date) = true ->
  (forall w, get_date_range now filter_option reference_date = Ok w ->
             window_ok w) /\
  get_date_range now "All Time" reference_date = Ok (None, None) /\
  (2 <= year (default now reference_date) ->
   exists w, get_date_range now filter_option reference_date = Ok w).
Proof.
  intros Hv. pose proof (valid_midnight _ Hv) as Hm.
  rewrite !get_date_range_resolve by exact Hv. repeat split.
  - intros w He.
    apply (resolve_window_ok (period_of filter_option) _ _ Hm); [| exact He].
    pose proof (period_of_back filter_option) as H.
    destruct (period_of filter_option); try exact I. lia.
  - intros Hy. apply resolve_total; [exact Hm | exact Hy |].
    apply period_of_back.
Qed.

(** The windows of [get_date_range] start and end at midnight. *)
Lemma get_date_range_midnight (now : datetime) (filter_option : string)
    (reference_date : option datetime) (start_date end_date : datetime) :
  valid (default now reference_date) = true ->
  get_date_range now filter_option reference_date
  = Ok (Some start_date, Some end_date) ->
  at_midnight start_date /\ at_midnight end_date.
Proof.
  intros Hv. rewrite get_date_range_resolve by exact Hv.
  apply resolve_midnight.
  - apply valid_midnight, Hv.
  - unfold at_midnight. simpl. auto.
  - pose proof (period_of_back filter_option) as H.
    destruct (period_of filter_option); try exact I. lia.
Qed.

Definition reference_2024_03_15 : datetime :=
  mkdatetime 2024 3 15 14 30 5 250.

Lemma window_start_le_end_witness :
  (forall w,
     get_date_range reference_2024_03_15 "Previous Month" None = Ok w ->
     window_ok w) /\
  get_date_range reference_2024_03_15 "All Time" None = Ok (None, None) /\
  (2 <= year (default reference_2024_03_15 None) ->
   exists w, get_date_range reference_2024_03_15 "Previous Month" None = Ok w).
Proof.
  apply (window_start_le_end reference_2024_03_15 "Previous Month" None).
  reflexivity.
Defined.

(** The tokens 'Last N Days' with their N. *)
Definition last_days_tokens : list (Z * string) :=
  [(7, "Last 7 Days"); (30, "Last 30 Days"); (90, "Last 90 Days");
   (180, "Last 180 Days"); (365, "Last 365 Days")]%string.

Lemma last_days_period (N : Z) (token : string) :
  In (N, token) last_days_tokens -> period_of token = LastDays (N - 1).
Proof.
  unfold last_days_tokens. simpl.
  intros [H | [H | [H | [H | [H | []]]]]]; injection H as <- <-; reflexivity.
Qed.

(** C6, amended. For every reference instant that lies at least N-1 days
    after 0001-01-01, and N in 7, 30, 90, 180, 365, 'Last N Days' resolves
    to (midnight(reference) - (N-1) days, midnight(reference)): the start is
    a midnight N-1 days before the reference day, so the window spans N
    calendar days. *)
Theorem last_n_days_window (now reference : datetime) (N : Z)
    (token : string) :
  valid reference = true ->
  In (N, token) last_days_tokens ->
  N <= toordinal reference ->
  exists start_date,
    get_date_range now token (Some reference)
    = Ok (Some start_date, Some (midnight reference)) /\
    sub_days (midnight reference) (N - 1) = Ok start_date /\
    valid start_date = true /\
    midnight start_date = start_date /\
    toordinal (midnight reference) - toordinal start_date + 1 = N.
Proof.
  intros Hv Hin HN. rewrite get_date_range_resolve by exact Hv.
  rewrite (last_days_period _ _ Hin). simpl default. simpl resolve.
  pose proof (valid_midnight _ Hv) as Hm.
  pose proof (toordinal_range _ Hm) as Hr.
  assert (HN7 : 7 <= N).
  { unfold last_days_tokens in Hin. simpl in Hin.
    destruct Hin as [H | [H | [H | [H | [H | []]]]]]; injection H as <- _; lia. }
  change (toordinal (midnight reference)) with (toordinal reference) in *.
  destruct (sub_days_ok (midnight reference) (N - 1) Hm)
    as (s & E & Hs & Ho & Hh & Hmi & Hse & Hu).
  { change (toordinal (midnight reference)) with (toordinal reference). lia. }
  exists s. rewrite E. simpl. repeat split; try assumption.
  - destruct s; simpl in *. unfold midnight. simpl. congruence.
  - change (toordinal (midnight reference)) with (toordinal reference) in Ho.
    lia.
Qed.

Lemma last_n_days_window_witness :
  exists start_date,
    get_date_range reference_2024_03_15 "Last 30 Days"
      (Some reference_2024_03_15)
    = Ok (Some start_date, Some (midnight reference_2024_03_15)) /\
    sub_days (midnight reference_2024_03_15) (30 - 1) = Ok start_date /\
    valid start_date = true /\
    midnight start_date = start_date /\
    toordinal (midnight reference_2024_03_15) - toordinal start_date + 1 = 30.
Proof.
  apply (last_n_days_window reference_2024_03_15 reference_2024_03_15 30
           "Last 30 Days").
  - reflexivity.
  - simpl. auto.
  - vm_compute. discriminate.
Defined.

(** Before that the start of the window is outside the type, and the
    subtraction raises. *)
Lemma last_n_days_overflow (now reference : datetime) (N : Z)
    (token : string) :
  valid reference = true ->
  In (N, token) last_days_tokens ->
  toordinal reference < N ->
  get_date_range now token (Some reference) = Raise OverflowError.
Proof.
  intros Hv Hin HN. rewrite get_date_range_resolve by exact Hv.
  rewrite (last_days_period _ _ Hin). simpl default. simpl resolve.
  rewrite sub_days_overflow; [reflexivity |].
  change (toordinal (midnight reference)) with (toordinal reference). lia.
Qed.

(** C6 as stated fails on the first days of the calendar: for the
    reference 0001-01-03 09:00 (a datetime the type has) 'Last 7 Days'
    resolves to no window at all, the call raises OverflowError. *)
Lemma last_n_days_counterexample :
  valid (mkdatetime 1 1 3 9 0 0 0) = true /\
  get_date_range (mkdatetime 1 1 3 9 0 0 0) "Last 7 Days"
    (Some (mkdatetime 1 1 3 9 0 0 0))
  = Raise OverflowError /\
  ~ (exists start_date,
       get_date_range (mkdatetime 1 1 3 9 0 0 0) "Last 7 Days"
         (Some (mkdatetime 1 1 3 9 0 0 0))
       = Ok (Some start_date, Some (midnight (mkdatetime 1 1 3 9 0 0 0)))).
Proof.
  split; [reflexivity |]. split; [reflexivity |].
  intros [start_date H]. vm_compute in H. discriminate.
Qed.

Lemma previous_month_resolve (today : datetime) :
  valid today = true -> 1 < year today \/ 1 < month today ->
  let '(py, pm) := previous_month (year today) (month today) in
  resolve PreviousMonth today
  = Ok (Some (mkdatetime py pm 1
                (hour today) (minute today) (second today)
                (microsecond today)),
        Some (mkdatetime py pm (_days_in_month py pm)
                (hour today) (minute today) (second today)
                (microsecond today))).
Proof.
  intros Hv Hnotfirst. destruct (valid_date_ok _ Hv) as [Hy [Hm Hd]].
  pose proof (day_before_first (year today) (month today) Hm) as Hprev.
  assert (Hpy : 1 <= fst (previous_month (year today) (month today))
                <= MAXYEAR).
  { unfold previous_month. destruct (Z.eqb_spec (month today) 1); simpl; lia. }
  destruct (previous_month (year today) (month today)) as [py pm].
  destruct Hprev as (He & Hpm & Hdim). simpl in Hpy.
  simpl. rewrite (replace_day_first _ Hv). cbn [Py.bind].
  set (first := mkdatetime _ _ 1 _ _ _ _).
  assert (Hf : valid first = true).
  { apply valid_with_day; [exact Hv | unfold date_ok in Hd; lia]. }
  rewrite (sub_days_eq first 1 py pm (_days_in_month py pm) Hf Hpy).
  - cbn [Py.bind]. rewrite replace_day_first.
    + reflexivity.
    + unfold valid in *. simpl. apply andb_prop in Hv. destruct Hv as [_ Hv].
      rewrite Hv, andb_true_r. apply check_date_fields_iff.
      unfold date_ok. lia.
  - unfold date_ok. lia.
  - exact He.
Qed.

(** C4, amended. For every reference instant except those in January of
    year 1, 'Previous Month' resolves to (first day of the previous month,
    last day of the previous month), both at midnight. A reference in
    March of a leap year gives 1 February to 29 February of that year; a
    reference in January of a year after year 1 gives 1 December to
    31 December of the year before. *)
Theorem previous_month_window (now reference : datetime) :
  valid reference = true ->
  1 < year reference \/ 1 < month reference ->
  (let '(py, pm) := previous_month (year reference) (month reference) in
   get_date_range now "Previous Month" (Some reference)
   = Ok (Some (mkdatetime py pm 1 0 0 0 0),
         Some (mkdatetime py pm (_days_in_month py pm) 0 0 0 0))) /\
  (month reference = 3 -> _is_leap (year reference) = true ->
   get_date_range now "Previous Month" (Some reference)
   = Ok (Some (mkdatetime (year reference) 2 1 0 0 0 0),
         Some (mkdatetime (year reference) 2 29 0 0 0 0))) /\
  (month reference = 1 ->
   get_date_range now "Previous Month" (Some reference)
   = Ok (Some (mkdatetime (year reference - 1) 12 1 0 0 0 0),
         Some (mkdatetime (year reference - 1) 12 31 0 0 0 0))).
Proof.
  intros Hv Hnotfirst.
  assert (Hgen :
    let '(py, pm) := previous_month (year reference) (month reference) in
    get_date_range now "Previous Month" (Some reference)
    = Ok (Some (mkdatetime py pm 1 0 0 0 0),
          Some (mkdatetime py pm (_days_in_month py pm) 0 0 0 0))).
  { rewrite get_date_range_resolve by exact Hv.
    change (period_of "Previous Month") with PreviousMonth.
    pose proof (previous_month_resolve (midnight reference)
                  (valid_midnight _ Hv) Hnotfirst) as H.
    exact H. }
  split; [exact Hgen |]. split.
  - intros Hm Hleap. unfold previous_month in Hgen. rewrite Hm in Hgen.
    simpl in Hgen. unfold _days_in_month in Hgen. rewrite Hleap in Hgen.
    exact Hgen.
  - intros Hm. unfold previous_month in Hgen. rewrite Hm in Hgen.
    exact Hgen.
Qed.

Lemma previous_month_window_witness :
  (let '(py, pm) :=
     previous_month (year reference_2024_03_15)
       (month reference_2024_03_15) in
   get_date_range reference_2024_03_15 "Previous Month"
     (Some reference_2024_03_15)
   = Ok (Some (mkdatetime py pm 1 0 0 0 0),
         Some (mkdatetime py pm (_days_in_month py pm) 0 0 0 0))) /\
  (month reference_2024_03_15 = 3 ->
   _is_leap (year reference_2024_03_15) = true ->
   get_date_range reference_2024_03_15 "Previous Month"
     (Some reference_2024_03_15)
   = Ok (Some (mkdatetime (year reference_2024_03_15) 2 1 0 0 0 0),
         Some (mkdatetime (year reference_2024_03_15) 2 29 0 0 0 0))) /\
  (month reference_2024_03_15 = 1 ->
   get_date_range reference_2024_03_15 "Previous Month"
     (Some reference_2024_03_15)
   = Ok (Some (mkdatetime (year reference_2024_03_15 - 1) 12 1 0 0 0 0),
         Some (mkdatetime (year reference_2024_03_15 - 1) 12 31 0 0 0 0))).
Proof.
  apply (previous_month_window reference_2024_03_15 reference_2024_03_15).
  - reflexivity.
  - left. simpl. lia.
Defined.

(** In January of year 1 the day before the first of the month is outside
    the type, and the subtraction raises. *)
Lemma previous_month_overflow (now reference : datetime) :
  valid reference = true -> year reference = 1 -> month reference = 1 ->
  get_date_range now "Previous Month" (Some reference) = Raise OverflowError.
Proof.
  intros Hv Hy Hm. rewrite get_date_range_resolve by exact Hv.
  change (period_of "Previous Month") with PreviousMonth.
  simpl default. simpl resolve.
  rewrite (replace_day_first _ (valid_midnight _ Hv)). cbn [Py.bind].
  rewrite sub_days_overflow; [reflexivity |].
  unfold toordinal. simpl. rewrite Hy, Hm. vm_compute. discriminate.
Qed.

(** C4 as stated fails for a reference in January of year 1: for the
    reference 0001-01-15 (a datetime the type has) 'Previous Month'
    resolves to no window at all, the call raises OverflowError. *)
Lemma previous_month_counterexample :
  valid (mkdatetime 1 1 15 0 0 0 0) = true /\
  month (mkdatetime 1 1 15 0 0 0 0) = 1 /\
  get_date_range (mkdatetime 1 1 15 0 0 0 0) "Previous Month"
    (Some (mkdatetime 1 1 15 0 0 0 0))
  = Raise OverflowError /\
  ~ (exists start_date end_date,
       get_date_range (mkdatetime 1 1 15 0 0 0 0) "Previous Month"
         (Some (mkdatetime 1 1 15 0 0 0 0))
       = Ok (Some start_date, Some end_date)).
Proof.
  split; [reflexivity |]. split; [reflexivity |]. split; [reflexivity |].
  intros (start_date & end_date & H). vm_compute in H. discriminate.
Qed.

End DateRangeFacts.

(** ** filter_data_by_date *)

Module FilterFacts.
Import Datetime Pandas Sales.

Lemma get_set_eq (label : string) (c : cell) (r : row) :
  get label (set label c r) = c.
Proof. unfold get, set. simpl. rewrite lookup_insert_eq. reflexivity. Qed.

(** The calendar day of a timestamp: its count of whole days. *)
Definition calendar_day (t : Z) : Z := t / NS_PER_DAY.

Lemma normalize_day (t : Z) : normalize t = NS_PER_DAY * calendar_day t.
Proof.
  unfold normalize, calendar_day, NS_PER_DAY, NS_PER_SECOND.
  Z.div_mod_to_equations. lia.
Qed.

(** The comparison the source makes, against the normalized start and the
    last second of the end's day, is the comparison of calendar days. *)
Lemma mask_calendar_day (t ts te : Z) :
  (normalize ts <=? normalize t) &&
  (normalize t <=? normalize te + Timedelta_days 1 - Timedelta_seconds 1)
  = (calendar_day ts <=? calendar_day t) &&
    (calendar_day t <=? calendar_day te).
Proof.
  rewrite !normalize_day.
  unfold Timedelta_days, Timedelta_seconds, NS_PER_DAY, NS_PER_SECOND.
  generalize (calendar_day ts) (calendar_day t) (calendar_day te).
  intros a b c.
  destruct (Z.leb_spec a b), (Z.leb_spec b c); simpl;
    first [ apply andb_true_intro; split; apply Z.leb_le; lia
          | apply andb_false_intro1; apply Z.leb_gt; lia
          | apply andb_false_intro2; apply Z.leb_gt; lia ].
Qed.

Lemma filter_filter_idem {A : Type} (p : A -> bool) (l : list A) :
  List.filter p (List.filter p l) = List.filter p l.
Proof.
  apply forallb_filter_id. apply forallb_filter.
Qed.

Lemma has_column_true (label : string) (df : DataFrame) :
  has_column label df = true <-> label ∈ columns df.
Proof.
  unfold has_column. rewrite bool_decide_eq_true. reflexivity.
Qed.

Lemma not_scratch (label : string) :
  negb (String.eqb label "date_only") = true <-> label <> "date_only"%string.
Proof.
  rewrite negb_true_iff. apply String.eqb_neq.
Qed.

Lemma columns_without_scratch (cols : list string) :
  List.filter (fun c => negb (String.eqb c "date_only"))
    (if bool_decide ("date_only"%string ∈ cols) then cols
     else cols ++ ["date_only"%string])
  = List.filter (fun c => negb (String.eqb c "date_only")) cols.
Proof.
  destruct (bool_decide _); [reflexivity |].
  rewrite List.filter_app. simpl. apply app_nil_r.
Qed.

Section Filter.

Variable parse_datetime : list cell -> string -> option Z.

Abbreviation to_datetime := (to_datetime parse_datetime).
Abbreviation filter_data_by_date := (filter_data_by_date parse_datetime).

(** A converted cell converts to itself, whatever the column it is in. *)
Lemma to_datetime_idem (values values' : list cell) (c : cell) :
  to_datetime values' (to_datetime values c) = to_datetime values c.
Proof.
  destruct c as [| s | t]; simpl; try reflexivity.
  destruct (parse_datetime values s); reflexivity.
Qed.

Lemma to_datetime_not_text (values : list cell) (c : cell) (s : string) :
  to_datetime values c <> Str s.
Proof.
  destruct c as [| s' | t]; simpl; try discriminate.
  destruct (parse_datetime values s'); discriminate.
Qed.

(** A row as the filter returns it: the date column parsed, the scratch
    column 'date_only' gone. *)
Definition stored (values : list cell) (date_column : string) (r : row)
  : row :=
  mkrow (Transaction_Category r) (Amount_Paid r)
    (delete "date_only"%string
       (<[date_column := to_datetime values (get date_column r)]> (cells r))).

(** The test of the source on a parsed cell. *)
Definition mask_of (start_date end_date : datetime) (c : cell) : bool :=
  match c with
  | Time t =>
      (normalize (Timestamp start_date) <=? normalize t) &&
      (normalize t <=?
         normalize (Timestamp end_date) + Timedelta_days 1
         - Timedelta_seconds 1)
  | _ => false
  end.

Lemma filter_rows_eq (start_date end_date : datetime) (date_column : string)
    (values : list cell) (l : list row) :
  map (fun r => mkrow (Transaction_Category r) (Amount_Paid r)
                  (delete "date_only"%string (cells r)))
    (List.filter
       (fun r =>
          Pandas.ge (get "date_only" r) (normalize (Timestamp start_date))
          && Pandas.le (get "date_only" r)
               (normalize (Timestamp end_date) + Timedelta_days 1
                - Timedelta_seconds 1))
       (map (fun r => set "date_only" (dt_normalize (get date_column r)) r)
          (List.filter (fun r => negb (isna (get date_column r)))
             (map (fun r => set date_column
                              (to_datetime values (get date_column r)) r)
                l))))
  = map (stored values date_column)
      (List.filter
         (fun r => mask_of start_date end_date
                     (to_datetime values (get date_column r)))
         l).
Proof.
  induction l as [| r l IH]; [reflexivity |].
  cbn [map List.filter]. rewrite get_set_eq.
  destruct (to_datetime values (get date_column r)) as [| s | t] eqn:E.
  - simpl. exact IH.
  - exfalso. exact (to_datetime_not_text _ _ _ E).
  - cbn [isna negb map List.filter]. rewrite !get_set_eq. simpl dt_normalize.
    cbn [Pandas.ge Pandas.le mask_of].
    destruct (_ && _); [| exact IH].
    cbn [map]. rewrite IH. f_equal.
    unfold stored, set. simpl. rewrite E. f_equal.
    apply delete_insert_eq.
Qed.

Lemma filter_data_by_date_eq (df : DataFrame) (start_date end_date : datetime)
    (date_column : string) :
  has_column date_column df = true ->
  filter_data_by_date df (Some start_date) (Some end_date) date_column
  = Ok (mkframe
          (List.filter (fun c => negb (String.eqb c "date_only")) (columns df))
          (map (stored (column date_column df) date_column)
             (List.filter
                (fun r => mask_of start_date end_date
                            (to_datetime (column date_column df)
                               (get date_column r)))
                (rows df)))).
Proof.
  intros Hcol. unfold filter_data_by_date, assign at 1. rewrite Hcol.
  cbn [Py.bind]. unfold dropna, has_column at 1. cbn [columns rows].
  fold (has_column date_column df). rewrite Hcol. cbn [Py.bind].
  unfold assign, has_column. cbn [columns rows].
  fold (has_column date_column df). rewrite Hcol. cbn [Py.bind].
  unfold drop, select, has_column. cbn [columns rows].
  replace (bool_decide
             ("date_only"%string ∈
                (if bool_decide ("date_only"%string ∈ columns df)
                 then columns df else columns df ++ ["date_only"%string])))
    with true.
  - rewrite columns_without_scratch, filter_rows_eq. reflexivity.
  - symmetry. apply bool_decide_eq_true.
    destruct (bool_decide ("date_only"%string ∈ columns df)) eqn:E.
    + apply bool_decide_eq_true in E. exact E.
    + apply elem_of_app. right. apply list_elem_of_singleton. reflexivity.
Qed.

Lemma filter_data_by_date_missing (df : DataFrame)
    (start_date end_date : datetime) (date_column : string) :
  has_column date_column df = false ->
  filter_data_by_date df (Some start_date) (Some end_date) date_column
  = Raise (KeyError date_column).
Proof.
  intros Hcol. unfold filter_data_by_date, assign. rewrite Hcol. reflexivity.
Qed.

(** The rows the filter is to keep: the timestamp parses and its calendar
    day lies between the days of the two ends, both included. *)
Definition in_window (start_date end_date : datetime) (c : cell) : bool :=
  match c with
  | Time t =>
      (calendar_day (Timestamp start_date) <=? calendar_day t) &&
      (calendar_day t <=? calendar_day (Timestamp end_date))
  | _ => false
  end.

Lemma mask_of_in_window (start_date end_date : datetime) (c : cell) :
  mask_of start_date end_date c = in_window start_date end_date c.
Proof.
  destruct c as [| s | t]; try reflexivity. apply mask_calendar_day.
Qed.

Lemma in_window_midnight_start (start_date end_date : datetime) (t : Z) :
  normalize (Timestamp start_date) = Timestamp start_date ->
  in_window start_date end_date (Time t)
  = (Timestamp start_date <=? normalize t) &&
    (normalize t <=? Timestamp end_date).
Proof.
  intros Hs. unfold in_window. rewrite <- Hs at 2. rewrite !normalize_day.
  unfold calendar_day, NS_PER_DAY, NS_PER_SECOND.
  generalize (Timestamp start_date) (Timestamp end_date). intros a b.
  f_equal; apply eq_true_iff_eq; rewrite !Z.leb_le;
    Z.div_mod_to_equations; lia.
Qed.

(** A midnight is its own normalization, so that for the windows of
    [get_date_range] the test reads start <= day <= end. *)
Lemma normalize_midnight (d : datetime) :
  DateRangeFacts.at_midnight d -> normalize (Timestamp d) = Timestamp d.
Proof.
  intros (Hh & Hm & Hs & Hu). unfold normalize, Timestamp.
  rewrite Hh, Hm, Hs, Hu. unfold NS_PER_DAY, NS_PER_SECOND.
  generalize (toordinal d - EPOCH_ORDINAL). intros k.
  Z.div_mod_to_equations. lia.
Qed.

(** C5, amended. On a frame that has the timestamp column, and for a
    window with both ends, [filter_data_by_date] returns, in the order of
    the frame, exactly the rows whose timestamp parses and whose calendar
    day is between the day of the start and the day of the end, both
    included (for a start at midnight: start <= day <= end); a missing or
    unparsable timestamp fails the test and no error is raised. On a frame
    without the column such a window raises KeyError. With an end of the
    window absent the frame comes back unchanged, whether it has the
    column or not. *)
Theorem filter_keeps_days_in_window (df : DataFrame)
    (start_date end_date : datetime) (date_column : string) :
  (has_column date_column df = true ->
   exists result,
     filter_data_by_date df (Some start_date) (Some end_date) date_column
     = Ok result /\
     rows result
     = map (stored (column date_column df) date_column)
         (List.filter
            (fun r => in_window start_date end_date
                        (to_datetime (column date_column df)
                           (get date_column r)))
            (rows df))) /\
  (has_column date_column df = false ->
   filter_data_by_date df (Some start_date) (Some end_date) date_column
   = Raise (KeyError date_column)) /\
  (forall r,
     isna (to_datetime (column date_column df) (get date_column r)) = true ->
     in_window start_date end_date
       (to_datetime (column date_column df) (get date_column r))
     = false) /\
  (normalize (Timestamp start_date) = Timestamp start_date ->
   forall t, in_window start_date end_date (Time t)
             = (Timestamp start_date <=? normalize t) &&
               (normalize t <=? Timestamp end_date)) /\
  (forall s e, s = None \/ e = None ->
               filter_data_by_date df s e date_column = Ok df).
Proof.
  split; [| split; [| split; [| split]]].
  - intros Hcol. eexists.
    split; [apply filter_data_by_date_eq, Hcol |]. cbn [rows].
    f_equal. apply List.filter_ext. intros r. apply mask_of_in_window.
  - apply filter_data_by_date_missing.
  - intros r Hna.
    destruct (to_datetime (column date_column df) (get date_column r));
      [reflexivity | reflexivity | discriminate].
  - intros Hs t. apply in_window_midnight_start, Hs.
  - intros s e [-> | ->]; [reflexivity |]. destruct s; reflexivity.
Qed.

(** C5 as the claim states it, at one frame and one window: the filter
    returns the rows of the window. *)
Definition returns_rows_in_window (df : DataFrame)
    (start_date end_date : datetime) (date_column : string) : Prop :=
  exists result,
    filter_data_by_date df (Some start_date) (Some end_date) date_column
    = Ok result /\
    rows result
    = map (stored (column date_column df) date_column)
        (List.filter
           (fun r => in_window start_date end_date
                       (to_datetime (column date_column df)
                          (get date_column r)))
           (rows df)).

Lemma get_stored (values : list cell) (date_column : string) (r : row) :
  date_column <> "date_only"%string ->
  get date_column (stored values date_column r)
  = to_datetime values (get date_column r).
Proof.
  intros Hne. unfold get at 1, stored. cbn [cells].
  rewrite lookup_delete_ne by congruence. rewrite lookup_insert_eq.
  reflexivity.
Qed.

Lemma stored_stored (values values' : list cell) (date_column : string)
    (r : row) :
  date_column <> "date_only"%string ->
  stored values' date_column (stored values date_column r)
  = stored values date_column r.
Proof.
  intros Hne. unfold stored at 1 3. cbn [Transaction_Category Amount_Paid cells].
  f_equal. rewrite (get_stored _ _ _ Hne), to_datetime_idem.
  unfold stored. cbn [cells].
  apply map_eq. intros i.
  destruct (decide (i = "date_only"%string)) as [-> | Hi].
  - rewrite !lookup_delete_eq. reflexivity.
  - rewrite !lookup_delete_ne by congruence.
    destruct (decide (i = date_column)) as [-> | Hd].
    + rewrite !lookup_insert_eq. reflexivity.
    + rewrite !lookup_insert_ne by congruence.
      rewrite lookup_delete_ne by congruence.
      rewrite lookup_insert_ne by congruence. reflexivity.
Qed.

Lemma filter_stored_again (p : cell -> bool) (values values' : list cell)
    (date_column : string) (l : list row) :
  date_column <> "date_only"%string ->
  map (stored values' date_column)
    (List.filter (fun r => p (to_datetime values' (get date_column r)))
       (map (stored values date_column)
          (List.filter (fun r => p (to_datetime values (get date_column r)))
             l)))
  = map (stored values date_column)
      (List.filter (fun r => p (to_datetime values (get date_column r))) l).
Proof.
  intros Hne. induction l as [| r l IH]; [reflexivity |].
  cbn [List.filter].
  destruct (p (to_datetime values (get date_column r))) eqn:E; [| exact IH].
  cbn [map List.filter]. rewrite (get_stored _ _ _ Hne), to_datetime_idem, E.
  cbn [map]. rewrite IH, (stored_stored _ _ _ _ Hne). reflexivity.
Qed.

(** Away from the scratch label 'date_only' the filter is idempotent: for
    every frame, every window and every other timestamp column, filtering
    the output of the filter again with the same window returns the same
    frame (and on a frame without the column both raise the same
    KeyError). *)
Lemma filter_idempotent (df : DataFrame)
    (start_date end_date : option datetime) (date_column : string) :
  date_column <> "date_only"%string ->
  (let* once := filter_data_by_date df start_date end_date date_column in
   filter_data_by_date once start_date end_date date_column)
  = filter_data_by_date df start_date end_date date_column.
Proof.
  intros Hne.
  destruct start_date as [s |], end_date as [e |]; try reflexivity.
  destruct (has_column date_column df) eqn:Hcol.
  - rewrite (filter_data_by_date_eq df s e date_column Hcol). cbn [Py.bind].
    rewrite filter_data_by_date_eq.
    + cbn [columns rows]. rewrite filter_filter_idem.
      rewrite (filter_stored_again (mask_of s e) _ _ date_column (rows df) Hne).
      reflexivity.
    + apply has_column_true. cbn [columns].
      apply list_elem_of_In, List.filter_In. split.
      * apply list_elem_of_In, has_column_true, Hcol.
      * apply not_scratch, Hne.
  - rewrite (filter_data_by_date_missing df s e date_column Hcol).
    reflexivity.
Qed.

(** With the timestamp column under the scratch label itself, a second
    pass over the output of a first one always raises. *)
Lemma filter_scratch_column_twice (df : DataFrame)
    (start_date end_date : datetime) :
  (let* once :=
     filter_data_by_date df (Some start_date) (Some end_date) "date_only" in
   filter_data_by_date once (Some start_date) (Some end_date) "date_only")
  = Raise (KeyError "date_only").
Proof.
  destruct (has_column "date_only" df) eqn:Hcol.
  - rewrite (filter_data_by_date_eq df _ _ _ Hcol). cbn [Py.bind].
    apply filter_data_by_date_missing.
    apply bool_decide_eq_false. cbn [columns]. intros Hin.
    apply list_elem_of_In, List.filter_In in Hin. destruct Hin as [_ Hin].
    discriminate.
  - rewrite (filter_data_by_date_missing df _ _ _ Hcol). reflexivity.
Qed.

End Filter.

(** A parser for the examples: the texts 'YYYY-MM-DD' that name a date of
    the calendar, whatever the column. *)
Definition digit (a : Ascii.ascii) : option Z :=
  let n := Z.of_N (Ascii.N_of_ascii a) in
  if (48 <=? n) && (n <=? 57) then Some (n - 48) else None.

Fixpoint number (s : string) (acc : Z) : option Z :=
  match s with
  | EmptyString => Some acc
  | String a s' =>
      match digit a with
      | Some d => number s' (10 * acc + d)
      | None => None
      end
  end.

Definition parse_iso_date (values : list cell) (s : string) : option Z :=
  if negb (Nat.eqb (String.length s) 10) then None
  else
    match String.get 4 s, String.get 7 s,
          number (String.substring 0 4 s) 0,
          number (String.substring 5 2 s) 0,
          number (String.substring 8 2 s) 0 with
    | Some "-"%char, Some "-"%char, Some y, Some m, Some d =>
        if _check_date_fields y m d
        then Some (Timestamp (mkdatetime y m d 0 0 0 0))
        else None
    | _, _, _, _, _ => None
    end.

Definition text_row (category : string) (amount : Z) (created : string) : row :=
  mkrow (Some category) (of_Z amount)
    {[ "Created On"%string := Str created ]}.

Definition sample_frame : DataFrame :=
  mkframe ["Created On"%string]
    [text_row "A" 10 "2024-01-01"; text_row "B" 5 "2024-01-01";
     text_row "A" 3 "2023-01-01"; text_row "C" 7 "not-a-date"].

Lemma filter_keeps_days_in_window_witness :
  exists result,
    filter_data_by_date parse_iso_date sample_frame
      (Some (mkdatetime 2024 1 1 0 0 0 0))
      (Some (mkdatetime 2024 6 1 0 0 0 0)) "Created On"
    = Ok result /\
    rows result
    = map (stored parse_iso_date (column "Created On" sample_frame)
             "Created On")
        (List.filter
           (fun r => in_window (mkdatetime 2024 1 1 0 0 0 0)
                       (mkdatetime 2024 6 1 0 0 0 0)
                       (to_datetime parse_iso_date
                          (column "Created On" sample_frame)
                          (get "Created On" r)))
           (rows sample_frame)).
Proof.
  apply (proj1 (filter_keeps_days_in_window parse_iso_date sample_frame
                  (mkdatetime 2024 1 1 0 0 0 0) (mkdatetime 2024 6 1 0 0 0 0)
                  "Created On")).
  vm_compute. reflexivity.
Defined.

(** A frame without the column 'Created On': the filter raises KeyError
    where the claim has it return rows. *)
Definition undated_frame : DataFrame :=
  mkframe ["Posted"%string]
    [mkrow (Some "A"%string) (of_Z 10)
       {[ "Posted"%string := Str "2024-01-01" ]}].

Lemma filter_keeps_days_in_window_counterexample :
  filter_data_by_date parse_iso_date undated_frame
    (Some (mkdatetime 2024 1 1 0 0 0 0))
    (Some (mkdatetime 2024 6 1 0 0 0 0)) "Created On"
  = Raise (KeyError "Created On") /\
  ~ returns_rows_in_window parse_iso_date undated_frame
      (mkdatetime 2024 1 1 0 0 0 0) (mkdatetime 2024 6 1 0 0 0 0)
      "Created On".
Proof.
  assert (H :
    filter_data_by_date parse_iso_date undated_frame
      (Some (mkdatetime 2024 1 1 0 0 0 0))
      (Some (mkdatetime 2024 6 1 0 0 0 0)) "Created On"
    = Raise (KeyError "Created On")) by reflexivity.
  split; [exact H |]. intros (result & Hr & _). rewrite H in Hr.
  discriminate.
Qed.

(** With the timestamp column itself under the label 'date_only', the
    first pass drops that column with the scratch column and the second
    pass finds no column to parse. *)
Definition scratch_frame : DataFrame :=
  mkframe ["date_only"%string]
    [mkrow (Some "A"%string) (of_Z 10)
       {[ "date_only"%string := Str "2024-01-01" ]}].

(** C8. The filter is not idempotent on a timestamp column labelled
    'date_only': on [scratch_frame] the first pass returns the row, without
    the column, and a second pass with the same window over that result
    raises KeyError. *)
Theorem filter_twice_on_scratch_column :
  filter_data_by_date parse_iso_date scratch_frame
    (Some (mkdatetime 2024 1 1 0 0 0 0))
    (Some (mkdatetime 2024 6 1 0 0 0 0)) "date_only"
  = Ok (mkframe [] [mkrow (Some "A"%string) (of_Z 10) ∅]) /\
  filter_data_by_date parse_iso_date
    (mkframe [] [mkrow (Some "A"%string) (of_Z 10) ∅])
    (Some (mkdatetime 2024 1 1 0 0 0 0))
    (Some (mkdatetime 2024 6 1 0 0 0 0)) "date_only"
  = Raise (KeyError "date_only") /\
  (let* once :=
     filter_data_by_date parse_iso_date scratch_frame
       (Some (mkdatetime 2024 1 1 0 0 0 0))
       (Some (mkdatetime 2024 6 1 0 0 0 0)) "date_only" in
   filter_data_by_date parse_iso_date once
     (Some (mkdatetime 2024 1 1 0 0 0 0))
     (Some (mkdatetime 2024 6 1 0 0 0 0)) "date_only")
  <> filter_data_by_date parse_iso_date scratch_frame
       (Some (mkdatetime 2024 1 1 0 0 0 0))
       (Some (mkdatetime 2024 6 1 0 0 0 0)) "date_only".
Proof.
  assert (H1 :
    filter_data_by_date parse_iso_date scratch_frame
      (Some (mkdatetime 2024 1 1 0 0 0 0))
      (Some (mkdatetime 2024 6 1 0 0 0 0)) "date_only"
    = Ok (mkframe [] [mkrow (Some "A"%string) (of_Z 10) ∅]))
    by (vm_compute; reflexivity).
  split; [exact H1 |]. split; [reflexivity |].
  rewrite H1. cbn [Py.bind]. discriminate.
Qed.

End FilterFacts.

(** ** Grouping, rounding and sorting *)

Module AggregateFacts.
Import Pandas Sales.

(** *** The order of strings *)

Lemma ascii_compare_trans (a b c : ascii) :
  Ascii.compare a b = Lt -> Ascii.compare b c = Lt -> Ascii.compare a c = Lt.
Proof.
  unfold Ascii.compare. rewrite !N.compare_lt_iff. lia.
Qed.

Lemma string_compare_trans (s1 s2 s3 : string) :
  String.compare s1 s2 = Lt -> String.compare s2 s3 = Lt ->
  String.compare s1 s3 = Lt.
Proof.
  revert s2 s3. induction s1 as [| a s1 IH]; intros [| b s2] [| c s3];
    simpl; try congruence.
  destruct (Ascii.compare a b) eqn:Eab; try discriminate;
    destruct (Ascii.compare b c) eqn:Ebc; try discriminate; intros H12 H23.
  - apply Ascii.compare_eq_iff in Eab, Ebc. subst.
    replace (Ascii.compare c c) with Eq
      by (symmetry; unfold Ascii.compare; apply N.compare_refl).
    eapply IH; eassumption.
  - apply Ascii.compare_eq_iff in Eab. subst. rewrite Ebc. reflexivity.
  - apply Ascii.compare_eq_iff in Ebc. subst. rewrite Eab. reflexivity.
  - rewrite (ascii_compare_trans _ _ _ Eab Ebc). reflexivity.
Qed.

Definition string_lt (s1 s2 : string) : Prop := String.compare s1 s2 = Lt.

Lemma string_lt_ltb (s1 s2 : string) :
  string_lt s1 s2 <-> String.ltb s1 s2 = true.
Proof.
  unfold string_lt, String.ltb. destruct (String.compare s1 s2);
    split; congruence.
Qed.

(** *** The order of float64 *)

(** The place of a number in the order of float64: the infinities at the
    ends, the zeros in the middle, a finite number by sign, exponent and
    mantissa. *)
Definition rank (n : number) : Z * Z * Z :=
  match n with
  | Infinity true => (-2, 0, 0)
  | Finite true m e => (-1, - e, - Z.pos m)
  | Zero _ => (0, 0, 0)
  | Finite false m e => (1, e, Z.pos m)
  | Infinity false => (2, 0, 0)
  end.

Definition rank_lt (a b : Z * Z * Z) : Prop :=
  let '(a1, a2, a3) := a in
  let '(b1, b2, b3) := b in
  a1 < b1 \/ (a1 = b1 /\ (a2 < b2 \/ (a2 = b2 /\ a3 < b3))).

Lemma compare_cont_spec (m1 m2 : positive) :
  Pos.compare_cont Eq m1 m2 = (Z.pos m1 ?= Z.pos m2).
Proof. reflexivity. Qed.

Lemma flt_rank (x y : number) :
  flt (Some x) (Some y) = true <-> rank_lt (rank x) (rank y).
Proof.
  unfold flt, SFltb.
  destruct x as [[] | [] | [] m1 e1], y as [[] | [] | [] m2 e2];
    cbn [to_spec SFcompare rank rank_lt];
    try (split; [discriminate | lia]);
    try (split; [lia | reflexivity]);
    rewrite compare_cont_spec;
    destruct (Z.compare_spec e1 e2); destruct (Z.compare_spec (Z.pos m1) (Z.pos m2));
    cbn [CompOpp]; split; try discriminate; try reflexivity; try lia.
Qed.

Lemma feqb_rank (x y : number) :
  feqb (Some x) (Some y) = true <-> rank x = rank y.
Proof.
  unfold feqb, SFeqb.
  destruct x as [[] | [] | [] m1 e1], y as [[] | [] | [] m2 e2];
    cbn [to_spec SFcompare rank];
    try (split; [discriminate | intros [=]; lia]);
    try (split; [reflexivity | reflexivity]);
    rewrite compare_cont_spec;
    destruct (Z.compare_spec e1 e2); destruct (Z.compare_spec (Z.pos m1) (Z.pos m2));
    cbn [CompOpp]; split; try discriminate; try reflexivity;
    try (intros [=]; lia); try (intros _; f_equal; [f_equal |]; lia).
Qed.

Lemma flt_nan_l (y : float) : flt None y = false.
Proof. reflexivity. Qed.

Lemma flt_nan_r (x : float) : flt x None = false.
Proof. unfold flt, SFltb. destruct x as [[] |]; reflexivity. Qed.

Lemma flt_false (x y : number) :
  flt (Some x) (Some y) = false <-> ~ rank_lt (rank x) (rank y).
Proof.
  rewrite <- flt_rank. destruct (flt (Some x) (Some y)); split; congruence.
Qed.

(** [x <= y] and [y <= z] give [x <= z], for numbers. *)
Lemma not_flt_trans (x y z : number) :
  flt (Some y) (Some x) = false -> flt (Some z) (Some y) = false ->
  flt (Some z) (Some x) = false.
Proof.
  rewrite !flt_false.
  destruct (rank x) as [[x1 x2] x3], (rank y) as [[y1 y2] y3],
    (rank z) as [[z1 z2] z3].
  unfold rank_lt. lia.
Qed.

Lemma flt_asym (x y : number) :
  flt (Some x) (Some y) = true -> flt (Some y) (Some x) = false.
Proof.
  rewrite flt_false, flt_rank.
  destruct (rank x) as [[x1 x2] x3], (rank y) as [[y1 y2] y3].
  unfold rank_lt. lia.
Qed.

Lemma feqb_not_flt (x y : number) :
  feqb (Some x) (Some y) = true -> flt (Some y) (Some x) = false.
Proof.
  rewrite flt_false, feqb_rank. intros ->.
  destruct (rank y) as [[y1 y2] y3]. unfold rank_lt. lia.
Qed.


Lemma flt_irrefl_false (x y z : float) :
  y <> None ->
  flt y x = false -> flt z y = false -> flt z x = false.
Proof.
  intros Hy. destruct y as [y |]; [clear Hy | congruence].
  destruct x as [x |]; [| intros _ _; apply flt_nan_r].
  destruct z as [z |]; [| reflexivity].
  apply not_flt_trans.
Qed.

Lemma before_not_flt (x y : float) (t : bool) :
  flt x y || (feqb x y && t) = true -> flt y x = false.
Proof.
  destruct x as [x |]; [| intros _; apply flt_nan_r].
  destruct y as [y |]; [| reflexivity].
  intros H. apply orb_prop in H. destruct H as [H | H].
  - apply flt_asym, H.
  - apply andb_prop in H. destruct H as [H _]. apply feqb_not_flt, H.
Qed.

(** *** The keys of the groups *)

Lemma insert_key_In (k x : string) (keys : list string) :
  In x (insert_key k keys) <-> x = k \/ In x keys.
Proof.
  induction keys as [| k' rest IH]; simpl; [intuition |].
  destruct (String.compare k k') eqn:E; simpl.
  - apply String.compare_eq_iff in E. subst. intuition.
  - intuition.
  - rewrite IH. intuition.
Qed.

Lemma insert_key_sorted (k : string) (keys : list string) :
  StronglySorted string_lt keys -> StronglySorted string_lt (insert_key k keys).
Proof.
  induction 1 as [| k' rest Hs IH Hall]; simpl.
  - repeat constructor.
  - destruct (String.compare k k') eqn:E.
    + constructor; assumption.
    + constructor; [constructor; assumption |].
      constructor; [exact E |].
      eapply List.Forall_impl; [| exact Hall]. intros x Hx.
      eapply string_compare_trans; eassumption.
    + constructor; [exact IH |].
      apply List.Forall_forall. intros x Hx. apply insert_key_In in Hx.
      destruct Hx as [-> | Hx].
      * unfold string_lt. rewrite String.compare_antisym, E. reflexivity.
      * rewrite List.Forall_forall in Hall. apply Hall, Hx.
Qed.

Lemma group_keys_sorted (rs : list row) :
  StronglySorted string_lt (group_keys rs).
Proof.
  unfold group_keys. induction (omap Transaction_Category rs); simpl.
  - constructor.
  - apply insert_key_sorted. assumption.
Qed.

Lemma group_keys_In (k : string) (rs : list row) :
  In k (group_keys rs) <-> exists r, In r rs /\ Transaction_Category r = Some k.
Proof.
  unfold group_keys. induction rs as [| r rs IH]; simpl.
  - split; [tauto | intros (r & [] & _)].
  - destruct (Transaction_Category r) as [k' |] eqn:E; simpl.
    + rewrite insert_key_In, IH. split.
      * intros [-> | (r' & Hin & Hk)]; eauto.
      * intros (r' & [<- | Hin] & Hk); [left; congruence | right; eauto].
    + rewrite IH. split.
      * intros (r' & Hin & Hk). eauto.
      * intros (r' & [<- | Hin] & Hk); [congruence | eauto].
Qed.

(** *** Relative order in a list *)

(** [x] stands before [y] in [l]. *)
Definition precedes {A : Type} (x y : A) (l : list A) : Prop :=
  exists l1 l2 l3, l = l1 ++ x :: l2 ++ y :: l3.

Lemma precedes_cons {A : Type} (a x y : A) (l : list A) :
  precedes x y (a :: l) <-> (x = a /\ In y l) \/ precedes x y l.
Proof.
  split.
  - intros (l1 & l2 & l3 & E). destruct l1 as [| b l1]; simpl in E.
    + injection E as -> ->. left. split; [reflexivity |].
      apply in_or_app. right. left. reflexivity.
    + injection E as -> ->. right. exists l1, l2, l3. reflexivity.
  - intros [[-> Hin] | (l1 & l2 & l3 & ->)].
    + apply in_split in Hin. destruct Hin as (l2 & l3 & ->).
      exists [], l2, l3. reflexivity.
    + exists (a :: l1), l2, l3. reflexivity.
Qed.

Lemma precedes_nil {A : Type} (x y : A) : ~ precedes x y [].
Proof. intros (l1 & l2 & l3 & E). destruct l1; discriminate. Qed.

Lemma precedes_app {A : Type} (x y : A) (l l' : list A) :
  precedes x y (l ++ l') <->
  precedes x y l \/ (In x l /\ In y l') \/ precedes x y l'.
Proof.
  induction l as [| a l IH]; simpl.
  - split; [auto |]. intros [H | [[[] _] | H]]; [| exact H].
    destruct (precedes_nil _ _ H).
  - rewrite !precedes_cons, IH, in_app_iff. intuition (subst; auto).
Qed.

Lemma precedes_single {A : Type} (x y a : A) : ~ precedes x y [a].
Proof.
  intros H. apply precedes_cons in H. destruct H as [[_ []] | H].
  exact (precedes_nil _ _ H).
Qed.

Lemma precedes_rev {A : Type} (x y : A) (l : list A) :
  precedes x y (rev l) <-> precedes y x l.
Proof.
  induction l as [| a l IH]; simpl.
  - split; intros H; destruct (precedes_nil _ _ H).
  - rewrite precedes_app, (precedes_cons a y x l), IH, <- !in_rev. simpl.
    split.
    + intros [H | [[Hx [<- | []]] | H]].
      * right. exact H.
      * left. split; [reflexivity | exact Hx].
      * destruct (precedes_single _ _ _ H).
    + intros [[-> Hin] | H].
      * right. left. split; [exact Hin | left; reflexivity].
      * left. exact H.
Qed.

Lemma precedes_map {A B : Type} (f : A -> B) (x y : B) (l : list A) :
  precedes x y (map f l) ->
  exists a b, precedes a b l /\ x = f a /\ y = f b.
Proof.
  induction l as [| c l IH]; simpl; intros H.
  - destruct (precedes_nil _ _ H).
  - apply precedes_cons in H. destruct H as [[-> Hin] | H].
    + apply in_map_iff in Hin. destruct Hin as (b & <- & Hb).
      exists c, b. split; [| auto]. apply precedes_cons. left. auto.
    + destruct (IH H) as (a & b & Hp & -> & ->).
      exists a, b. split; [| auto]. apply precedes_cons. right. exact Hp.
Qed.

Lemma StronglySorted_precedes {A : Type} (R : A -> A -> Prop) (l : list A) :
  StronglySorted R l <-> (forall x y, precedes x y l -> R x y).
Proof.
  split.
  - induction 1 as [| a l Hs IH Hall]; intros x y H.
    + destruct (precedes_nil _ _ H).
    + apply precedes_cons in H. destruct H as [[-> Hin] | H].
      * rewrite List.Forall_forall in Hall. apply Hall, Hin.
      * apply IH, H.
  - induction l as [| a l IH]; intros H; constructor.
    + apply IH. intros x y Hp. apply H, precedes_cons. right. exact Hp.
    + apply List.Forall_forall. intros y Hy. apply H, precedes_cons. left. auto.
Qed.

(** *** The sort *)

Lemma precedes_In {A : Type} (x y : A) (l : list A) :
  precedes x y l -> In x l /\ In y l.
Proof.
  intros (l1 & l2 & l3 & ->). split.
  - apply in_or_app. right. left. reflexivity.
  - apply in_or_app. right. right. apply in_or_app. right. left. reflexivity.
Qed.

Lemma filter_partition {A : Type} (p : A -> bool) (l : list A) :
  Permutation (List.filter (fun x => negb (p x)) l ++ List.filter p l) l.
Proof.
  induction l as [| a l IH]; [reflexivity |]. cbn [List.filter].
  destruct (p a); cbn [negb].
  - rewrite <- Permutation_middle. constructor. exact IH.
  - cbn [app]. constructor. exact IH.
Qed.

Section Library.

Variable lib : Numerics.

Abbreviation insert_sorted := (insert_sorted lib).
Abbreviation sort_ascending := (sort_ascending lib).
Abbreviation sort_values_descending := (sort_values_descending lib).

(** No row has a smaller total than a row before it. *)
Definition ascending (l : list summary_row) : Prop :=
  forall x y, precedes x y l -> flt (total y) (total x) = false.

Definition numbers (l : list summary_row) : Prop :=
  forall x, In x l -> total x <> None.

Lemma insert_sorted_In (a x : summary_row) (l : list summary_row) :
  In x (insert_sorted a l) <-> x = a \/ In x l.
Proof.
  induction l as [| z l IH]; simpl; [intuition |].
  destruct (before lib a z); simpl; [intuition |].
  rewrite IH. intuition.
Qed.

Lemma insert_sorted_perm (a : summary_row) (l : list summary_row) :
  Permutation (insert_sorted a l) (a :: l).
Proof.
  induction l as [| z l IH]; simpl; [reflexivity |].
  destruct (before lib a z); [reflexivity |].
  rewrite IH. apply perm_swap.
Qed.

Lemma sort_ascending_perm (l : list summary_row) :
  Permutation (sort_ascending l) l.
Proof.
  induction l as [| a l IH]; simpl; [reflexivity |].
  rewrite insert_sorted_perm. constructor. exact IH.
Qed.

Lemma sort_values_descending_perm (l : list summary_row) :
  Permutation (sort_values_descending l) l.
Proof.
  unfold Pandas.sort_values_descending.
  rewrite <- Permutation_rev, sort_ascending_perm, <- Permutation_rev.
  apply filter_partition.
Qed.

(** Where the pairs of [insert_sorted a s] come from: from [s]; or [a]
    stands first, before a row that is not smaller; or [a] stands second,
    after a row that is not larger. *)
Lemma insert_sorted_precedes (a : summary_row) (s : list summary_row) :
  numbers s -> ascending s ->
  forall x y, precedes x y (insert_sorted a s) ->
    precedes x y s \/
    (x = a /\ In y s /\ flt (total y) (total a) = false) \/
    (y = a /\ In x s /\ flt (total a) (total x) = false).
Proof.
  induction s as [| z s IH]; intros Hnum Hasc x y H; simpl in H.
  - destruct (precedes_single _ _ _ H).
  - assert (Hasc' : ascending s).
    { intros u v Huv. apply Hasc, precedes_cons. right. exact Huv. }
    assert (Hnum' : numbers s) by (intros u Hu; apply Hnum; right; exact Hu).
    assert (Hz : total z <> None) by (apply Hnum; left; reflexivity).
    destruct (before lib a z) eqn:E.
    + apply before_not_flt in E.
      apply precedes_cons in H. destruct H as [[-> Hin] | H]; [| auto].
      right. left. repeat split; [exact Hin |].
      destruct Hin as [<- | Hin]; [exact E |].
      apply (flt_irrefl_false _ (total z)); [exact Hz | exact E |].
      apply Hasc, precedes_cons. left. auto.
    + assert (Hlt : flt (total a) (total z) = false).
      { unfold before in E. apply orb_false_elim in E. tauto. }
      apply precedes_cons in H. destruct H as [[-> Hin] | H].
      * apply insert_sorted_In in Hin. destruct Hin as [-> | Hin].
        -- right. right. repeat split; [left; reflexivity | exact Hlt].
        -- left. apply precedes_cons. left. auto.
      * destruct (IH Hnum' Hasc' x y H)
          as [Hp | [(-> & Hin & Hle) | (-> & Hin & Hl)]].
        -- left. apply precedes_cons. right. exact Hp.
        -- right. left. repeat split; [right; exact Hin | exact Hle].
        -- right. right. repeat split; [right; exact Hin | exact Hl].
Qed.

Lemma insert_sorted_ascending (a : summary_row) (s : list summary_row) :
  numbers s -> ascending s -> ascending (insert_sorted a s).
Proof.
  intros Hnum Hasc x y H.
  destruct (insert_sorted_precedes a s Hnum Hasc x y H)
    as [Hp | [(-> & _ & Hle) | (-> & _ & Hlt)]].
  - apply Hasc, Hp.
  - exact Hle.
  - exact Hlt.
Qed.

Lemma sort_ascending_In (x : summary_row) (l : list summary_row) :
  In x (sort_ascending l) <-> In x l.
Proof.
  split; apply Permutation_in;
    [apply sort_ascending_perm | symmetry; apply sort_ascending_perm].
Qed.

Lemma sort_ascending_ascending (l : list summary_row) :
  numbers l -> ascending (sort_ascending l).
Proof.
  induction l as [| a l IH]; intros Hnum; simpl.
  - intros x y H. destruct (precedes_nil _ _ H).
  - assert (Hnum' : numbers l) by (intros u Hu; apply Hnum; right; exact Hu).
    apply insert_sorted_ascending; [| apply IH, Hnum'].
    intros u Hu. apply Hnum'. apply sort_ascending_In, Hu.
Qed.

Lemma isna_total_true (x : summary_row) :
  isna_total x = true <-> total x = None.
Proof. apply bool_decide_eq_true. Qed.

Lemma isna_total_false (x : summary_row) :
  negb (isna_total x) = true <-> total x <> None.
Proof.
  rewrite negb_true_iff. apply bool_decide_eq_false.
Qed.

Lemma sorted_numbers (l : list summary_row) (x : summary_row) :
  In x (sort_ascending (rev (List.filter (fun x => negb (isna_total x)) l))) ->
  total x <> None.
Proof.
  intros H. apply (proj1 (sort_ascending_In _ _)) in H.
  apply (proj2 (in_rev _ _)) in H. apply List.filter_In in H.
  apply isna_total_false, H.
Qed.

(** The table after the sort: the rows with a number as total, then the
    rows with NaN. *)
Lemma sort_values_descending_parts (l : list summary_row)
    (x y : summary_row) :
  precedes x y (sort_values_descending l) ->
  (total x <> None /\ total y <> None /\
   precedes y x
     (sort_ascending
        (rev (List.filter (fun x => negb (isna_total x)) l)))) \/
  total y = None.
Proof.
  unfold Pandas.sort_values_descending. intros H.
  apply precedes_app in H. destruct H as [H | [[_ H] | H]].
  - left. apply (proj1 (precedes_rev _ _ _)) in H.
    destruct (precedes_In _ _ _ H) as [Hy Hx].
    apply sorted_numbers in Hx, Hy. auto.
  - right. apply List.filter_In in H. apply isna_total_true, H.
  - right. apply precedes_In in H. destruct H as [_ H].
    apply List.filter_In in H. apply isna_total_true, H.
Qed.

Lemma sort_values_descending_sorted (l : list summary_row)
    (x y : summary_row) :
  precedes x y (sort_values_descending l) ->
  flt (total x) (total y) = false.
Proof.
  intros H. destruct (sort_values_descending_parts _ _ _ H)
    as [(_ & _ & Hp) | Hy].
  - revert Hp. apply sort_ascending_ascending.
    intros u Hu. apply (proj2 (in_rev _ _)) in Hu.
    apply List.filter_In in Hu. apply isna_total_false, Hu.
  - rewrite Hy. apply flt_nan_r.
Qed.

Lemma sort_values_descending_nan_last (l : list summary_row)
    (x y : summary_row) :
  precedes x y (sort_values_descending l) ->
  total x = None -> total y = None.
Proof.
  intros H Hx. destruct (sort_values_descending_parts _ _ _ H)
    as [(Hn & _) | Hy]; [contradiction | exact Hy].
Qed.

(** *** The summary table *)

Abbreviation summarize := (summarize lib).
Abbreviation aggregate := (aggregate lib).

(** The rows of a category, and the summary row made of them. *)
Definition group_of (k : string) (df : DataFrame) : list row :=
  List.filter (in_group k) (rows df).

Definition present_amounts (group : list row) : list number :=
  omap Amount_Paid group.

Definition summary_of_group (df : DataFrame) (k : string) : summary_row :=
  mksummary k
    (Z.of_nat (length (present_amounts (group_of k df))))
    (round2 (sum_numbers lib (present_amounts (group_of k df)))).

Lemma omap_id_map {A B : Type} (f : A -> option B) (l : list A) :
  omap id (map f l) = omap f l.
Proof.
  induction l as [| a l IH]; csimpl; [reflexivity |].
  destruct (f a); csimpl; rewrite IH; reflexivity.
Qed.

Lemma summarize_eq (df : DataFrame) :
  summarize df = map (summary_of_group df) (group_keys (rows df)).
Proof.
  unfold Sales.summarize, groupby. rewrite map_map. apply map_ext. intros k.
  cbv beta. cbn [fst snd].
  unfold summary_of_group, present_amounts, group_of, count, Pandas.sum.
  pose proof (omap_id_map Amount_Paid (List.filter (in_group k) (rows df)))
    as E.
  f_equal; [do 2 f_equal | do 2 f_equal]; exact E.
Qed.


Lemma summarize_order (df : DataFrame) (x y : summary_row) :
  precedes x y (summarize df) -> string_lt (category x) (category y).
Proof.
  rewrite summarize_eq. intros H.
  apply precedes_map in H. destruct H as (a & b & Hp & -> & ->). simpl.
  apply (proj1 (StronglySorted_precedes string_lt _)
           (group_keys_sorted (rows df))).
  exact Hp.
Qed.

Lemma aggregate_table (df : DataFrame) :
  fst (fst (aggregate df))
  = if empty df then None
    else Some (sort_values_descending (summarize df)).
Proof. unfold Sales.aggregate. destruct (empty df); reflexivity. Qed.

Lemma aggregate_table_inv (df : DataFrame) (table : list summary_row) :
  fst (fst (aggregate df)) = Some table ->
  table = sort_values_descending (summarize df).
Proof.
  rewrite aggregate_table. destruct (empty df); congruence.
Qed.

(** C1, amended. For every frame the summary table is sorted by total in
    descending order: no row has a larger total than a row before it, and
    the rows whose total is NaN come last; it is the grouped table
    rearranged. Of two rows of equal total either may come first. *)
Theorem summary_sorted_descending (df : DataFrame)
    (table : list summary_row) :
  fst (fst (aggregate df)) = Some table ->
  StronglySorted
    (fun x y => flt (total x) (total y) = false /\
                (total x = None -> total y = None)) table /\
  Permutation table (summarize df).
Proof.
  intros H. apply aggregate_table_inv in H. subst table. split.
  - apply StronglySorted_precedes. intros x y Hp. split.
    + exact (sort_values_descending_sorted _ _ _ Hp).
    + exact (sort_values_descending_nan_last _ _ _ Hp).
  - apply sort_values_descending_perm.
Qed.


End Library.

(** The float64 that a decimal literal [n/d] denotes, for [n] and [d] that
    float64 holds exactly: the quotient, rounded once. *)
Definition decimal (n d : Z) : float := fdiv (of_Z n) (of_Z d).


(** *** Examples *)

(** Numerics for the examples: a sum adds from left to right, from 0.0;
    the sort keeps rows of equal total in their order, as numpy's
    insertion sort of a short array does. *)
Definition left_to_right (l : list number) : float :=
  fold_left (fun acc x => fadd acc (Some x)) l (of_Z 0).

Definition with_ties (ties : summary_row -> summary_row -> bool)
  : Numerics :=
  mknumerics left_to_right (fun l => left_to_right (omap id l)) ties.

Definition plain : Numerics := with_ties (fun _ _ => true).

Definition plain_row (category : string) (amount : float) : row :=
  mkrow (Some category) amount ∅.

Definition tie_frame : DataFrame :=
  mkframe [] [plain_row "B" (of_Z 5); plain_row "A" (of_Z 5);
              plain_row "C" (of_Z 7)].

Definition tie_table : list summary_row :=
  [mksummary "C" 1 (of_Z 7); mksummary "A" 1 (of_Z 5);
   mksummary "B" 1 (of_Z 5)].

Lemma tie_frame_table :
  fst (fst (aggregate plain tie_frame)) = Some tie_table.
Proof. vm_compute. reflexivity. Qed.

Lemma summary_sorted_descending_witness :
  StronglySorted
    (fun x y => flt (total x) (total y) = false /\
                (total x = None -> total y = None)) tie_table /\
  Permutation tie_table (summarize plain tie_frame).
Proof.
  apply (summary_sorted_descending plain tie_frame tie_table).
  vm_compute. reflexivity.
Defined.

(** The order of two rows of equal total is the sort's: on the totals 1, 1,
    2, 2 of the categories A to D the table is C, D, A, B when the sort
    keeps equal rows in order, and D, C, B, A when it turns them round. *)
Definition pairs_frame : DataFrame :=
  mkframe [] [plain_row "A" (of_Z 1); plain_row "B" (of_Z 1);
              plain_row "C" (of_Z 2); plain_row "D" (of_Z 2)].

Example ties_in_either_order :
  map category
    (default [] (fst (fst (aggregate plain pairs_frame))))
  = ["C"; "D"; "A"; "B"]%string /\
  map category
    (default []
       (fst (fst (aggregate (with_ties (fun _ _ => false)) pairs_frame))))
  = ["D"; "C"; "B"; "A"]%string.
Proof. split; vm_compute; reflexivity. Qed.

(** The position of the first row of a category in the frame. *)
Fixpoint first_appearance (k : string) (rs : list row) : option nat :=
  match rs with
  | [] => None
  | r :: rs' =>
      if in_group k r then Some 0%nat
      else option_map S (first_appearance k rs')
  end.

(** C1 as the claim states it: rows of equal total stand in the order in
    which their categories first appear in the frame. *)
Definition ties_by_first_appearance (lib : Numerics) (df : DataFrame)
  : Prop :=
  forall table x y i j,
    fst (fst (aggregate lib df)) = Some table ->
    precedes x y table -> feqb (total x) (total y) = true ->
    first_appearance (category x) (rows df) = Some i ->
    first_appearance (category y) (rows df) = Some j ->
    (i < j)%nat.

(** Two frames with the same two rows, in the two orders: their grouped
    tables are the same, so their summaries are, whatever the sort does
    with equal totals; the categories first appear in opposite orders. *)
Definition ab_frame : DataFrame :=
  mkframe [] [plain_row "A" (of_Z 5); plain_row "B" (of_Z 5)].

Definition ba_frame : DataFrame :=
  mkframe [] [plain_row "B" (of_Z 5); plain_row "A" (of_Z 5)].

Lemma summary_sorted_descending_counterexample :
  ~ (exists ties,
       ties_by_first_appearance (with_ties ties) ab_frame /\
       ties_by_first_appearance (with_ties ties) ba_frame).
Proof.
  intros (ties & Hab & Hba).
  set (a := mksummary "A" 1 (of_Z 5)). set (b := mksummary "B" 1 (of_Z 5)).
  assert (Tab : fst (fst (aggregate (with_ties ties) ab_frame))
                = Some (if ties b a then [a; b] else [b; a])).
  { vm_compute. destruct (ties _ _); reflexivity. }
  assert (Tba : fst (fst (aggregate (with_ties ties) ba_frame))
                = Some (if ties b a then [a; b] else [b; a])).
  { vm_compute. destruct (ties _ _); reflexivity. }
  destruct (ties b a).
  - assert (Hlt : (1 < 0)%nat).
    { apply (Hba [a; b] a b 1%nat 0%nat Tba).
      - exists [], [], []. reflexivity.
      - reflexivity.
      - reflexivity.
      - reflexivity. }
    lia.
  - assert (Hlt : (1 < 0)%nat).
    { apply (Hab [b; a] b a 1%nat 0%nat Tab).
      - exists [], [], []. reflexivity.
      - reflexivity.
      - reflexivity.
      - reflexivity. }
    lia.
Qed.

Definition missing_amount_frame : DataFrame :=
  mkframe [] [plain_row "A" (of_Z 10); plain_row "A" None].




End AggregateFacts.

(** ** load_and_process_data *)

Module PipelineFacts.
Import Datetime Pandas Sales FilterFacts AggregateFacts.

(** What the aggregation reads of a row. *)
Definition key (r : row) : option string * float :=
  (Transaction_Category r, Amount_Paid r).

Definition key_in_group (k : string) (p : option string * float) : bool :=
  bool_decide (fst p = Some k).

Section Pipeline.

Variable parse_datetime : list cell -> string -> option Z.
Variable lib : Numerics.
Variable now : datetime.

Abbreviation to_datetime := (to_datetime parse_datetime).
Abbreviation filter_data_by_date := (filter_data_by_date parse_datetime).
Abbreviation summarize := (summarize lib).
Abbreviation aggregate := (aggregate lib).
Abbreviation sort_values_descending := (sort_values_descending lib).
Abbreviation load_and_process_data :=
  (load_and_process_data parse_datetime lib now).

(** The summary and the totals from the keys alone. *)
Definition summarize_keys (ks : list (option string * float))
  : list summary_row :=
  map (fun k =>
         let amounts := omap snd (List.filter (key_in_group k) ks) in
         mksummary k (Z.of_nat (length amounts))
           (round2 (sum_numbers lib amounts)))
      (fold_right insert_key [] (omap fst ks)).

Definition aggregate_keys (ks : list (option string * float))
  : option (list summary_row) * float * Z :=
  match ks with
  | [] => (None, of_Z 0, 0)
  | _ :: _ =>
      let table := sort_values_descending (summarize_keys ks) in
      (Some table, Series_sum lib (map total table),
       fold_left Z.add (map transactions table) 0)
  end.

Lemma omap_key_category (rs : list row) :
  omap fst (map key rs) = omap Transaction_Category rs.
Proof.
  induction rs as [| r rs IH]; [reflexivity |]. csimpl.
  destruct (Transaction_Category r); csimpl; rewrite IH; reflexivity.
Qed.

Lemma omap_key_amounts (k : string) (rs : list row) :
  omap snd (List.filter (key_in_group k) (map key rs))
  = present_amounts (List.filter (in_group k) rs).
Proof.
  unfold present_amounts. induction rs as [| r rs IH]; [reflexivity |].
  cbn [map List.filter]. unfold key_in_group at 1, in_group at 1. cbn [key fst].
  destruct (bool_decide (Transaction_Category r = Some k)); [| exact IH].
  csimpl. destruct (Amount_Paid r); csimpl; rewrite IH; reflexivity.
Qed.

Lemma summarize_keys_eq (df : DataFrame) :
  summarize df = summarize_keys (map key (rows df)).
Proof.
  rewrite summarize_eq. unfold summarize_keys, group_keys.
  rewrite omap_key_category. apply map_ext. intros k.
  unfold summary_of_group, group_of. rewrite omap_key_amounts. reflexivity.
Qed.

Lemma aggregate_keys_eq (df : DataFrame) :
  aggregate df = aggregate_keys (map key (rows df)).
Proof.
  unfold Sales.aggregate, empty. rewrite summarize_keys_eq.
  destruct (rows df); reflexivity.
Qed.

(** The aggregation sees a frame through its keys only. *)
Lemma aggregate_ext (df1 df2 : DataFrame) :
  map key (rows df1) = map key (rows df2) -> aggregate df1 = aggregate df2.
Proof. intros H. rewrite !aggregate_keys_eq, H. reflexivity. Qed.

(** The rows and the totals of an outcome of the aggregation, the marker
    None read as no rows. *)
Definition table_and_totals (a : option (list summary_row) * float * Z)
  : list summary_row * float * Z :=
  let '(summary, grand_total_amount, grand_total_count) := a in
  (default [] summary, grand_total_amount, grand_total_count).

Definition categorized (p : option string * float) : bool :=
  bool_decide (is_Some (fst p)).

Lemma categorized_some (k : string) (a : float) :
  categorized (Some k, a) = true.
Proof. reflexivity. Qed.

Lemma categorized_none (a : float) : categorized (None, a) = false.
Proof. reflexivity. Qed.

Lemma omap_fst_categorized (ks : list (option string * float)) :
  omap fst (List.filter categorized ks) = omap fst ks.
Proof.
  induction ks as [| [c a] ks IH]; [reflexivity |].
  cbn [List.filter]. destruct c as [k |].
  - rewrite categorized_some. csimpl. rewrite IH. reflexivity.
  - rewrite categorized_none. csimpl. exact IH.
Qed.

Lemma filter_group_categorized (k : string)
    (ks : list (option string * float)) :
  List.filter (key_in_group k) (List.filter categorized ks)
  = List.filter (key_in_group k) ks.
Proof.
  induction ks as [| [c a] ks IH]; [reflexivity |].
  cbn [List.filter]. destruct c as [k' |].
  - rewrite categorized_some. cbn [List.filter]. rewrite IH. reflexivity.
  - rewrite categorized_none.
    replace (key_in_group k (None, a)) with false by reflexivity.
    exact IH.
Qed.

Lemma summarize_keys_categorized (ks : list (option string * float)) :
  summarize_keys (List.filter categorized ks) = summarize_keys ks.
Proof.
  unfold summarize_keys. rewrite omap_fst_categorized.
  apply map_ext. intros k. rewrite filter_group_categorized. reflexivity.
Qed.

Lemma summarize_keys_none (ks : list (option string * float)) :
  List.filter categorized ks = [] -> summarize_keys ks = [].
Proof.
  intros H. rewrite <- summarize_keys_categorized, H. reflexivity.
Qed.

Lemma aggregate_keys_categorized (ks : list (option string * float)) :
  table_and_totals (aggregate_keys (List.filter categorized ks))
  = table_and_totals (aggregate_keys ks).
Proof.
  destruct (List.filter categorized ks) as [| p ps] eqn:E.
  - destruct ks as [| q qs]; [reflexivity |].
    cbn [aggregate_keys]. rewrite (summarize_keys_none _ E). reflexivity.
  - destruct ks as [| q qs]; [discriminate |].
    cbn [aggregate_keys]. rewrite <- E, summarize_keys_categorized.
    reflexivity.
Qed.

(** The date column of a row of the frame, converted as line 182 does. *)
Definition created (date_column : string) (df : DataFrame) (r : row) : cell :=
  to_datetime (column date_column df) (get date_column r).

(** A row reaches the aggregation when, the date column being there, its
    timestamp parses and, the window having both ends, passes the test of
    the filter. *)
Definition reaches (start_date end_date : option datetime)
    (date_column : string) (df : DataFrame) (r : row) : bool :=
  if has_column date_column df then
    negb (isna (created date_column df r)) &&
    match start_date, end_date with
    | Some s, Some e => mask_of s e (created date_column df r)
    | _, _ => true
    end
  else true.

(** The frame after lines 181 to 183. *)
Definition cleaned (date_column : string) (df : DataFrame) : DataFrame :=
  mkframe (columns df)
    (List.filter (fun r => negb (isna (get date_column r)))
       (map (fun r => set date_column (created date_column df r) r)
          (rows df))).

(** The frame that is aggregated. *)
Definition reaching (start_date end_date : option datetime)
    (date_column : string) (df : DataFrame) : DataFrame :=
  if has_column date_column df then
    match start_date, end_date with
    | Some s, Some e =>
        mkframe
          (List.filter (fun c => negb (String.eqb c "date_only")) (columns df))
          (map (stored parse_datetime
                  (column date_column (cleaned date_column df)) date_column)
             (List.filter
                (fun r => mask_of s e
                            (created date_column (cleaned date_column df) r))
                (rows (cleaned date_column df))))
    | _, _ => cleaned date_column df
    end
  else df.

Lemma load_and_process_data_eq (df : DataFrame) (filter_option : string)
    (date_column : string) :
  load_and_process_data (Some df) filter_option date_column
  = let* (start_date, end_date) := get_date_range now filter_option None in
    let '(transaction_summary, grand_total_amount, grand_total_count) :=
      aggregate (reaching start_date end_date date_column df) in
    Ok (Bundle df transaction_summary grand_total_amount grand_total_count
          start_date end_date).
Proof.
  unfold Sales.load_and_process_data, reaching.
  destruct (has_column date_column df) eqn:Hcol.
  - unfold assign. rewrite Hcol. cbn [Py.bind]. unfold dropna at 1.
    unfold has_column at 1. cbn [columns rows].
    fold (has_column date_column df). rewrite Hcol. cbn [Py.bind].
    change (mkframe (columns df)
              (List.filter (fun r => negb (isna (get date_column r)))
                 (map (fun r => set date_column
                                  (to_datetime (column date_column df)
                                     (get date_column r)) r)
                    (rows df))))
      with (cleaned date_column df).
    destruct (get_date_range now filter_option None) as [[sd ed] |];
      [| reflexivity].
    cbn [Py.bind].
    assert (Hc : has_column date_column (cleaned date_column df) = true)
      by exact Hcol.
    rewrite Hc. destruct sd as [s |].
    + rewrite bool_decide_eq_true_2 by discriminate. cbn [andb].
      destruct ed as [e |].
      * rewrite (filter_data_by_date_eq parse_datetime _ s e _ Hc).
        reflexivity.
      * reflexivity.
    + rewrite bool_decide_eq_false_2 by tauto. reflexivity.
  - cbn [Py.bind].
    destruct (get_date_range now filter_option None) as [[sd ed] |];
      [| reflexivity].
    cbn [Py.bind]. rewrite Hcol, andb_false_r. reflexivity.
Qed.

Lemma key_stored (values : list cell) (date_column : string) (r : row) :
  key (stored parse_datetime values date_column r) = key r.
Proof. reflexivity. Qed.

Lemma cleaned_rows (date_column : string) (p : cell -> bool)
    (values values' : list cell) (l : list row) :
  map key
    (List.filter (fun r => p (to_datetime values' (get date_column r)))
       (List.filter (fun r => negb (isna (get date_column r)))
          (map (fun r => set date_column
                           (to_datetime values (get date_column r)) r)
             l)))
  = map key
      (List.filter
         (fun r => negb (isna (to_datetime values (get date_column r)))
                   && p (to_datetime values (get date_column r))) l).
Proof.
  induction l as [| r l IH]; [reflexivity |].
  cbn [map List.filter]. rewrite get_set_eq.
  destruct (isna (to_datetime values (get date_column r))); cbn [negb andb];
    [exact IH |].
  cbn [List.filter]. rewrite get_set_eq, to_datetime_idem.
  destruct (p (to_datetime values (get date_column r))); [| exact IH].
  cbn [map]. rewrite IH. reflexivity.
Qed.

(** The keys of the aggregated frame are the keys of the rows that reach
    the aggregation, in the order of the frame. *)
Lemma reaching_keys (start_date end_date : option datetime)
    (date_column : string) (df : DataFrame) :
  map key (rows (reaching start_date end_date date_column df))
  = map key
      (List.filter (reaches start_date end_date date_column df) (rows df)).
Proof.
  unfold reaching, reaches, created. destruct (has_column date_column df).
  - assert (Hplain :
      map key (rows (cleaned date_column df))
      = map key
          (List.filter
             (fun r => negb (isna (to_datetime (column date_column df)
                                     (get date_column r))) && true)
             (rows df))).
    { pose proof (cleaned_rows date_column (fun _ => true)
                    (column date_column df) [] (rows df)) as H.
      cbn beta in H. rewrite <- H. unfold cleaned, created. cbn [rows].
      rewrite List.filter_true. reflexivity. }
    destruct start_date as [s |], end_date as [e |]; try exact Hplain.
    cbn [rows]. rewrite map_map.
    rewrite (map_ext _ key (key_stored _ date_column)).
    unfold cleaned at 2, created. cbn [rows].
    apply (cleaned_rows date_column (mask_of s e)).
  - rewrite List.filter_true. reflexivity.
Qed.





(** The frame without the rows whose timestamp is missing or does not
    parse. *)
Definition parsable (date_column : string) (df : DataFrame) : DataFrame :=
  mkframe (columns df)
    (List.filter (fun r => negb (isna (created date_column df r))) (rows df)).

(** C9. When the frame has the timestamp column, 'All Time' aggregates only
    the rows whose timestamp parses, although [filter_data_by_date] with the
    unbounded window returns its frame as it is; the bundle holds the
    original frame with all its rows. Under every token the rows that are
    aggregated are rows whose timestamp parses. *)
Theorem unparsable_rows_excluded (df : DataFrame) (date_column : string) :
  valid now = true ->
  has_column date_column df = true ->
  load_and_process_data (Some df) "All Time" date_column
  = (let '(transaction_summary, grand_total_amount, grand_total_count) :=
       aggregate (parsable date_column df) in
     Ok (Bundle df transaction_summary grand_total_amount grand_total_count
           None None)) /\
  filter_data_by_date df None None date_column = Ok df /\
  (forall filter_option,
     load_and_process_data (Some df) filter_option date_column
     = let* (start_date, end_date) := get_date_range now filter_option None in
       let '(transaction_summary, grand_total_amount, grand_total_count) :=
         aggregate
           (mkframe (columns df)
              (List.filter (reaches start_date end_date date_column df)
                 (rows df))) in
       Ok (Bundle df transaction_summary grand_total_amount
             grand_total_count start_date end_date)) /\
  (forall start_date end_date r,
     reaches start_date end_date date_column df r = true ->
     isna (created date_column df r) = false).
Proof.
  intros Hv Hcol.
  assert (Hall : forall filter_option,
     load_and_process_data (Some df) filter_option date_column
     = let* (start_date, end_date) := get_date_range now filter_option None in
       let '(transaction_summary, grand_total_amount, grand_total_count) :=
         aggregate
           (mkframe (columns df)
              (List.filter (reaches start_date end_date date_column df)
                 (rows df))) in
       Ok (Bundle df transaction_summary grand_total_amount
             grand_total_count start_date end_date)).
  { intros filter_option. rewrite load_and_process_data_eq.
    destruct (get_date_range now filter_option None) as [[sd ed] |];
      [| reflexivity].
    cbn [Py.bind].
    rewrite (aggregate_ext (reaching sd ed date_column df)
               (mkframe (columns df)
                  (List.filter (reaches sd ed date_column df) (rows df))));
      [reflexivity |].
    apply reaching_keys. }
  split; [| split; [reflexivity | split; [exact Hall |]]].
  - rewrite Hall.
    rewrite DateRangeFacts.get_date_range_resolve by exact Hv.
    change (DateRangeFacts.period_of "All Time") with DateRangeFacts.AllTime.
    cbn [DateRangeFacts.resolve Py.bind].
    rewrite (aggregate_ext _ (parsable date_column df)); [reflexivity |].
    unfold parsable, reaches. cbn [rows]. rewrite Hcol. f_equal.
    apply List.filter_ext. intros r. apply andb_true_r.
  - intros sd ed r. unfold reaches. rewrite Hcol. intros H.
    apply andb_prop in H. destruct H as [H _].
    apply negb_true_iff in H. exact H.
Qed.

(** The frame without the rows that have no category. *)
Definition with_category (df : DataFrame) : DataFrame :=
  mkframe (columns df)
    (List.filter (fun r => bool_decide (is_Some (Transaction_Category r)))
       (rows df)).

(** What a call shows of the aggregation: the rows of the summary, the two
    grand totals and the window. *)
Definition summary_of (r : result bundle)
  : result (list summary_row * float * Z * option datetime * option datetime)
  :=
  let* b := r in
  match b with
  | LoadFailed => Ok ([], of_Z 0, 0, None, None)
  | Bundle _ transaction_summary grand_total_amount grand_total_count
      start_date end_date =>
      Ok (default [] transaction_summary, grand_total_amount,
          grand_total_count, start_date, end_date)
  end.

Lemma with_category_keys (p : row -> bool) (l : list row) :
  map key
    (List.filter p
       (List.filter (fun r => bool_decide (is_Some (Transaction_Category r)))
          l))
  = List.filter categorized (map key (List.filter p l)).
Proof.
  induction l as [| r l IH]; [reflexivity |].
  cbn [List.filter].
  destruct (p r) eqn:Ep;
    destruct (bool_decide (is_Some (Transaction_Category r))) eqn:Ec;
    cbn [List.filter map]; rewrite ?Ep.
  - cbn [map]. unfold categorized at 1. cbn [key fst]. rewrite Ec, IH.
    reflexivity.
  - unfold categorized at 1. cbn [key fst]. rewrite Ec. exact IH.
  - exact IH.
  - exact IH.
Qed.

Lemma aggregate_with_category (df : DataFrame) :
  table_and_totals (aggregate (with_category df))
  = table_and_totals (aggregate df).
Proof.
  rewrite !aggregate_keys_eq. unfold with_category. cbn [rows].
  pose proof (with_category_keys (fun _ => true) (rows df)) as H.
  rewrite !List.filter_true in H. rewrite H.
  apply aggregate_keys_categorized.
Qed.

(** C10. Rows without a category are in no group: every row of the summary
    carries the category of a row of the frame, and the rows of the summary
    and the two grand totals are those of the frame without the rows that
    have no category. So it is for every frame, every period token and
    every date column in what [load_and_process_data] returns: the summary
    and the grand totals are those of the rows that pass the date filter
    and have a category. *)
Theorem uncategorized_rows_excluded (df : DataFrame)
    (filter_option date_column : string) :
  (forall table x,
     fst (fst (aggregate df)) = Some table -> In x table ->
     exists r, In r (rows df) /\ Transaction_Category r = Some (category x)) /\
  table_and_totals (aggregate (with_category df))
  = table_and_totals (aggregate df) /\
  summary_of (load_and_process_data (Some df) filter_option date_column)
  = (let* (start_date, end_date) := get_date_range now filter_option None in
     Ok (table_and_totals
           (aggregate
              (with_category (reaching start_date end_date date_column df))),
         start_date, end_date)).
Proof.
  split; [| split].
  - intros table x Ht Hin. apply aggregate_table_inv in Ht. subst table.
    apply (Permutation_in _ (sort_values_descending_perm lib _)) in Hin.
    rewrite summarize_eq in Hin. apply in_map_iff in Hin.
    destruct Hin as (k & <- & Hk). apply group_keys_In in Hk. exact Hk.
  - apply aggregate_with_category.
  - rewrite load_and_process_data_eq.
    destruct (get_date_range now filter_option None) as [[sd ed] |];
      [| reflexivity].
    cbn [Py.bind].
    rewrite (aggregate_with_category (reaching sd ed date_column df)).
    destruct (aggregate (reaching sd ed date_column df)) as [[s gt] gc].
    reflexivity.
Qed.

(** When the parser reads each text on its own, a row without a category
    has no influence at all: the call returns the same summary and totals
    without it. *)
Lemma uncategorized_rows_without_influence (df : DataFrame)
    (filter_option date_column : string) :
  (forall values values' s,
     parse_datetime values s = parse_datetime values' s) ->
  summary_of
    (load_and_process_data (Some (with_category df)) filter_option date_column)
  = summary_of
      (load_and_process_data (Some df) filter_option date_column).
Proof.
  intros Hparse. rewrite !load_and_process_data_eq.
  destruct (get_date_range now filter_option None) as [[sd ed] |];
    [| reflexivity].
  cbn [Py.bind].
  assert (H : table_and_totals
                (aggregate (reaching sd ed date_column (with_category df)))
              = table_and_totals (aggregate (reaching sd ed date_column df))).
  { rewrite !aggregate_keys_eq, !reaching_keys.
    change (rows (with_category df))
      with (List.filter
              (fun r => bool_decide (is_Some (Transaction_Category r)))
              (rows df)).
    rewrite (List.filter_ext
               (reaches sd ed date_column (with_category df))
               (reaches sd ed date_column df)).
    - rewrite with_category_keys. apply aggregate_keys_categorized.
    - intros r. unfold reaches, created.
      change (has_column date_column (with_category df))
        with (has_column date_column df).
      assert (Hc : forall values values' c,
                to_datetime values c = to_datetime values' c).
      { intros v v' [| t | t]; simpl; try reflexivity.
        rewrite (Hparse v v'). reflexivity. }
      rewrite (Hc (column date_column (with_category df))
                  (column date_column df)).
      reflexivity. }
  destruct (aggregate (reaching sd ed date_column (with_category df)))
    as [[s1 gt1] gc1].
  destruct (aggregate (reaching sd ed date_column df)) as [[s2 gt2] gc2].
  cbn [table_and_totals] in H. injection H as H1 H2 H3.
  cbn [summary_of Py.bind]. rewrite H1, H2, H3. reflexivity.
Qed.

End Pipeline.

(** The first of June 2024, and the run of the program on the sample frame
    for 'This Year' on that day. *)
Definition june_2024 : datetime := mkdatetime 2024 6 1 0 0 0 0.

Definition sample_summary : list summary_row :=
  [mksummary "A" 1 (of_Z 10); mksummary "B" 1 (of_Z 5)].

Lemma sample_run :
  load_and_process_data parse_iso_date plain june_2024 (Some sample_frame)
    "This Year" "Created On"
  = Ok (Bundle sample_frame (Some sample_summary) (of_Z 15) 2
          (Some (mkdatetime 2024 1 1 0 0 0 0)) (Some june_2024)).
Proof. vm_compute. reflexivity. Qed.


Lemma unparsable_rows_excluded_witness :
  load_and_process_data parse_iso_date plain june_2024 (Some sample_frame)
    "All Time" "Created On"
  = (let '(transaction_summary, grand_total_amount, grand_total_count) :=
       aggregate plain (parsable parse_iso_date "Created On" sample_frame) in
     Ok (Bundle sample_frame transaction_summary grand_total_amount
           grand_total_count None None)) /\
  filter_data_by_date parse_iso_date sample_frame None None "Created On"
  = Ok sample_frame /\
  (forall filter_option,
     load_and_process_data parse_iso_date plain june_2024 (Some sample_frame)
       filter_option "Created On"
     = let* (start_date, end_date) :=
         get_date_range june_2024 filter_option None in
       let '(transaction_summary, grand_total_amount, grand_total_count) :=
         aggregate plain
           (mkframe (columns sample_frame)
              (List.filter
                 (reaches parse_iso_date start_date end_date "Created On"
                    sample_frame)
                 (rows sample_frame))) in
       Ok (Bundle sample_frame transaction_summary grand_total_amount
             grand_total_count start_date end_date)) /\
  (forall start_date end_date r,
     reaches parse_iso_date start_date end_date "Created On" sample_frame r
     = true ->
     isna (created parse_iso_date "Created On" sample_frame r) = false).
Proof.
  apply (unparsable_rows_excluded parse_iso_date plain june_2024 sample_frame
           "Created On").
  - reflexivity.
  - vm_compute. reflexivity.
Defined.

(** The row with the text 'not-a-date' is in the original frame of the
    bundle and in no group of the summary, under 'All Time' too. *)
Example sample_run_all_time :
  load_and_process_data parse_iso_date plain june_2024 (Some sample_frame)
    "All Time" "Created On"
  = Ok (Bundle sample_frame
          (Some [mksummary "A" 2 (of_Z 13); mksummary "B" 1 (of_Z 5)])
          (of_Z 18) 3 None None).
Proof. vm_compute. reflexivity. Qed.

(** A frame without rows: the marker None and zero totals. *)
Example empty_run :
  load_and_process_data parse_iso_date plain june_2024
    (Some (mkframe ["Created On"%string] [])) "Last 7 Days" "Created On"
  = Ok (Bundle (mkframe ["Created On"%string] []) None (of_Z 0) 0
          (Some (mkdatetime 2024 5 26 0 0 0 0)) (Some june_2024)).
Proof. vm_compute. reflexivity. Qed.

(** The grand total adds the rounded totals of the groups; it is not the
    rounded sum of all amounts: two groups of 0.004 give 0.0, where the
    sum 0.008 of the amounts rounds to 0.01. *)
Example grand_total_of_rounded :
  aggregate plain (mkframe [] [plain_row "A" (decimal 4 1000);
                               plain_row "B" (decimal 4 1000)])
  = (Some [mksummary "A" 1 (of_Z 0); mksummary "B" 1 (of_Z 0)],
     of_Z 0, 2).
Proof. vm_compute. reflexivity. Qed.

(** Sums and rounding are those of float64: 1e16 + 1 - 1e16 is 0.0, the
    1 is lost in the first addition; the amount 0.575, which float64
    holds as a little less, rounds to 0.57. *)
Example float64_totals :
  aggregate plain (mkframe [] [plain_row "A" (of_Z (10 ^ 16));
                               plain_row "A" (of_Z 1);
                               plain_row "A" (of_Z (- 10 ^ 16));
                               plain_row "B" (decimal 575 1000)])
  = (Some [mksummary "B" 1 (decimal 57 100); mksummary "A" 3 (of_Z 0)],
     decimal 57 100, 4).
Proof. vm_compute. reflexivity. Qed.

End PipelineFacts.

(** ** More on the windows of get_date_range *)

Module WindowFacts.
Import Datetime DatetimeFacts Sales DateRangeFacts Dashboard.

Lemma resolve_unbounded (p : Period) (today : datetime) :
  resolve p today = Ok (None, None) -> p = AllTime.
Proof.
  destruct p; simpl; try reflexivity; try discriminate.
  - destruct (sub_days today 1); discriminate.
  - destruct (sub_days today back); discriminate.
  - destruct (replace today _ _ _ _ _ _ _); discriminate.
  - destruct (replace today _ _ _ _ _ _ _) as [f |]; [| discriminate].
    simpl. destruct (sub_days f 1) as [l |]; [| discriminate].
    simpl. destruct (replace l _ _ _ _ _ _ _); discriminate.
  - destruct (replace today _ _ _ _ _ _ _); discriminate.
  - destruct (replace today _ _ _ _ _ _ _); [| discriminate].
    simpl. destruct (replace today _ _ _ _ _ _ _); discriminate.
Qed.

Lemma period_of_option (filter_option : string) :
  In filter_option filter_options ->
  period_of filter_option = AllTime -> filter_option = "All Time"%string.
Proof.
  unfold filter_options. simpl.
  intros H. repeat (destruct H as [<- | H]); try reflexivity;
    try (vm_compute; discriminate).
  destruct H.
Qed.

Lemma period_of_unknown (filter_option : string) :
  ~ In filter_option filter_options -> period_of filter_option = AllTime.
Proof.
  intros Hnot. unfold period_of.
  repeat match goal with
  | |- context [String.eqb filter_option ?t] =>
      destruct (String.eqb_spec filter_option t) as [-> | _];
      [exfalso; apply Hnot; unfold filter_options; simpl; tauto |]
  end.
  reflexivity.
Qed.

(** X1. For a valid reference, [get_date_range] returns the unbounded
    window exactly for 'All Time' and for the strings that are no option of
    the select box: each of the other eleven options has a branch of its
    own, which returns both ends or raises. *)
Theorem unbounded_only_for_all_time (now : datetime) (filter_option : string)
    (reference_date : option datetime) :
  valid (default now reference_date) = true ->
  (get_date_range now filter_option reference_date = Ok (None, None) <->
   filter_option = "All Time"%string \/ ~ In filter_option filter_options).
Proof.
  intros Hv. rewrite get_date_range_resolve by exact Hv. split.
  - intros H. apply resolve_unbounded in H.
    destruct (In_dec String.string_dec filter_option filter_options) as [Hin | Hnot].
    + left. apply period_of_option; assumption.
    + right. exact Hnot.
  - intros [-> | Hnot]; [reflexivity |].
    rewrite (period_of_unknown _ Hnot). reflexivity.
Qed.

Lemma unbounded_only_for_all_time_witness :
  get_date_range reference_2024_03_15 "today" None = Ok (None, None) <->
  "today"%string = "All Time"%string \/ ~ In "today"%string filter_options.
Proof.
  apply (unbounded_only_for_all_time reference_2024_03_15 "today" None).
  reflexivity.
Defined.

(** X2. The window depends on the calendar day of the reference only: two
    references on the same day, whatever their times of day, give the same
    result. *)
Theorem window_of_the_day (now now' : datetime) (filter_option : string)
    (reference_date reference_date' : option datetime) :
  valid (default now reference_date) = true ->
  valid (default now' reference_date') = true ->
  ymd (default now reference_date) = ymd (default now' reference_date') ->
  get_date_range now filter_option reference_date
  = get_date_range now' filter_option reference_date'.
Proof.
  intros Hv Hv' Hday. rewrite !get_date_range_resolve by assumption.
  f_equal. unfold midnight, ymd in *. injection Hday as -> -> ->.
  reflexivity.
Qed.

Lemma window_of_the_day_witness :
  get_date_range reference_2024_03_15 "Last 7 Days" None
  = get_date_range reference_2024_03_15 "Last 7 Days"
      (Some (mkdatetime 2024 3 15 23 59 59 999999)).
Proof.
  apply (window_of_the_day reference_2024_03_15 reference_2024_03_15
           "Last 7 Days" None (Some (mkdatetime 2024 3 15 23 59 59 999999))).
  - reflexivity.
  - reflexivity.
  - reflexivity.
Defined.

Lemma le_midnight (a b : datetime) :
  at_midnight a -> valid b = true ->
  ~ date_lt (ymd b) (ymd a) -> le a b = true.
Proof.
  intros (Hh & Hm & Hs & Hu) Hv Hn.
  unfold valid, _check_time_fields in Hv. bools.
  unfold le, _cmp, fields, ymd, date_lt in *.
  rewrite Hh, Hm, Hs, Hu. cbn [cmp_fields].
  destruct (Z.compare_spec (year a) (year b)); [| reflexivity | lia].
  destruct (Z.compare_spec (month a) (month b)); [| reflexivity | lia].
  destruct (Z.compare_spec (day a) (day b)); [| reflexivity | lia].
  destruct (Z.compare_spec 0 (hour b)); [| reflexivity | lia].
  destruct (Z.compare_spec 0 (minute b)); [| reflexivity | lia].
  destruct (Z.compare_spec 0 (second b)); [| reflexivity | lia].
  destruct (Z.compare_spec 0 (microsecond b)); [reflexivity | reflexivity | lia].
Qed.

Lemma toordinal_first_le (d : datetime) :
  valid d = true ->
  toordinal (mkdatetime (year d) (month d) 1
               (hour d) (minute d) (second d) (microsecond d))
  <= toordinal d.
Proof.
  intros Hv. destruct (valid_date_ok _ Hv) as [_ [_ Hd]].
  unfold toordinal, _ymd2ord. simpl. lia.
Qed.

Lemma ymd2ord_le (y1 m1 d1 y2 m2 d2 : Z) :
  date_ok y1 m1 d1 -> date_ok y2 m2 d2 ->
  ~ date_lt (y2, m2, d2) (y1, m1, d1) ->
  _ymd2ord y1 m1 d1 <= _ymd2ord y2 m2 d2.
Proof.
  intros Ha Hb Hn.
  destruct (date_trichotomy (y1, m1, d1) (y2, m2, d2)) as [H | [H | H]].
  - pose proof (ymd2ord_lt _ _ _ _ _ _ Ha Hb H). lia.
  - injection H as -> -> ->. lia.
  - contradiction.
Qed.

Lemma valid_of_check (y m d : Z) (t : datetime) :
  _check_date_fields y m d
  && _check_time_fields (hour t) (minute t) (second t) (microsecond t) = true ->
  valid (mkdatetime y m d (hour t) (minute t) (second t) (microsecond t))
  = true.
Proof. intros H. exact H. Qed.

(** The days of a window: the start is not after the end, the end not
    after today. *)
Lemma resolve_ordinals (p : Period) (today start_date end_date : datetime) :
  valid today = true ->
  match p with LastDays back => 0 <= back | _ => True end ->
  resolve p today = Ok (Some start_date, Some end_date) ->
  valid start_date = true /\ valid end_date = true /\
  toordinal start_date <= toordinal end_date <= toordinal today.
Proof.
  intros Hv Hback He. destruct (valid_date_ok _ Hv) as [[Hy1 Hy2] Hd].
  destruct p; simpl in He.
  - discriminate.
  - injection He as <- <-. repeat split; try assumption; lia.
  - destruct (sub_days today 1) as [y |] eqn:E; [| discriminate].
    injection He as <- <-.
    destruct (sub_days_inv _ _ 1 Hv ltac:(lia) E) as (Hy & Ho & _).
    repeat split; try assumption; lia.
  - destruct (sub_days today back) as [s |] eqn:E; [| discriminate].
    injection He as <- <-.
    destruct (sub_days_inv _ _ _ Hv Hback E) as (Hs & Ho & _).
    repeat split; try assumption; lia.
  - rewrite (replace_day_first _ Hv) in He. injection He as <- <-.
    pose proof (toordinal_first_le _ Hv).
    repeat split; try assumption; try lia.
    apply valid_with_day; [exact Hv | unfold date_ok in Hd; lia].
  - rewrite (replace_day_first _ Hv) in He. cbn [Py.bind] in He.
    destruct (sub_days _ 1) as [l |] eqn:E; [| discriminate].
    cbn [Py.bind] in He.
    assert (Hf : valid (mkdatetime (year today) (month today) 1 (hour today)
                          (minute today) (second today) (microsecond today))
                 = true)
      by (apply valid_with_day; [exact Hv | unfold date_ok in Hd; lia]).
    destruct (sub_days_inv _ _ 1 Hf ltac:(lia) E) as (Hl & Ho & _).
    rewrite (replace_day_first _ Hl) in He. injection He as <- <-.
    pose proof (toordinal_first_le _ Hv). pose proof (toordinal_first_le _ Hl).
    destruct (valid_date_ok _ Hl) as [_ Hdl].
    repeat split; try assumption; try lia.
    apply valid_with_day; [exact Hl | unfold date_ok in Hdl; lia].
  - unfold replace, new in He. simpl in He.
    destruct (_ && _) eqn:Ec in He; [| discriminate].
    injection He as <- <-.
    pose proof (valid_of_check _ _ _ today Ec) as Hs.
    destruct (valid_date_ok _ Hs) as [_ Hds]. simpl in Hds.
    repeat split; try assumption; try lia.
    unfold toordinal. simpl. apply ymd2ord_le; try assumption.
    unfold date_lt. unfold date_ok in Hd. lia.
  - unfold replace, new in He. simpl in He.
    destruct (_ && _) eqn:Ec in He; [| discriminate]. cbn [Py.bind] in He.
    injection He as <- <-.
    assert (Hs : valid (mkdatetime (year today - 1) 1 1 (hour today)
                          (minute today) (second today) (microsecond today))
                 = true) by exact Ec.
    assert (He' : valid (mkdatetime (year today - 1) 12 31 (hour today)
                           (minute today) (second today) (microsecond today))
                  = true) by exact Ec.
    destruct (valid_date_ok _ Hs) as [_ Hds].
    destruct (valid_date_ok _ He') as [_ Hde]. simpl in Hds, Hde.
    split; [exact Hs |]. split; [exact He' |].
    unfold toordinal. simpl. split.
    + apply ymd2ord_le; try assumption. unfold date_lt. lia.
    + apply ymd2ord_le; try assumption. unfold date_lt. lia.
Qed.

(** X3. No window reaches into the future: both ends that
    [get_date_range] returns are midnights not later than the reference,
    the start on a day not after the day of the end. *)
Theorem window_not_after_reference (now : datetime) (filter_option : string)
    (reference_date : option datetime) (start_date end_date : datetime) :
  valid (default now reference_date) = true ->
  get_date_range now filter_option reference_date
  = Ok (Some start_date, Some end_date) ->
  le end_date (default now reference_date) = true /\
  le start_date (default now reference_date) = true /\
  toordinal start_date <= toordinal end_date
  <= toordinal (default now reference_date).
Proof.
  intros Hv He.
  destruct (get_date_range_midnight _ _ _ _ _ Hv He) as [Hms Hme].
  rewrite get_date_range_resolve in He by exact Hv.
  pose proof (valid_midnight _ Hv) as Hvm.
  assert (Hback : match period_of filter_option with
                  | LastDays back => 0 <= back
                  | _ => True
                  end).
  { pose proof (period_of_back filter_option) as H.
    destruct (period_of filter_option); try exact I. lia. }
  destruct (resolve_ordinals _ _ _ _ Hvm Hback He) as (Hvs & Hve & Ho).
  change (toordinal (midnight (default now reference_date)))
    with (toordinal (default now reference_date)) in Ho.
  split; [| split; [| exact Ho]].
  - apply le_midnight; [exact Hme | exact Hv |].
    apply ymd2ord_le_inv; [apply valid_date_ok, Hve | apply valid_date_ok, Hv |].
    fold (toordinal end_date). fold (toordinal (default now reference_date)).
    lia.
  - apply le_midnight; [exact Hms | exact Hv |].
    apply ymd2ord_le_inv; [apply valid_date_ok, Hvs | apply valid_date_ok, Hv |].
    fold (toordinal start_date). fold (toordinal (default now reference_date)).
    lia.
Qed.

Lemma window_not_after_reference_witness :
  le (mkdatetime 2024 2 29 0 0 0 0) (default reference_2024_03_15 None)
  = true /\
  le (mkdatetime 2024 2 1 0 0 0 0) (default reference_2024_03_15 None)
  = true /\
  toordinal (mkdatetime 2024 2 1 0 0 0 0)
  <= toordinal (mkdatetime 2024 2 29 0 0 0 0)
  <= toordinal (default reference_2024_03_15 None).
Proof.
  apply (window_not_after_reference reference_2024_03_15 "Previous Month"
           None).
  - reflexivity.
  - reflexivity.
Defined.

(** X4. The windows 'Last N Days' are nested: where the longer one is
    returned, the shorter one is returned too, with the same end and a start
    that many days later. *)
Theorem last_days_nested (now : datetime) (reference_date : option datetime)
    (N1 N2 : Z) (token1 token2 : string) (start2 end2 : datetime) :
  valid (default now reference_date) = true ->
  In (N1, token1) last_days_tokens -> In (N2, token2) last_days_tokens ->
  N1 <= N2 ->
  get_date_range now token2 reference_date = Ok (Some start2, Some end2) ->
  exists start1,
    get_date_range now token1 reference_date = Ok (Some start1, Some end2) /\
    le start2 start1 = true /\
    toordinal start1 - toordinal start2 = N2 - N1.
Proof.
  intros Hv H1 H2 HN He. rewrite get_date_range_resolve in * by exact Hv.
  rewrite (last_days_period _ _ H2) in He. rewrite (last_days_period _ _ H1).
  pose proof (valid_midnight _ Hv) as Hm.
  set (today := midnight (default now reference_date)) in *.
  assert (HN1 : 7 <= N1).
  { unfold last_days_tokens in H1. simpl in H1.
    destruct H1 as [H | [H | [H | [H | [H | []]]]]]; injection H as <- _; lia. }
  simpl in He. simpl.
  destruct (sub_days today (N2 - 1)) as [s2 |] eqn:E2; [| discriminate].
  injection He as <- <-.
  destruct (sub_days_inv _ _ (N2 - 1) Hm ltac:(lia) E2)
    as (Hs2 & Ho2 & Hh2 & Hmi2 & Hse2 & Hu2).
  pose proof (toordinal_range _ Hs2). pose proof (toordinal_range _ Hm).
  destruct (sub_days_ok today (N1 - 1) Hm ltac:(lia))
    as (s1 & -> & Hs1 & Ho1 & Hh1 & Hmi1 & Hse1 & Hu1).
  exists s1. simpl. split; [reflexivity |]. split; [| lia].
  apply le_of_ordinal; try assumption; try congruence. lia.
Qed.

Lemma last_days_nested_witness :
  exists start1,
    get_date_range reference_2024_03_15 "Last 7 Days" None
    = Ok (Some start1, Some (mkdatetime 2024 3 15 0 0 0 0)) /\
    le (mkdatetime 2023 12 17 0 0 0 0) start1 = true /\
    toordinal start1 - toordinal (mkdatetime 2023 12 17 0 0 0 0) = 90 - 7.
Proof.
  apply (last_days_nested reference_2024_03_15 None 7 90
           "Last 7 Days" "Last 90 Days").
  - reflexivity.
  - simpl. auto.
  - simpl. auto.
  - lia.
  - reflexivity.
Defined.

(** X5. 'Previous Month' and 'This Month' are adjacent: where the previous
    month is returned, this month starts on the day after its end. *)
Theorem previous_month_adjacent (now : datetime)
    (reference_date : option datetime) (start_date end_date : datetime) :
  valid (default now reference_date) = true ->
  get_date_range now "Previous Month" reference_date
  = Ok (Some start_date, Some end_date) ->
  exists first_day,
    get_date_range now "This Month" reference_date
    = Ok (Some first_day, Some (midnight (default now reference_date))) /\
    toordinal first_day = toordinal end_date + 1.
Proof.
  intros Hv He. rewrite get_date_range_resolve in * by exact Hv.
  pose proof (valid_midnight _ Hv) as Hm.
  set (today := midnight (default now reference_date)) in *.
  change (period_of "Previous Month") with PreviousMonth in He.
  change (period_of "This Month") with ThisMonth.
  simpl in He. simpl. rewrite (replace_day_first _ Hm) in *.
  cbn [Py.bind] in *.
  destruct (sub_days _ 1) as [l |] eqn:E; [| discriminate].
  cbn [Py.bind] in He.
  assert (Hf : valid (mkdatetime (year today) (month today) 1 (hour today)
                        (minute today) (second today) (microsecond today))
               = true).
  { apply valid_with_day; [exact Hm |].
    destruct (valid_date_ok _ Hm) as [_ [_ ?]]. lia. }
  destruct (sub_days_inv _ _ 1 Hf ltac:(lia) E) as (Hl & Ho & _).
  rewrite (replace_day_first _ Hl) in He. injection He as <- <-.
  eexists. split; [reflexivity |]. lia.
Qed.

Lemma previous_month_adjacent_witness :
  exists first_day,
    get_date_range reference_2024_03_15 "This Month" None
    = Ok (Some first_day, Some (midnight (default reference_2024_03_15 None)))
    /\
    toordinal first_day = toordinal (mkdatetime 2024 2 29 0 0 0 0) + 1.
Proof.
  apply (previous_month_adjacent reference_2024_03_15 None
           (mkdatetime 2024 2 1 0 0 0 0)).
  - reflexivity.
  - reflexivity.
Defined.

(** X6. For every reference after year 1, 'Previous Year' is the whole year
    before, 1 January to 31 December, 365 days or 366 when that year is a
    leap year, and 'This Year' starts on the day after its end; for a
    reference in year 1 the call raises ValueError. *)
Theorem previous_year_window (now : datetime)
    (reference_date : option datetime) :
  valid (default now reference_date) = true ->
  let y := year (default now reference_date) in
  (2 <= y ->
   get_date_range now "Previous Year" reference_date
   = Ok (Some (mkdatetime (y - 1) 1 1 0 0 0 0),
         Some (mkdatetime (y - 1) 12 31 0 0 0 0)) /\
   toordinal (mkdatetime (y - 1) 12 31 0 0 0 0)
   - toordinal (mkdatetime (y - 1) 1 1 0 0 0 0) + 1
   = (if _is_leap (y - 1) then 366 else 365) /\
   get_date_range now "This Year" reference_date
   = Ok (Some (mkdatetime y 1 1 0 0 0 0),
         Some (midnight (default now reference_date))) /\
   toordinal (mkdatetime y 1 1 0 0 0 0)
   = toordinal (mkdatetime (y - 1) 12 31 0 0 0 0) + 1) /\
  (y = 1 ->
   get_date_range now "Previous Year" reference_date = Raise ValueError).
Proof.
  intros Hv y. rewrite !get_date_range_resolve by exact Hv.
  pose proof (valid_midnight _ Hv) as Hm.
  destruct (valid_date_ok _ Hv) as [[Hy1 Hy2] Hd].
  change (period_of "Previous Year") with PreviousYear.
  change (period_of "This Year") with ThisYear. split.
  - intros Hy. simpl resolve.
    change (replace (midnight (default now reference_date)) None (Some 1)
              (Some 1) None None None None)
      with (replace (midnight (default now reference_date))
              (Some (year (default now reference_date))) (Some 1) (Some 1)
              None None None None).
    rewrite !replace_date; try exact Hm.
    2-4: apply check_date_fields_iff; unfold date_ok, _days_in_month; simpl;
      unfold MAXYEAR in *; fold y; lia.
    simpl. fold y. split; [reflexivity |]. split; [| split; [reflexivity |]].
    + unfold toordinal, _ymd2ord, _days_before_month. simpl.
      destruct (_is_leap (y - 1)); lia.
    + unfold toordinal, _ymd2ord, _days_before_month. simpl.
      pose proof (days_before_year_succ (y - 1)) as H.
      replace (y - 1 + 1) with y in H by lia. unfold days_in_year in H.
      destruct (_is_leap (y - 1)); lia.
  - intros Hy. simpl resolve. unfold replace, new. simpl. fold y. rewrite Hy.
    reflexivity.
Qed.

Lemma previous_year_window_witness :
  let y := year (default reference_2024_03_15 None) in
  (2 <= y ->
   get_date_range reference_2024_03_15 "Previous Year" None
   = Ok (Some (mkdatetime (y - 1) 1 1 0 0 0 0),
         Some (mkdatetime (y - 1) 12 31 0 0 0 0)) /\
   toordinal (mkdatetime (y - 1) 12 31 0 0 0 0)
   - toordinal (mkdatetime (y - 1) 1 1 0 0 0 0) + 1
   = (if _is_leap (y - 1) then 366 else 365) /\
   get_date_range reference_2024_03_15 "This Year" None
   = Ok (Some (mkdatetime y 1 1 0 0 0 0),
         Some (midnight (default reference_2024_03_15 None))) /\
   toordinal (mkdatetime y 1 1 0 0 0 0)
   = toordinal (mkdatetime (y - 1) 12 31 0 0 0 0) + 1) /\
  (y = 1 ->
   get_date_range reference_2024_03_15 "Previous Year" None
   = Raise ValueError).
Proof.
  apply (previous_year_window reference_2024_03_15 None). reflexivity.
Defined.

(** X7. 'Yesterday' is the single day before the reference day; on
    0001-01-01, the first day of the type, the call raises OverflowError. *)
Theorem yesterday_window (now : datetime) (reference_date : option datetime) :
  valid (default now reference_date) = true ->
  (1 < toordinal (default now reference_date) ->
   exists yesterday,
     get_date_range now "Yesterday" reference_date
     = Ok (Some yesterday, Some yesterday) /\
     valid yesterday = true /\ at_midnight yesterday /\
     toordinal yesterday = toordinal (default now reference_date) - 1) /\
  (toordinal (default now reference_date) = 1 ->
   get_date_range now "Yesterday" reference_date = Raise OverflowError).
Proof.
  intros Hv. rewrite !get_date_range_resolve by exact Hv.
  pose proof (valid_midnight _ Hv) as Hm.
  pose proof (toordinal_range _ Hm) as Hr.
  change (period_of "Yesterday") with Yesterday. simpl resolve.
  change (toordinal (midnight (default now reference_date)))
    with (toordinal (default now reference_date)) in Hr.
  split.
  - intros Hpos.
    destruct (sub_days_ok (midnight (default now reference_date)) 1 Hm)
      as (d & -> & Hd & Ho & Hh & Hmi & Hs & Hu).
    { change (toordinal (midnight (default now reference_date)))
        with (toordinal (default now reference_date)). lia. }
    exists d. simpl. repeat split; assumption.
  - intros Hone. rewrite sub_days_overflow; [reflexivity |].
    change (toordinal (midnight (default now reference_date)))
      with (toordinal (default now reference_date)). lia.
Qed.

Lemma yesterday_window_witness :
  (1 < toordinal (default reference_2024_03_15 None) ->
   exists yesterday,
     get_date_range reference_2024_03_15 "Yesterday" None
     = Ok (Some yesterday, Some yesterday) /\
     valid yesterday = true /\ at_midnight yesterday /\
     toordinal yesterday = toordinal (default reference_2024_03_15 None) - 1)
  /\
  (toordinal (default reference_2024_03_15 None) = 1 ->
   get_date_range reference_2024_03_15 "Yesterday" None
   = Raise OverflowError).
Proof.
  apply (yesterday_window reference_2024_03_15 None). reflexivity.
Defined.

(** X8. 'Today', 'This Month' and 'This Year' are returned for every
    reference, the first days of the type included: today alone, the first
    of the month to today, the first of January to today. *)
Theorem current_period_windows (now : datetime)
    (reference_date : option datetime) :
  valid (default now reference_date) = true ->
  let reference := default now reference_date in
  get_date_range now "Today" reference_date
  = Ok (Some (midnight reference), Some (midnight reference)) /\
  get_date_range now "This Month" reference_date
  = Ok (Some (mkdatetime (year reference) (month reference) 1 0 0 0 0),
        Some (midnight reference)) /\
  get_date_range now "This Year" reference_date
  = Ok (Some (mkdatetime (year reference) 1 1 0 0 0 0),
        Some (midnight reference)).
Proof.
  intros Hv reference. rewrite !get_date_range_resolve by exact Hv.
  pose proof (valid_midnight _ Hv) as Hm.
  destruct (valid_date_ok _ Hv) as [[Hy1 Hy2] Hd].
  split; [reflexivity |]. split.
  - change (period_of "This Month") with ThisMonth. simpl resolve.
    rewrite (replace_day_first _ Hm). reflexivity.
  - change (period_of "This Year") with ThisYear. simpl resolve.
    change (replace (midnight (default now reference_date)) None (Some 1)
              (Some 1) None None None None)
      with (replace (midnight (default now reference_date))
              (Some (year (default now reference_date))) (Some 1) (Some 1)
              None None None None).
    rewrite replace_date; [reflexivity | exact Hm |].
    apply check_date_fields_iff. unfold date_ok, _days_in_month. simpl. lia.
Qed.

Lemma current_period_windows_witness :
  let reference := default (mkdatetime 1 1 1 0 0 0 0) None in
  get_date_range (mkdatetime 1 1 1 0 0 0 0) "Today" None
  = Ok (Some (midnight reference), Some (midnight reference)) /\
  get_date_range (mkdatetime 1 1 1 0 0 0 0) "This Month" None
  = Ok (Some (mkdatetime (year reference) (month reference) 1 0 0 0 0),
        Some (midnight reference)) /\
  get_date_range (mkdatetime 1 1 1 0 0 0 0) "This Year" None
  = Ok (Some (mkdatetime (year reference) 1 1 0 0 0 0),
        Some (midnight reference)).
Proof.
  apply (current_period_windows (mkdatetime 1 1 1 0 0 0 0) None). reflexivity.
Defined.

Lemma sub_days_raises (d : datetime) (n : Z) (e : exn) :
  sub_days d n = Raise e -> e = OverflowError.
Proof.
  unfold sub_days. destruct (_ && _).
  - destruct (_ord2ymd _) as [[y m] dd]. discriminate.
  - intros [= <-]. reflexivity.
Qed.

Lemma replace_raises (d : datetime) (y m dd h mi s us : option Z) (e : exn) :
  replace d y m dd h mi s us = Raise e -> e = ValueError.
Proof.
  unfold replace, new. destruct (_ && _); [discriminate |].
  intros [= <-]. reflexivity.
Qed.

Lemma period_of_previous_year (filter_option : string) :
  period_of filter_option = PreviousYear <->
  filter_option = "Previous Year"%string.
Proof.
  split; [| intros ->; reflexivity].
  unfold period_of.
  repeat match goal with
  | |- context [String.eqb filter_option ?t] =>
      destruct (String.eqb_spec filter_option t) as [-> | _];
      [first [discriminate | reflexivity] |]
  end.
  discriminate.
Qed.

(** X9. [get_date_range] raises for references in year 1 only: ValueError
    under 'Previous Year', whose year 0 the type does not have, and
    OverflowError under the other tokens, whose subtraction of days leaves
    the type. *)
Theorem get_date_range_raises (now : datetime) (filter_option : string)
    (reference_date : option datetime) (e : exn) :
  valid (default now reference_date) = true ->
  get_date_range now filter_option reference_date = Raise e ->
  year (default now reference_date) = 1 /\
  ((e = ValueError /\ filter_option = "Previous Year"%string) \/
   (e = OverflowError /\ filter_option <> "Previous Year"%string)).
Proof.
  intros Hv He. rewrite get_date_range_resolve in He by exact Hv.
  pose proof (valid_midnight _ Hv) as Hm.
  destruct (valid_date_ok _ Hv) as [[Hy1 Hy2] Hd]. unfold MINYEAR in *.
  split.
  - destruct (Z_le_gt_dec 2 (year (default now reference_date))) as [Hy |];
      [| lia].
    destruct (resolve_total (period_of filter_option) _ Hm Hy
                (period_of_back filter_option)) as [w Hw].
    rewrite Hw in He. discriminate.
  - pose proof (period_of_previous_year filter_option) as Hpy.
    set (today := midnight (default now reference_date)) in *.
    destruct (period_of filter_option) eqn:Ep; simpl in He.
    + discriminate.
    + discriminate.
    + right. destruct (sub_days today 1) eqn:E; [discriminate |].
      injection He as <-. split; [exact (sub_days_raises _ _ _ E) |].
      intros H. apply Hpy in H. discriminate.
    + right. destruct (sub_days today back) eqn:E; [discriminate |].
      injection He as <-. split; [exact (sub_days_raises _ _ _ E) |].
      intros H. apply Hpy in H. discriminate.
    + rewrite (replace_day_first _ Hm) in He. discriminate.
    + right. rewrite (replace_day_first _ Hm) in He. cbn [Py.bind] in He.
      assert (Hf : valid (mkdatetime (year today) (month today) 1 (hour today)
                            (minute today) (second today) (microsecond today))
                   = true).
      { apply valid_with_day; [exact Hm |].
        destruct (valid_date_ok _ Hm) as [_ [_ ?]]. lia. }
      destruct (sub_days _ 1) as [l |] eqn:E.
      * cbn [Py.bind] in He.
        destruct (sub_days_inv _ _ 1 Hf ltac:(lia) E) as (Hl & _).
        rewrite (replace_day_first _ Hl) in He. discriminate.
      * injection He as <-. split; [exact (sub_days_raises _ _ _ E) |].
        intros H. apply Hpy in H. discriminate.
    + change (replace today None (Some 1) (Some 1) None None None None)
        with (replace today (Some (year today)) (Some 1) (Some 1)
                None None None None) in He.
      rewrite replace_date in He; [discriminate | exact Hm |].
      apply check_date_fields_iff. unfold date_ok, _days_in_month. simpl.
      unfold MAXYEAR in *. lia.
    + left. split; [| apply Hpy; reflexivity].
      destruct (replace today _ (Some 1) (Some 1) None None None None)
        eqn:E1.
      * cbn [Py.bind] in He.
        destruct (replace today _ (Some 12) (Some 31) None None None None)
          eqn:E2; [discriminate |].
        injection He as <-. exact (replace_raises _ _ _ _ _ _ _ _ _ E2).
      * injection He as <-. exact (replace_raises _ _ _ _ _ _ _ _ _ E1).
Qed.

Lemma get_date_range_raises_witness :
  year (default (mkdatetime 1 6 1 0 0 0 0) None) = 1 /\
  ((OverflowError = ValueError /\
    "Last 365 Days"%string = "Previous Year"%string) \/
   (OverflowError = OverflowError /\
    "Last 365 Days"%string <> "Previous Year"%string)).
Proof.
  apply (get_date_range_raises (mkdatetime 1 6 1 0 0 0 0) "Last 365 Days"
           None OverflowError).
  - reflexivity.
  - reflexivity.
Defined.

(** X10. Both ends of every window that [get_date_range] returns are
    midnights, whatever the time of day of the reference. *)
Theorem window_ends_at_midnight (now : datetime) (filter_option : string)
    (reference_date : option datetime) (start_date end_date : datetime) :
  valid (default now reference_date) = true ->
  get_date_range now filter_option reference_date
  = Ok (Some start_date, Some end_date) ->
  at_midnight start_date /\ at_midnight end_date /\
  Pandas.normalize (Pandas.Timestamp start_date) = Pandas.Timestamp start_date /\
  Pandas.normalize (Pandas.Timestamp end_date) = Pandas.Timestamp end_date.
Proof.
  intros Hv He.
  destruct (get_date_range_midnight _ _ _ _ _ Hv He) as [Hs Hend].
  repeat split; try apply Hs; try apply Hend;
    apply FilterFacts.normalize_midnight; assumption.
Qed.

Lemma window_ends_at_midnight_witness :
  at_midnight (mkdatetime 2024 2 1 0 0 0 0) /\
  at_midnight (mkdatetime 2024 2 29 0 0 0 0) /\
  Pandas.normalize (Pandas.Timestamp (mkdatetime 2024 2 1 0 0 0 0))
  = Pandas.Timestamp (mkdatetime 2024 2 1 0 0 0 0) /\
  Pandas.normalize (Pandas.Timestamp (mkdatetime 2024 2 29 0 0 0 0))
  = Pandas.Timestamp (mkdatetime 2024 2 29 0 0 0 0).
Proof.
  apply (window_ends_at_midnight reference_2024_03_15 "Previous Month" None).
  - reflexivity.
  - reflexivity.
Defined.

End WindowFacts.

(** ** More on filter_data_by_date *)

Module RowFilterFacts.
Import Datetime DatetimeFacts Pandas Sales FilterFacts PipelineFacts.

(** The calendar day of a [datetime] is its ordinal, counted from the
    epoch. *)
Lemma calendar_day_Timestamp (d : datetime) :
  valid d = true ->
  calendar_day (Timestamp d) = toordinal d - EPOCH_ORDINAL.
Proof.
  unfold valid, _check_time_fields. intros H. bools.
  unfold calendar_day, Timestamp, NS_PER_DAY, NS_PER_SECOND.
  generalize dependent (toordinal d - EPOCH_ORDINAL). intros k.
  symmetry.
  apply (Z.div_unique_pos _ _ k
           ((hour d * 3600 + minute d * 60 + second d) * 1000000000
            + microsecond d * 1000)); lia.
Qed.

Lemma filter_sublist {A : Type} (p : A -> bool) (l : list A) :
  sublist (List.filter p l) l.
Proof.
  induction l as [| a l IH]; simpl; [constructor |].
  destruct (p a); constructor; exact IH.
Qed.

Lemma get_stored_other (parse_datetime : list cell -> string -> option Z)
    (values : list cell) (date_column label : string) (r : row) :
  label <> date_column -> label <> "date_only"%string ->
  get label (stored parse_datetime values date_column r) = get label r.
Proof.
  intros H1 H2. unfold get, stored. cbn [cells].
  rewrite lookup_delete_ne by congruence.
  rewrite lookup_insert_ne by congruence. reflexivity.
Qed.

Lemma get_stored_scratch (parse_datetime : list cell -> string -> option Z)
    (values : list cell) (date_column : string) (r : row) :
  get "date_only" (stored parse_datetime values date_column r) = NaN.
Proof.
  unfold get, stored. cbn [cells]. rewrite lookup_delete_eq. reflexivity.
Qed.

Section Filter.

Variable parse_datetime : list cell -> string -> option Z.

Abbreviation to_datetime := (to_datetime parse_datetime).
Abbreviation stored := (stored parse_datetime).
Abbreviation filter_data_by_date := (filter_data_by_date parse_datetime).

(** The two ways the filter returns. *)
Lemma filter_data_by_date_ok (df : DataFrame)
    (start_date end_date : option datetime) (date_column : string)
    (result : DataFrame) :
  filter_data_by_date df start_date end_date date_column = Ok result ->
  ((start_date = None \/ end_date = None) /\ result = df) \/
  (exists s e,
     start_date = Some s /\ end_date = Some e /\
     has_column date_column df = true /\
     result
     = mkframe
         (List.filter (fun c => negb (String.eqb c "date_only")) (columns df))
         (map (stored (column date_column df) date_column)
            (List.filter
               (fun r => mask_of s e
                           (to_datetime (column date_column df)
                              (get date_column r)))
               (rows df)))).
Proof.
  destruct start_date as [s |], end_date as [e |];
    try (intros [= <-]; left; split; [tauto | reflexivity]).
  destruct (has_column date_column df) eqn:Hcol.
  - rewrite (filter_data_by_date_eq _ _ _ _ _ Hcol). intros [= <-].
    right. exists s, e. auto.
  - rewrite (filter_data_by_date_missing _ _ _ _ _ Hcol). discriminate.
Qed.


(** X12. What the filter returns are rows of the frame, in the order of the
    frame: a selection of its rows with category, amount and every column
    but the date column and 'date_only' as they were. It adds no row and
    repeats none. *)
Theorem filter_returns_rows_of_frame (df : DataFrame)
    (start_date end_date : option datetime) (date_column : string)
    (result : DataFrame) :
  filter_data_by_date df start_date end_date date_column = Ok result ->
  exists kept,
    sublist kept (rows df) /\
    map key (rows result) = map key kept /\
    (forall label,
       label <> date_column -> label <> "date_only"%string ->
       map (get label) (rows result) = map (get label) kept) /\
    (length (rows result) <= length (rows df))%nat.
Proof.
  intros H. apply filter_data_by_date_ok in H.
  destruct H as [[_ ->] | (s & e & _ & _ & Hcol & ->)].
  - exists (rows df). repeat split; try reflexivity; lia.
  - eexists. split; [apply filter_sublist |]. cbn [rows].
    split; [| split].
    + rewrite map_map. apply map_ext. intros r. reflexivity.
    + intros label H1 H2. rewrite map_map. apply map_ext. intros r.
      apply get_stored_other; assumption.
    + rewrite length_map. apply sublist_length, filter_sublist.
Qed.

(** X13. With both ends of the window given, the result has the columns of
    the frame without 'date_only': a column of that name in the input is
    overwritten and dropped with the scratch column. Every row returned
    holds a timestamp in the date column, of a day between the days of the
    two ends. *)
Theorem filter_drops_scratch_column (df : DataFrame)
    (start_date end_date : datetime) (date_column : string)
    (result : DataFrame) :
  filter_data_by_date df (Some start_date) (Some end_date) date_column
  = Ok result ->
  columns result
  = List.filter (fun c => negb (String.eqb c "date_only")) (columns df) /\
  has_column "date_only" result = false /\
  (forall r, In r (rows result) -> get "date_only" r = NaN) /\
  (date_column <> "date_only"%string ->
   forall r, In r (rows result) ->
     exists t,
       get date_column r = Time t /\
       calendar_day (Timestamp start_date) <= calendar_day t
       <= calendar_day (Timestamp end_date)).
Proof.
  intros H. apply filter_data_by_date_ok in H.
  destruct H as [[[? | ?] _] | (s & e & Hs & He & Hcol & ->)];
    try discriminate.
  injection Hs as <-. injection He as <-. cbn [columns rows].
  split; [reflexivity |]. split; [| split].
  - apply bool_decide_eq_false. cbn [columns]. intros Hin.
    apply list_elem_of_In, List.filter_In in Hin. destruct Hin as [_ Hin].
    discriminate.
  - intros r Hin. apply in_map_iff in Hin. destruct Hin as (r0 & <- & _).
    apply get_stored_scratch.
  - intros Hne r Hin. apply in_map_iff in Hin.
    destruct Hin as (r0 & <- & Hin). apply List.filter_In in Hin.
    destruct Hin as [_ Hmask]. rewrite (get_stored _ _ _ _ Hne).
    rewrite mask_of_in_window in Hmask.
    destruct (to_datetime (column date_column df) (get date_column r0))
      as [| x | t]; try discriminate.
    exists t. split; [reflexivity |]. unfold in_window in Hmask.
    apply andb_prop in Hmask. destruct Hmask as [H1 H2].
    apply Z.leb_le in H1, H2. lia.
Qed.

Lemma filter_stored_then (p q : cell -> bool) (values values' : list cell)
    (date_column : string) (l : list row) :
  date_column <> "date_only"%string ->
  map (stored values' date_column)
    (List.filter (fun r => q (to_datetime values' (get date_column r)))
       (map (stored values date_column)
          (List.filter (fun r => p (to_datetime values (get date_column r)))
             l)))
  = map (stored values date_column)
      (List.filter
         (fun r => p (to_datetime values (get date_column r))
                   && q (to_datetime values (get date_column r))) l).
Proof.
  intros Hne. induction l as [| r l IH]; [reflexivity |].
  cbn [List.filter].
  destruct (p (to_datetime values (get date_column r))) eqn:E;
    cbn [andb]; [| exact IH].
  cbn [map List.filter].
  rewrite (get_stored _ _ _ _ Hne), to_datetime_idem.
  destruct (q (to_datetime values (get date_column r))); [| exact IH].
  cbn [map]. rewrite IH, (stored_stored _ _ _ _ _ Hne). reflexivity.
Qed.

Lemma has_column_filtered (df : DataFrame) (date_column : string)
    (rs : list row) :
  date_column <> "date_only"%string ->
  has_column date_column df = true ->
  has_column date_column
    (mkframe
       (List.filter (fun c => negb (String.eqb c "date_only")) (columns df))
       rs) = true.
Proof.
  intros Hne Hcol. apply has_column_true. cbn [columns].
  apply list_elem_of_In, List.filter_In. split.
  - apply list_elem_of_In, has_column_true, Hcol.
  - apply not_scratch, Hne.
Qed.

(** Two passes, with a window each, as one pass with both tests. *)
Lemma filter_twice (df : DataFrame) (s1 e1 s2 e2 : datetime)
    (date_column : string) :
  date_column <> "date_only"%string ->
  has_column date_column df = true ->
  (let* once := filter_data_by_date df (Some s1) (Some e1) date_column in
   filter_data_by_date once (Some s2) (Some e2) date_column)
  = Ok (mkframe
          (List.filter (fun c => negb (String.eqb c "date_only")) (columns df))
          (map (stored (column date_column df) date_column)
             (List.filter
                (fun r =>
                   mask_of s1 e1
                     (to_datetime (column date_column df) (get date_column r))
                   && mask_of s2 e2
                        (to_datetime (column date_column df)
                           (get date_column r)))
                (rows df)))).
Proof.
  intros Hne Hcol. rewrite (filter_data_by_date_eq _ df s1 e1 _ Hcol).
  cbn [Py.bind].
  rewrite filter_data_by_date_eq by (apply has_column_filtered; assumption).
  cbn [columns rows]. rewrite filter_filter_idem.
  rewrite (filter_stored_then (mask_of s1 e1) (mask_of s2 e2) _ _
             date_column (rows df) Hne).
  reflexivity.
Qed.

Lemma filter_unbounded (df : DataFrame)
    (start_date end_date : option datetime) (date_column : string) :
  start_date = None \/ end_date = None ->
  filter_data_by_date df start_date end_date date_column = Ok df.
Proof.
  intros [-> | ->]; [reflexivity |]. destruct start_date; reflexivity.
Qed.

Lemma unbounded_pass_first (df : DataFrame)
    (start1 end1 start2 end2 : option datetime) (date_column : string) :
  start1 = None \/ end1 = None ->
  (let* once := filter_data_by_date df start1 end1 date_column in
   filter_data_by_date once start2 end2 date_column)
  = filter_data_by_date df start2 end2 date_column.
Proof.
  intros H. rewrite (filter_unbounded df _ _ _ H). reflexivity.
Qed.

Lemma unbounded_pass_second (df : DataFrame)
    (start1 end1 start2 end2 : option datetime) (date_column : string) :
  start2 = None \/ end2 = None ->
  (let* once := filter_data_by_date df start1 end1 date_column in
   filter_data_by_date once start2 end2 date_column)
  = filter_data_by_date df start1 end1 date_column.
Proof.
  intros H. destruct (filter_data_by_date df start1 end1 date_column);
    cbn [Py.bind]; [apply filter_unbounded, H | reflexivity].
Qed.

Lemma bounded_or_not (start_date end_date : option datetime) :
  (start_date = None \/ end_date = None) \/
  (exists s e, start_date = Some s /\ end_date = Some e).
Proof.
  destruct start_date, end_date; eauto.
Qed.

(** X14. Filtering by two windows one after the other gives the same frame
    in either order, errors included, for every date column other than
    'date_only'. *)
Theorem filters_commute (df : DataFrame)
    (start1 end1 start2 end2 : option datetime) (date_column : string) :
  date_column <> "date_only"%string ->
  (let* once := filter_data_by_date df start1 end1 date_column in
   filter_data_by_date once start2 end2 date_column)
  = (let* once := filter_data_by_date df start2 end2 date_column in
     filter_data_by_date once start1 end1 date_column).
Proof.
  intros Hne.
  destruct (bounded_or_not start1 end1) as [H1 | (s1 & e1 & -> & ->)].
  { rewrite (unbounded_pass_first df start1 end1 start2 end2 _ H1),
      (unbounded_pass_second df start2 end2 start1 end1 _ H1).
    reflexivity. }
  destruct (bounded_or_not start2 end2) as [H2 | (s2 & e2 & -> & ->)].
  { rewrite (unbounded_pass_second df (Some s1) (Some e1) start2 end2 _ H2),
      (unbounded_pass_first df start2 end2 (Some s1) (Some e1) _ H2).
    reflexivity. }
  destruct (has_column date_column df) eqn:Hcol.
  - rewrite !filter_twice by assumption. do 3 f_equal.
    apply List.filter_ext. intros r. apply andb_comm.
  - rewrite !(filter_data_by_date_missing _ df _ _ _ Hcol). reflexivity.
Qed.

Lemma in_window_ordinals (start_date end_date : datetime) (t : Z) :
  valid start_date = true -> valid end_date = true ->
  in_window start_date end_date (Time t)
  = (toordinal start_date - EPOCH_ORDINAL <=? calendar_day t) &&
    (calendar_day t <=? toordinal end_date - EPOCH_ORDINAL).
Proof.
  intros Hs He. unfold in_window.
  rewrite !calendar_day_Timestamp by assumption. reflexivity.
Qed.

(** X15. A window inside another absorbs it: filtering by the wider window
    and then by the narrower one gives what the narrower one gives alone,
    errors included. *)
Theorem narrower_window_absorbs (df : DataFrame)
    (start1 end1 start2 end2 : datetime) (date_column : string) :
  date_column <> "date_only"%string ->
  valid start1 = true -> valid end1 = true ->
  valid start2 = true -> valid end2 = true ->
  toordinal start1 <= toordinal start2 -> toordinal end2 <= toordinal end1 ->
  (let* once :=
     filter_data_by_date df (Some start1) (Some end1) date_column in
   filter_data_by_date once (Some start2) (Some end2) date_column)
  = filter_data_by_date df (Some start2) (Some end2) date_column.
Proof.
  intros Hne Hs1 He1 Hs2 He2 Hs He.
  destruct (has_column date_column df) eqn:Hcol.
  - rewrite filter_twice by assumption.
    rewrite (filter_data_by_date_eq _ df start2 end2 _ Hcol).
    do 3 f_equal. apply List.filter_ext. intros r.
    rewrite !mask_of_in_window.
    destruct (to_datetime (column date_column df) (get date_column r))
      as [| x | t]; try reflexivity.
    rewrite !in_window_ordinals by assumption.
    destruct (Z.leb_spec (toordinal start2 - EPOCH_ORDINAL) (calendar_day t));
      [| rewrite andb_false_r; reflexivity].
    destruct (Z.leb_spec (calendar_day t) (toordinal end2 - EPOCH_ORDINAL));
      [| rewrite andb_false_r; reflexivity].
    rewrite andb_true_r. apply andb_true_intro.
    split; apply Z.leb_le; lia.
  - rewrite !(filter_data_by_date_missing _ df _ _ _ Hcol). reflexivity.
Qed.

(** X16. The filter reads the calendar days of the two ends only: windows
    whose ends fall on the same days, at whatever time of day, give the
    same result. *)
Theorem filter_reads_days_of_bounds (df : DataFrame)
    (start_date end_date start_date' end_date' : datetime)
    (date_column : string) :
  valid start_date = true -> valid end_date = true ->
  valid start_date' = true -> valid end_date' = true ->
  toordinal start_date = toordinal start_date' ->
  toordinal end_date = toordinal end_date' ->
  filter_data_by_date df (Some start_date) (Some end_date) date_column
  = filter_data_by_date df (Some start_date') (Some end_date') date_column.
Proof.
  intros Hs He Hs' He' Eqs Eqe.
  destruct (has_column date_column df) eqn:Hcol.
  - rewrite !(filter_data_by_date_eq _ df _ _ _ Hcol).
    do 3 f_equal. apply List.filter_ext. intros r.
    rewrite !mask_of_in_window.
    destruct (to_datetime (column date_column df) (get date_column r))
      as [| x | t]; try reflexivity.
    rewrite !in_window_ordinals by assumption. rewrite Eqs, Eqe.
    reflexivity.
  - rewrite !(filter_data_by_date_missing _ df _ _ _ Hcol). reflexivity.
Qed.

Lemma filter_none {A : Type} (p : A -> bool) (l : list A) :
  (forall x, p x = false) -> List.filter p l = [].
Proof.
  intros H. induction l as [| a l IH]; simpl; [reflexivity |].
  rewrite H. exact IH.
Qed.

(** X17. A window whose end day is before its start day selects nothing:
    the filter returns a frame without rows and raises no error. *)
Theorem inverted_window_selects_nothing (df : DataFrame)
    (start_date end_date : datetime) (date_column : string) :
  valid start_date = true -> valid end_date = true ->
  toordinal end_date < toordinal start_date ->
  has_column date_column df = true ->
  filter_data_by_date df (Some start_date) (Some end_date) date_column
  = Ok (mkframe
          (List.filter (fun c => negb (String.eqb c "date_only")) (columns df))
          []).
Proof.
  intros Hs He Hlt Hcol. rewrite (filter_data_by_date_eq _ df _ _ _ Hcol).
  rewrite (filter_none _ (rows df)); [reflexivity |]. intros r.
  rewrite mask_of_in_window.
  destruct (to_datetime (column date_column df) (get date_column r))
    as [| x | t]; try reflexivity.
  rewrite in_window_ordinals by assumption.
  destruct (Z.leb_spec (toordinal start_date - EPOCH_ORDINAL)
              (calendar_day t)); [| reflexivity].
  apply Z.leb_gt. lia.
Qed.

End Filter.

(** The rows of the sample frame of the year 2024, as the filter returns
    them. *)
Definition stamped_row (category : string) (amount : Z) (created : datetime)
  : row :=
  mkrow (Some category) (of_Z amount)
    {[ "Created On"%string := Time (Timestamp created) ]}.

Definition sample_2024 : DataFrame :=
  mkframe ["Created On"%string]
    [stamped_row "A" 10 (mkdatetime 2024 1 1 0 0 0 0);
     stamped_row "B" 5 (mkdatetime 2024 1 1 0 0 0 0)].

Lemma sample_frame_2024 :
  filter_data_by_date parse_iso_date sample_frame
    (Some (mkdatetime 2024 1 1 0 0 0 0))
    (Some (mkdatetime 2024 12 31 0 0 0 0)) "Created On"
  = Ok sample_2024.
Proof. vm_compute. reflexivity. Qed.


Lemma filter_returns_rows_of_frame_witness :
  exists kept,
    sublist kept (rows sample_frame) /\
    map key (rows sample_2024) = map key kept /\
    (forall label,
       label <> "Created On"%string -> label <> "date_only"%string ->
       map (get label) (rows sample_2024) = map (get label) kept) /\
    (length (rows sample_2024) <= length (rows sample_frame))%nat.
Proof.
  apply (filter_returns_rows_of_frame parse_iso_date sample_frame
           (Some (mkdatetime 2024 1 1 0 0 0 0))
           (Some (mkdatetime 2024 12 31 0 0 0 0)) "Created On" sample_2024).
  vm_compute. reflexivity.
Defined.

(** A frame with a column of its own under the label 'date_only'. *)
Definition own_date_only_frame : DataFrame :=
  mkframe ["Created On"; "date_only"]%string
    [mkrow (Some "A"%string) (of_Z 10)
       {[ "Created On"%string := Str "2024-01-01";
          "date_only"%string := Str "kept by hand" ]}].

Definition own_date_only_result : DataFrame :=
  mkframe ["Created On"%string]
    [stamped_row "A" 10 (mkdatetime 2024 1 1 0 0 0 0)].

Lemma filter_drops_scratch_column_witness :
  columns own_date_only_result
  = List.filter (fun c => negb (String.eqb c "date_only"))
      (columns own_date_only_frame) /\
  has_column "date_only" own_date_only_result = false /\
  (forall r, In r (rows own_date_only_result) -> get "date_only" r = NaN) /\
  ("Created On"%string <> "date_only"%string ->
   forall r, In r (rows own_date_only_result) ->
     exists t,
       get "Created On" r = Time t /\
       calendar_day (Timestamp (mkdatetime 2024 1 1 0 0 0 0))
       <= calendar_day t
       <= calendar_day (Timestamp (mkdatetime 2024 12 31 0 0 0 0))).
Proof.
  apply (filter_drops_scratch_column parse_iso_date own_date_only_frame
           (mkdatetime 2024 1 1 0 0 0 0) (mkdatetime 2024 12 31 0 0 0 0)
           "Created On" own_date_only_result).
  vm_compute. reflexivity.
Defined.

Lemma filters_commute_witness :
  (let* once :=
     filter_data_by_date parse_iso_date sample_frame
       (Some (mkdatetime 2024 1 1 0 0 0 0))
       (Some (mkdatetime 2024 12 31 0 0 0 0)) "Created On" in
   filter_data_by_date parse_iso_date once
     (Some (mkdatetime 2023 6 1 0 0 0 0))
     (Some (mkdatetime 2024 6 1 0 0 0 0)) "Created On")
  = (let* once :=
       filter_data_by_date parse_iso_date sample_frame
         (Some (mkdatetime 2023 6 1 0 0 0 0))
         (Some (mkdatetime 2024 6 1 0 0 0 0)) "Created On" in
     filter_data_by_date parse_iso_date once
       (Some (mkdatetime 2024 1 1 0 0 0 0))
       (Some (mkdatetime 2024 12 31 0 0 0 0)) "Created On").
Proof.
  apply (filters_commute parse_iso_date sample_frame
           (Some (mkdatetime 2024 1 1 0 0 0 0))
           (Some (mkdatetime 2024 12 31 0 0 0 0))
           (Some (mkdatetime 2023 6 1 0 0 0 0))
           (Some (mkdatetime 2024 6 1 0 0 0 0)) "Created On").
  discriminate.
Defined.

Lemma narrower_window_absorbs_witness :
  (let* once :=
     filter_data_by_date parse_iso_date sample_frame
       (Some (mkdatetime 2023 1 1 0 0 0 0))
       (Some (mkdatetime 2024 12 31 0 0 0 0)) "Created On" in
   filter_data_by_date parse_iso_date once
     (Some (mkdatetime 2024 1 1 0 0 0 0))
     (Some (mkdatetime 2024 6 1 0 0 0 0)) "Created On")
  = filter_data_by_date parse_iso_date sample_frame
      (Some (mkdatetime 2024 1 1 0 0 0 0))
      (Some (mkdatetime 2024 6 1 0 0 0 0)) "Created On".
Proof.
  apply (narrower_window_absorbs parse_iso_date sample_frame
           (mkdatetime 2023 1 1 0 0 0 0) (mkdatetime 2024 12 31 0 0 0 0)
           (mkdatetime 2024 1 1 0 0 0 0) (mkdatetime 2024 6 1 0 0 0 0)
           "Created On").
  - discriminate.
  - reflexivity.
  - reflexivity.
  - reflexivity.
  - reflexivity.
  - vm_compute. discriminate.
  - vm_compute. discriminate.
Defined.

Lemma filter_reads_days_of_bounds_witness :
  filter_data_by_date parse_iso_date sample_frame
    (Some (mkdatetime 2024 1 1 0 0 0 0))
    (Some (mkdatetime 2024 6 1 0 0 0 0)) "Created On"
  = filter_data_by_date parse_iso_date sample_frame
      (Some (mkdatetime 2024 1 1 23 59 59 999999))
      (Some (mkdatetime 2024 6 1 8 30 0 0)) "Created On".
Proof.
  apply (filter_reads_days_of_bounds parse_iso_date sample_frame
           (mkdatetime 2024 1 1 0 0 0 0) (mkdatetime 2024 6 1 0 0 0 0)
           (mkdatetime 2024 1 1 23 59 59 999999)
           (mkdatetime 2024 6 1 8 30 0 0) "Created On");
    reflexivity.
Defined.

Lemma inverted_window_selects_nothing_witness :
  filter_data_by_date parse_iso_date sample_frame
    (Some (mkdatetime 2024 6 1 0 0 0 0))
    (Some (mkdatetime 2024 1 1 0 0 0 0)) "Created On"
  = Ok (mkframe
          (List.filter (fun c => negb (String.eqb c "date_only"))
             (columns sample_frame))
          []).
Proof.
  apply (inverted_window_selects_nothing parse_iso_date sample_frame
           (mkdatetime 2024 6 1 0 0 0 0) (mkdatetime 2024 1 1 0 0 0 0)
           "Created On").
  - reflexivity.
  - reflexivity.
  - reflexivity.
  - vm_compute. reflexivity.
Defined.

End RowFilterFacts.

(** ** More on the aggregation and on load_and_process_data *)

Module SummaryFacts.
Import Datetime Pandas Sales Dashboard FilterFacts AggregateFacts PipelineFacts.

Section Library.

Variable lib : Numerics.

Abbreviation summarize := (summarize lib).
Abbreviation aggregate := (aggregate lib).
Abbreviation sort_values_descending := (sort_values_descending lib).
Abbreviation summary_of_group := (summary_of_group lib).

(** *** Sums of counts *)

Definition zsum (l : list Z) : Z := fold_right Z.add 0 l.

Lemma fold_left_add (l : list Z) (a : Z) :
  fold_left Z.add l a = a + zsum l.
Proof.
  revert a. induction l as [| x l IH]; intros a; simpl; [lia |].
  rewrite IH. lia.
Qed.

Lemma zsum_perm (l l' : list Z) : Permutation l l' -> zsum l = zsum l'.
Proof.
  induction 1; simpl; lia.
Qed.

Lemma string_lt_irrefl (s : string) : ~ string_lt s s.
Proof.
  unfold string_lt. intros H. pose proof (String.compare_antisym s s) as E.
  rewrite H in E. discriminate.
Qed.

Lemma group_keys_NoDup (rs : list row) : List.NoDup (group_keys rs).
Proof.
  pose proof (group_keys_sorted rs) as H.
  induction H as [| k ks Hs IH Hall]; constructor; [| exact IH].
  intros Hin. rewrite List.Forall_forall in Hall.
  exact (string_lt_irrefl k (Hall k Hin)).
Qed.

Lemma summarize_categories (df : DataFrame) :
  map category (summarize df) = group_keys (rows df).
Proof.
  rewrite summarize_eq, map_map. apply map_id.
Qed.

Lemma aggregate_perm (df : DataFrame) (table : list summary_row) :
  fst (fst (aggregate df)) = Some table -> Permutation table (summarize df).
Proof.
  intros H. apply aggregate_table_inv in H. subst table.
  apply sort_values_descending_perm.
Qed.

(** X18. The summary has one row for each category that occurs in the
    frame, and one only. *)
Theorem one_row_per_category (df : DataFrame) (table : list summary_row) :
  fst (fst (aggregate df)) = Some table ->
  List.NoDup (map category table) /\
  (forall k,
     In k (map category table) <->
     exists r, In r (rows df) /\ Transaction_Category r = Some k).
Proof.
  intros H. apply aggregate_perm in H.
  assert (Hp : Permutation (map category table) (group_keys (rows df))).
  { rewrite <- summarize_categories. apply Permutation.Permutation_map, H. }
  split.
  - apply (Permutation.Permutation_NoDup (Permutation_sym Hp)).
    apply group_keys_NoDup.
  - intros k. rewrite <- group_keys_In. split; apply Permutation_in.
    + exact Hp.
    + apply Permutation_sym, Hp.
Qed.

(** A row that counts: it has a category and an amount. *)
Definition complete (r : row) : bool :=
  bool_decide (is_Some (Transaction_Category r)) &&
  bool_decide (is_Some (Amount_Paid r)).

Definition complete_in (ks : list string) (r : row) : bool :=
  match Transaction_Category r, Amount_Paid r with
  | Some c, Some _ => bool_decide (c ∈ ks)
  | _, _ => false
  end.

Definition counts (ks : list string) (rs : list row) : Z :=
  zsum (map (fun k => Z.of_nat
                        (length (present_amounts (List.filter (in_group k) rs))))
          ks).

Lemma counts_nil (ks : list string) : counts ks [] = 0.
Proof. unfold counts. induction ks; simpl; auto. Qed.

Lemma counts_cons (ks : list string) (r : row) (rs : list row) :
  List.NoDup ks ->
  counts ks (r :: rs)
  = counts ks rs + (if complete_in ks r then 1 else 0).
Proof.
  unfold counts. induction 1 as [| k ks Hk Hnd IH].
  - simpl. unfold complete_in.
    destruct (Transaction_Category r), (Amount_Paid r); reflexivity.
  - cbn [map zsum fold_right]. fold (zsum (map (fun k0 => Z.of_nat
             (length (present_amounts (List.filter (in_group k0) (r :: rs)))))
             ks)).
    fold (zsum (map (fun k0 => Z.of_nat
             (length (present_amounts (List.filter (in_group k0) rs)))) ks)).
    rewrite IH. cbn [List.filter]. unfold in_group at 1, complete_in.
    destruct (Transaction_Category r) as [c |] eqn:Ec.
    + destruct (decide (c = k)) as [-> | Hne].
      * rewrite bool_decide_eq_true_2 by reflexivity.
        unfold present_amounts at 1. csimpl.
        destruct (Amount_Paid r) as [a |] eqn:Ea; csimpl.
        -- rewrite (bool_decide_eq_true_2 (k ∈ k :: ks))
             by (apply list_elem_of_In; left; reflexivity).
           rewrite (bool_decide_eq_false_2 (k ∈ ks))
             by (rewrite list_elem_of_In; exact Hk).
           unfold present_amounts. lia.
        -- unfold present_amounts. lia.
      * rewrite bool_decide_eq_false_2 by congruence.
        destruct (Amount_Paid r) as [a |]; [| lia].
        destruct (decide (c ∈ ks)) as [Hin | Hnin].
        -- rewrite !bool_decide_eq_true_2;
             [lia | apply list_elem_of_In; right;
                    apply list_elem_of_In, Hin | exact Hin].
        -- rewrite !bool_decide_eq_false_2; [lia | | exact Hnin].
           rewrite list_elem_of_In. intros [? | Hc]; [congruence |].
           apply Hnin, list_elem_of_In, Hc.
    + rewrite bool_decide_eq_false_2 by congruence. lia.
Qed.

Lemma counts_length (ks : list string) (rs : list row) :
  List.NoDup ks ->
  counts ks rs = Z.of_nat (length (List.filter (complete_in ks) rs)).
Proof.
  intros Hnd. induction rs as [| r rs IH]; [apply counts_nil |].
  rewrite (counts_cons _ _ _ Hnd), IH. cbn [List.filter].
  destruct (complete_in ks r); cbn [length]; lia.
Qed.

Lemma complete_in_group_keys (rs : list row) (r : row) :
  In r rs -> complete_in (group_keys rs) r = complete r.
Proof.
  intros Hin. unfold complete_in, complete.
  destruct (Transaction_Category r) as [c |] eqn:Ec;
    destruct (Amount_Paid r) as [a |] eqn:Ea; try reflexivity.
  rewrite bool_decide_eq_true_2; [reflexivity |].
  apply list_elem_of_In, group_keys_In. eauto.
Qed.

Lemma filter_ext_In {A : Type} (p q : A -> bool) (l : list A) :
  (forall x, In x l -> p x = q x) -> List.filter p l = List.filter q l.
Proof.
  induction l as [| a l IH]; intros H; [reflexivity |]. simpl.
  rewrite (H a) by (left; reflexivity).
  rewrite IH by (intros x Hx; apply H; right; exact Hx). reflexivity.
Qed.

Lemma summarize_counts (df : DataFrame) :
  zsum (map transactions (summarize df))
  = Z.of_nat (length (List.filter complete (rows df))).
Proof.
  rewrite summarize_eq, map_map.
  change (zsum (map (fun k => transactions (summary_of_group df k))
                  (group_keys (rows df))))
    with (counts (group_keys (rows df)) (rows df)).
  rewrite counts_length by apply group_keys_NoDup. f_equal. f_equal.
  apply filter_ext_In. intros r Hin. apply complete_in_group_keys, Hin.
Qed.

Lemma aggregate_count (df : DataFrame)
    (summary : option (list summary_row)) (grand_total_amount : float)
    (grand_total_count : Z) :
  aggregate df = (summary, grand_total_amount, grand_total_count) ->
  grand_total_count = Z.of_nat (length (List.filter complete (rows df))).
Proof.
  unfold aggregate, empty. destruct (rows df) as [| r rs] eqn:E.
  - intros [= _ _ <-]. reflexivity.
  - intros [= _ _ <-]. rewrite fold_left_add, Z.add_0_l.
    rewrite (zsum_perm _ (map transactions (summarize df))).
    + rewrite summarize_counts, E. reflexivity.
    + apply Permutation.Permutation_map, sort_values_descending_perm.
Qed.

Lemma filter_length_all {A : Type} (p : A -> bool) (l : list A) :
  (length (List.filter p l) <= length l)%nat /\
  (length (List.filter p l) = length l <-> forall x, In x l -> p x = true).
Proof.
  induction l as [| a l [IH1 IH2]]; simpl.
  - split; [lia |]. split; [tauto | reflexivity].
  - destruct (p a) eqn:E; simpl.
    + split; [lia |]. split.
      * intros H x [<- | Hx]; [exact E |]. apply IH2; [lia | exact Hx].
      * intros H. f_equal. apply IH2. auto.
    + split; [lia |]. split; [lia |].
      intros H. rewrite H in E by (left; reflexivity). discriminate.
Qed.

(** X19. The grand count, which the page shows as the number of rows after
    the filter, is the number of aggregated rows that have a category and
    an amount: it is at most the number of rows, and equal to it only when
    no row lacks a category or an amount. *)
Theorem grand_count_counts_complete_rows (df : DataFrame)
    (summary : option (list summary_row)) (grand_total_amount : float)
    (grand_total_count : Z) :
  aggregate df = (summary, grand_total_amount, grand_total_count) ->
  grand_total_count = Z.of_nat (length (List.filter complete (rows df))) /\
  0 <= grand_total_count <= Z.of_nat (length (rows df)) /\
  (grand_total_count = Z.of_nat (length (rows df)) <->
   forall r, In r (rows df) ->
     Transaction_Category r <> None /\ Amount_Paid r <> None).
Proof.
  intros H. apply aggregate_count in H. subst grand_total_count.
  destruct (filter_length_all complete (rows df)) as [Hle Hall].
  split; [reflexivity |]. split; [lia |].
  rewrite Nat2Z.inj_iff, Hall. unfold complete.
  split; intros Hr r Hin; specialize (Hr r Hin).
  - apply andb_prop in Hr. destruct Hr as [H1 H2].
    apply bool_decide_eq_true in H1, H2.
    destruct H1 as [? H1], H2 as [? H2]. rewrite H1, H2. split; discriminate.
  - destruct Hr as [H1 H2].
    destruct (Transaction_Category r); [| congruence].
    destruct (Amount_Paid r); [| congruence]. reflexivity.
Qed.

(** X20. What the page shows below the filter: the warning exactly when no
    row is aggregated, the dashboard exactly when some aggregated row has a
    category, and neither of them when there are rows and none has a
    category. *)
Theorem page_of_summary (df : DataFrame) :
  (page (fst (fst (aggregate df))) = NoDataWarning <-> rows df = []) /\
  (page (fst (fst (aggregate df))) = Metrics <->
   exists r, In r (rows df) /\ Transaction_Category r <> None) /\
  (page (fst (fst (aggregate df))) = Nothing <->
   rows df <> [] /\
   forall r, In r (rows df) -> Transaction_Category r = None).
Proof.
  rewrite aggregate_table. unfold empty.
  destruct (rows df) as [| r0 rs] eqn:E.
  - cbn [page]. split; [tauto |]. split.
    + split; [discriminate | intros (r & [] & _)].
    + split; [discriminate | intros [H _]; congruence].
  - set (table := sort_values_descending (summarize df)).
    assert (Hp : Permutation (map category table) (group_keys (rows df))).
    { rewrite <- summarize_categories.
      apply Permutation.Permutation_map, sort_values_descending_perm. }
    clearbody table. rewrite <- E.
    assert (Hk : (exists r, In r (rows df) /\ Transaction_Category r <> None)
                 <-> table <> []).
    { split.
      - intros (r & Hin & Hc) Ht. rewrite Ht in Hp. simpl in Hp.
        apply Permutation.Permutation_nil in Hp.
        destruct (Transaction_Category r) as [k |] eqn:Ek; [| congruence].
        assert (Hin' : In k (group_keys (rows df)))
          by (apply group_keys_In; eauto).
        rewrite Hp in Hin'. exact Hin'.
      - intros Ht. destruct table as [| x t]; [congruence |].
        assert (Hin : In (category x) (group_keys (rows df))).
        { apply (Permutation_in _ Hp). left. reflexivity. }
        apply group_keys_In in Hin. destruct Hin as (r & Hin & Hc).
        exists r. split; [exact Hin | congruence]. }
    split; [| split].
    + cbn [page]. rewrite E. split; [destruct table |]; discriminate.
    + rewrite Hk. cbn [page].
      destruct table; split; try congruence; discriminate.
    + assert (Hn : (forall r, In r (rows df) -> Transaction_Category r = None)
                   <-> table = []).
      { split.
        - intros Hall. destruct table as [| x t]; [reflexivity |].
          destruct (proj2 Hk ltac:(discriminate)) as (r & Hin & Hc).
          destruct (Hc (Hall r Hin)).
        - intros Ht r Hin.
          destruct (Transaction_Category r) eqn:Ec; [| reflexivity].
          exfalso. apply (proj1 Hk); [| exact Ht].
          exists r. split; [exact Hin | congruence]. }
      rewrite Hn. cbn [page].
      destruct table; split; try congruence; try discriminate.
      * intros _. split; [rewrite E; discriminate | reflexivity].
      * intros [_ ?]. discriminate.
Qed.

(** *** The charts *)

(** X21. The ten rows of the charts are the ten largest totals: no row
    left out has a larger total than a row shown, and a summary of ten rows
    or fewer is shown whole. *)
Theorem head_has_largest_totals (df : DataFrame) (table : list summary_row) :
  fst (fst (aggregate df)) = Some table ->
  table = head table ++ skipn 10 table /\
  (forall x y, In x (head table) -> In y (skipn 10 table) ->
               flt (total x) (total y) = false) /\
  ((length table <= 10)%nat -> head table = table) /\
  (length (head table) <= 10)%nat.
Proof.
  intros H. apply aggregate_table_inv in H. unfold head.
  split; [symmetry; apply firstn_skipn |]. split; [| split].
  - intros x y Hx Hy. subst table.
    apply (sort_values_descending_sorted lib (summarize df)).
    rewrite <- (firstn_skipn 10 (sort_values_descending (summarize df))).
    apply precedes_app. right. left. split; assumption.
  - intros Hlen. apply List.firstn_all2, Hlen.
  - apply List.firstn_le_length.
Qed.

End Library.

Lemma one_row_per_category_witness :
  List.NoDup (map category tie_table) /\
  (forall k,
     In k (map category tie_table) <->
     exists r, In r (rows tie_frame) /\ Transaction_Category r = Some k).
Proof.
  apply (one_row_per_category plain tie_frame tie_table).
  vm_compute. reflexivity.
Defined.

Lemma grand_count_counts_complete_rows_witness :
  1 = Z.of_nat (length (List.filter complete (rows missing_amount_frame))) /\
  0 <= 1 <= Z.of_nat (length (rows missing_amount_frame)) /\
  (1 = Z.of_nat (length (rows missing_amount_frame)) <->
   forall r, In r (rows missing_amount_frame) ->
     Transaction_Category r <> None /\ Amount_Paid r <> None).
Proof.
  apply (grand_count_counts_complete_rows plain missing_amount_frame
           (Some [mksummary "A" 1 (of_Z 10)]) (of_Z 10) 1).
  vm_compute. reflexivity.
Defined.

Lemma head_has_largest_totals_witness :
  tie_table = head tie_table ++ skipn 10 tie_table /\
  (forall x y, In x (head tie_table) -> In y (skipn 10 tie_table) ->
               flt (total x) (total y) = false) /\
  ((length tie_table <= 10)%nat -> head tie_table = tie_table) /\
  (length (head tie_table) <= 10)%nat.
Proof.
  apply (head_has_largest_totals plain tie_frame tie_table).
  vm_compute. reflexivity.
Defined.

End SummaryFacts.

(** ** What load_and_process_data returns *)

Module LoaderFacts.
Import Datetime DatetimeFacts Pandas Sales Dashboard DateRangeFacts FilterFacts.
Import AggregateFacts PipelineFacts WindowFacts RowFilterFacts SummaryFacts.

(** A window inside another: the second has no ends, or both have their
    ends and the days of the first lie between the ends of the second. *)
Definition inside (w1 w2 : option datetime * option datetime) : Prop :=
  match w2 with
  | (None, None) => True
  | (Some start2, Some end2) =>
      match w1 with
      | (Some start1, Some end1) =>
          toordinal start2 <= toordinal start1 /\
          toordinal end1 <= toordinal end2
      | _ => False
      end
  | _ => False
  end.

Lemma filter_length_le {A : Type} (p q : A -> bool) (l : list A) :
  (forall x, In x l -> p x = true -> q x = true) ->
  (length (List.filter p l) <= length (List.filter q l))%nat.
Proof.
  induction l as [| a l IH]; intros H; [reflexivity |]. cbn [List.filter].
  assert (IH' : (length (List.filter p l) <= length (List.filter q l))%nat)
    by (apply IH; intros x Hx; apply H; right; exact Hx).
  destruct (p a) eqn:Ep.
  - rewrite (H a (or_introl eq_refl) Ep). cbn [length]. lia.
  - destruct (q a); cbn [length]; lia.
Qed.

Lemma window_valid (now : datetime) (filter_option : string)
    (start_date end_date : datetime) :
  valid now = true ->
  get_date_range now filter_option None
  = Ok (Some start_date, Some end_date) ->
  valid start_date = true /\ valid end_date = true.
Proof.
  intros Hv He.
  rewrite get_date_range_resolve in He by exact Hv.
  apply resolve_ordinals in He.
  - tauto.
  - apply valid_midnight, Hv.
  - pose proof (period_of_back filter_option) as H.
    destruct (period_of filter_option); try exact I. lia.
Qed.

Definition complete_key (p : option string * float) : bool :=
  bool_decide (is_Some (fst p)) && bool_decide (is_Some (snd p)).

Lemma complete_keys (l : list row) :
  length (List.filter complete l)
  = length (List.filter complete_key (map key l)).
Proof.
  induction l as [| r l IH]; [reflexivity |]. cbn [map List.filter].
  change (complete_key (key r)) with (complete r).
  destruct (complete r); cbn [length]; rewrite IH; reflexivity.
Qed.

Lemma filter_filter_and {A : Type} (p q : A -> bool) (l : list A) :
  List.filter p (List.filter q l) = List.filter (fun x => q x && p x) l.
Proof.
  induction l as [| a l IH]; [reflexivity |]. cbn [List.filter].
  destruct (q a); cbn [andb List.filter]; [| exact IH].
  destruct (p a); rewrite IH; reflexivity.
Qed.

Section Loader.

Variable parse_datetime : list cell -> string -> option Z.
Variable lib : Numerics.
Variable now : datetime.

Abbreviation aggregate := (aggregate lib).
Abbreviation load_and_process_data :=
  (load_and_process_data parse_datetime lib now).
Abbreviation reaches := (reaches parse_datetime).

Lemma bundle_count (df : DataFrame) (date_column : string)
    (start_date end_date : option datetime)
    (summary : option (list summary_row)) (grand_total_amount : float)
    (grand_total_count : Z) :
  aggregate (reaching parse_datetime start_date end_date date_column df)
  = (summary, grand_total_amount, grand_total_count) ->
  grand_total_count
  = Z.of_nat
      (length
         (List.filter
            (fun r => reaches start_date end_date date_column df r
                      && complete r)
            (rows df))).
Proof.
  intros E. apply aggregate_count in E.
  rewrite complete_keys, reaching_keys, <- complete_keys in E.
  rewrite filter_filter_and in E. exact E.
Qed.

(** X27. The grand count of a call is the number of rows of the file that
    reach the aggregation, their timestamp parsed and inside the window,
    and have a category and an amount; it never exceeds the number of rows
    of the file. *)
Theorem grand_count_of_the_file (df : DataFrame)
    (filter_option date_column : string) (original_df : DataFrame)
    (transaction_summary : option (list summary_row))
    (grand_total_amount : float) (grand_total_count : Z)
    (start_date end_date : option datetime) :
  load_and_process_data (Some df) filter_option date_column
  = Ok (Bundle original_df transaction_summary grand_total_amount
          grand_total_count start_date end_date) ->
  grand_total_count
  = Z.of_nat
      (length
         (List.filter
            (fun r => reaches start_date end_date date_column df r
                      && complete r)
            (rows df))) /\
  0 <= grand_total_count <= Z.of_nat (length (rows df)).
Proof.
  rewrite load_and_process_data_eq.
  destruct (get_date_range now filter_option None) as [[sd ed] | ex];
    [| discriminate].
  cbn [Py.bind].
  destruct (aggregate (reaching parse_datetime sd ed date_column df))
    as [[t gt] gc] eqn:E.
  intros [= <- <- <- <- <- <-].
  apply bundle_count in E. split; [exact E |].
  rewrite E. split; [lia |].
  apply Nat2Z.inj_le, filter_length_all.
Qed.

(** X28. A wider window never counts fewer transactions: of two calls on
    the same file, the one whose window contains the window of the other,
    or has no ends, returns a grand count at least as large. *)
Theorem wider_window_counts_more (df : DataFrame)
    (option1 option2 date_column : string)
    (original1 original2 : DataFrame)
    (summary1 summary2 : option (list summary_row))
    (total1 total2 : float) (count1 count2 : Z)
    (start1 end1 start2 end2 : option datetime) :
  valid now = true ->
  load_and_process_data (Some df) option1 date_column
  = Ok (Bundle original1 summary1 total1 count1 start1 end1) ->
  load_and_process_data (Some df) option2 date_column
  = Ok (Bundle original2 summary2 total2 count2 start2 end2) ->
  inside (start1, end1) (start2, end2) ->
  count1 <= count2.
Proof.
  intros Hv. rewrite !load_and_process_data_eq.
  destruct (get_date_range now option1 None) as [[sd1 ed1] | ex] eqn:G1;
    [| discriminate].
  destruct (get_date_range now option2 None) as [[sd2 ed2] | ex] eqn:G2;
    [| discriminate].
  cbn [Py.bind].
  destruct (aggregate (reaching parse_datetime sd1 ed1 date_column df))
    as [[t1 gt1] gc1] eqn:E1.
  destruct (aggregate (reaching parse_datetime sd2 ed2 date_column df))
    as [[t2 gt2] gc2] eqn:E2.
  intros [= <- <- <- <- <- <-] [= <- <- <- <- <- <-] Hin.
  apply bundle_count in E1, E2. rewrite E1, E2.
  apply Nat2Z.inj_le, filter_length_le. intros r _ Hr.
  apply andb_prop in Hr. destruct Hr as [Hr Hc]. rewrite Hc, andb_true_r.
  unfold PipelineFacts.reaches in *.
  destruct (has_column date_column df); [| reflexivity].
  apply andb_prop in Hr. destruct Hr as [Hna Hm]. rewrite Hna. cbn [andb].
  unfold inside in Hin.
  destruct sd2 as [s2 |], ed2 as [e2 |]; try tauto.
  destruct sd1 as [s1 |], ed1 as [e1 |]; try tauto.
  destruct (window_valid _ _ _ _ Hv G1) as [Hs1 He1].
  destruct (window_valid _ _ _ _ Hv G2) as [Hs2 He2].
  rewrite mask_of_in_window in *.
  destruct (created parse_datetime date_column df r) as [| x | t];
    try discriminate.
  rewrite in_window_ordinals in * by assumption.
  apply andb_prop in Hm. destruct Hm as [H1 H2]. apply Z.leb_le in H1, H2.
  apply andb_true_intro. split; apply Z.leb_le; lia.
Qed.

End Loader.

Lemma grand_count_of_the_file_witness :
  2 = Z.of_nat
        (length
           (List.filter
              (fun r => PipelineFacts.reaches parse_iso_date
                          (Some (mkdatetime 2024 1 1 0 0 0 0))
                          (Some june_2024) "Created On" sample_frame r
                        && complete r)
              (rows sample_frame))) /\
  0 <= 2 <= Z.of_nat (length (rows sample_frame)).
Proof.
  apply (grand_count_of_the_file parse_iso_date plain june_2024 sample_frame
           "This Year" "Created On" sample_frame (Some sample_summary)
           (of_Z 15)).
  vm_compute. reflexivity.
Defined.

Lemma wider_window_counts_more_witness :
  Sales.load_and_process_data parse_iso_date plain june_2024 (Some sample_frame)
    "This Year" "Created On"
  = Ok (Bundle sample_frame (Some sample_summary) (of_Z 15) 2
          (Some (mkdatetime 2024 1 1 0 0 0 0)) (Some june_2024)) /\
  Sales.load_and_process_data parse_iso_date plain june_2024 (Some sample_frame)
    "All Time" "Created On"
  = Ok (Bundle sample_frame
          (Some [mksummary "A" 2 (of_Z 13); mksummary "B" 1 (of_Z 5)])
          (of_Z 18) 3 None None) /\
  2 <= 3.
Proof.
  split; [vm_compute; reflexivity |]. split; [vm_compute; reflexivity |].
  apply (wider_window_counts_more parse_iso_date plain june_2024 sample_frame
           "This Year" "All Time" "Created On"
           sample_frame sample_frame (Some sample_summary)
           (Some [mksummary "A" 2 (of_Z 13); mksummary "B" 1 (of_Z 5)])
           (of_Z 15) (of_Z 18) 2 3
           (Some (mkdatetime 2024 1 1 0 0 0 0)) (Some june_2024) None None).
  - reflexivity.
  - vm_compute. reflexivity.
  - vm_compute. reflexivity.
  - exact I.
Defined.

End LoaderFacts.
